(** * VecSetEdit job orchestration: the serverless handler and the GUI callback

    A shallow embedding of [.runpod/handler.py] and [app.py].  Both files
    drive the same two-stage pipeline (geometry edit, then an optional
    texture repaint) as child processes.  The embedding keeps

    - request dictionaries as finite maps from keys to JSON-like values,
    - every call that leaves the interpreter (file system, network, clock,
      child processes, codecs) as a field of a [World], about which nothing
      is assumed,
    - the functions themselves as programs of a state-and-exception monad
      that also records the external actions they perform.

    Logging ([LOGGER.*] in [app.py]) and the [progress(...)] callbacks only
    write to the request log and to the UI; they neither change a returned
    value nor decide which stage runs, and are not part of the embedding. *)

From Stdlib Require Import ZArith String Ascii List.
From stdpp Require Import gmap strings list pretty.

Local Open Scope Z_scope.

(** ** Python values, strings and paths *)
Module Py.

Definition bytes := list Byte.byte.

(** A Python [float], given by a decimal literal: [mk_float n e] stands
    for the binary64 value nearest to [n * 10^(-e)], which is how a JSON
    number or a source literal becomes a [float].  Zero is written with
    [n = 0]; infinities and NaN have no literal and are not values of
    this type.  Where the literal alone decides what Python computes
    ([float_short], [float_integral], [float_plain] below) the functions
    compute on it; elsewhere they ask the [World]. *)
Record pyfloat := mk_float { f_num : Z; f_exp : nat }.

(** The values a decoded JSON request can hold. *)
#[warnings="-register-all"] Inductive pyval :=
| VNone
| VBool (b : bool)
| VInt (z : Z)
| VFloat (f : pyfloat)
| VStr (s : string)
| VList (l : list pyval)
| VDict (l : list (string * pyval)).

(** Exceptions that can leave the modelled functions. *)
Inductive exn :=
| TypeError
| ValueError
| RequestException
| OSError
| OverflowError.

(** Python truthiness, as used by [or], [and] and [if]. *)
Definition truthy (v : pyval) : bool :=
  match v with
  | VNone => false
  | VBool b => b
  | VInt z => negb (z =? 0)
  | VFloat f => negb (f_num f =? 0)
  | VStr s => negb (String.eqb s "")
  | VList l => match l with [] => false | _ => true end
  | VDict l => match l with [] => false | _ => true end
  end.

(** [x is True]: identity with the singleton [True]. *)
Definition is_True (v : pyval) : bool :=
  match v with
  | VBool true => true
  | _ => false
  end.

(** [d.get(k)] and [d.get(k, default)]. *)
Definition dict_get (d : gmap string pyval) (k : string) : pyval :=
  default VNone (d !! k).

Definition dict_get_or (d : gmap string pyval) (k : string) (dflt : pyval) : pyval :=
  default dflt (d !! k).

(** [k in d and d[k]]. *)
Definition present_nonempty (d : gmap string pyval) (k : string) : bool :=
  match d !! k with
  | Some v => truthy v
  | None => false
  end.

Definition nl : string := String "010"%char EmptyString.

(** [sep.join(l)] *)
Definition join (sep : string) (l : list string) : string := String.concat sep l.

(** [s.endswith("/")] *)
Fixpoint ends_with_slash (s : string) : bool :=
  match s with
  | EmptyString => false
  | String c EmptyString => Ascii.eqb c "/"%char
  | String _ r => ends_with_slash r
  end.

(** [s.startswith("/")] *)
Definition starts_with_slash (s : string) : bool :=
  match s with
  | EmptyString => false
  | String c _ => Ascii.eqb c "/"%char
  end.

(** [os.path.join(a, b)] (posixpath, two components). *)
Definition os_path_join (a b : string) : string :=
  if starts_with_slash b then b
  else if String.eqb a "" || ends_with_slash a then a +:+ b
  else a +:+ "/" +:+ b.

Fixpoint has_slash (s : string) : bool :=
  match s with
  | EmptyString => false
  | String c r => Ascii.eqb c "/"%char || has_slash r
  end.

(** [os.path.basename(p)]: what follows the last slash. *)
Fixpoint os_path_basename (p : string) : string :=
  match p with
  | EmptyString => EmptyString
  | String c r =>
      if has_slash r then os_path_basename r
      else if Ascii.eqb c "/"%char then r
      else p
  end.

(** [str(n)] for an [int]. *)
Definition int_str (z : Z) : string := pretty z.

Fixpoint float_norm (e : nat) (n : Z) : Z * nat :=
  match e with
  | O => (n, O)
  | S e' => if n mod 10 =? 0 then float_norm e' (n / 10) else (n, e)
  end.

(** The literal has at most 15 significant digits: the binary64 value
    then determines it, and rounding it moves it across no integer. *)
Definition float_short (f : pyfloat) : bool := Z.abs (f_num f) <? 10 ^ 15.

(** The literal is an integer that binary64 holds exactly. *)
Definition float_integral (f : pyfloat) : bool :=
  Nat.eqb (f_exp f) 0 && (Z.abs (f_num f) <=? 2 ^ 53).

(** The values [repr] prints in positional notation with the digits of
    the literal: zero, the integers binary64 holds exactly (all below
    [1e16]), and the literals of at most 15 significant digits from
    [1e-4] on. *)
Definition float_plain (f : pyfloat) : bool :=
  (f_num f =? 0) || float_integral f ||
  (float_short f && (10 ^ Z.of_nat (f_exp f) <=? Z.abs (f_num f) * 10 ^ 4)).

(** Positional notation: integer part, a point, and the fraction without
    trailing zeros (at least one digit). *)
Definition float_positional (f : pyfloat) : string :=
  let '(n, e) := float_norm (f_exp f) (f_num f) in
  let a := Z.abs n in
  let p := 10 ^ Z.of_nat e in
  (if n <? 0 then "-" else "") +:+ pretty (a / p) +:+ "." +:+
  match e with
  | O => "0"
  | S _ => String.substring 1 e (pretty (p + a mod p))
  end.

(** Truncation of the literal towards zero. *)
Definition float_trunc (f : pyfloat) : Z :=
  Z.quot (f_num f) (10 ^ Z.of_nat (f_exp f)).

Definition float_of_Z (z : Z) : pyfloat := mk_float z 0.

End Py.
Export Py.

(** ** The outside world *)
Module Os.

(** What [subprocess.run(..., capture_output=True, text=True)] returns. *)
Record completed := mk_completed {
  returncode : Z;
  stdout : string;
  stderr : string
}.

(** Outcome of the streamed GET of [_download]: the request or its status
    check raises before the destination is opened; the whole body arrives;
    or the stream breaks after part of the body arrived. *)
Inductive fetch :=
| FetchFailed
| FetchBody (body : bytes)
| FetchBroken (partial : bytes).

(** Everything the two front-ends ask of their environment.  [St] is the
    state of that environment (file system, network, entropy). *)
Class World := {
  St : Type;
  (* installation *)
  handler_file_dir : string;
  root_dir : string;
  sys_executable : string;
  (* clock and entropy *)
  utcnow_stamp : St -> string;
  uuid4_hex : St -> string;
  (* file system *)
  mkdtemp : string -> St -> option (string * St);
  makedirs : string -> St -> St;
  path_exists : St -> string -> bool;
  read_bytes : St -> string -> option bytes;
  write_bytes : string -> bytes -> St -> option St;
  copy2 : string -> string -> St -> option St;
  make_archive : string -> string -> St -> string * St;
  (* network and child processes *)
  http_get : pyval -> St -> fetch;
  subprocess_run : list string -> string -> St -> completed * St;
  (* library functions left uninterpreted *)
  abspath : string -> string;
  b64decode : pyval -> option bytes;
  b64encode : bytes -> string;
  str_to_float : string -> option pyfloat;
  str_to_int : string -> option Z;
  repr_container : pyval -> string;
  (* binary64 arithmetic outside the range where the literal decides *)
  float_repr : pyfloat -> string;
  int_to_float : Z -> option pyfloat;
  float_to_int : pyfloat -> Z
}.

Section Monad.
Context {W : World}.

(** The external actions a run performs, in order. *)
Inductive event :=
| EvMkdtemp (prefix path : string)
| EvMakedirs (path : string)
| EvFetch (url : pyval)
| EvWrite (path : string) (data : bytes)
| EvCopy (src dst : string)
| EvRun (cmd : list string) (cwd : string) (res : completed) (post : St)
| EvArchive (base src : string) (path : string).

Inductive outcome (A : Type) :=
| Ok (a : A)
| Raise (e : exn).
Global Arguments Ok {A} a.
Global Arguments Raise {A} e.

(** A computation reads the world, returns or raises, and leaves a new
    world and the list of actions it performed. *)
Definition M (A : Type) : Type := St -> outcome A * St * list event.

Definition ret {A} (a : A) : M A := fun s => (Ok a, s, []).

Definition raise {A} (e : exn) : M A := fun s => (Raise e, s, []).

Definition bind {A B} (m : M A) (f : A -> M B) : M B :=
  fun s =>
    match m s with
    | (Ok a, s1, t1) =>
        match f a s1 with
        | (r, s2, t2) => (r, s2, t1 ++ t2)
        end
    | (Raise e, s1, t1) => (Raise e, s1, t1)
    end.

Definition gets {A} (f : St -> A) : M A := fun s => (Ok (f s), s, []).

Definition lift_option {A} (e : exn) (o : option A) : M A :=
  match o with
  | Some a => ret a
  | None => raise e
  end.

(** The primitive actions. *)
Definition do_mkdtemp (prefix : string) : M string :=
  fun s =>
    match mkdtemp prefix s with
    | Some (p, s') => (Ok p, s', [EvMkdtemp prefix p])
    | None => (Raise OSError, s, [])
    end.

Definition do_makedirs (path : string) : M unit :=
  fun s => (Ok tt, makedirs path s, [EvMakedirs path]).

Definition do_write (path : string) (data : bytes) : M unit :=
  fun s =>
    match write_bytes path data s with
    | Some s' => (Ok tt, s', [EvWrite path data])
    | None => (Raise OSError, s, [])
    end.

Definition do_read (path : string) : M bytes :=
  fun s =>
    match read_bytes s path with
    | Some b => (Ok b, s, [])
    | None => (Raise OSError, s, [])
    end.

Definition do_copy2 (src dst : string) : M unit :=
  fun s =>
    match copy2 src dst s with
    | Some s' => (Ok tt, s', [EvCopy src dst])
    | None => (Raise OSError, s, [])
    end.

Definition do_make_archive (base src : string) : M string :=
  fun s => let '(p, s') := make_archive base src s in (Ok p, s', [EvArchive base src p]).

Definition do_run (cmd : list string) (cwd : string) : M completed :=
  fun s => let '(r, s') := subprocess_run cmd cwd s in (Ok r, s', [EvRun cmd cwd r s']).

(** [str(x)] for a [float]: [repr] gives the shortest literal that
    reads back as the same binary64 value, in positional notation from
    [1e-4] up to [1e16] and in exponent notation elsewhere. *)
Definition float_str (f : pyfloat) : string :=
  if float_plain f then float_positional f else float_repr f.

(** [str(v)] *)
Definition py_str (v : pyval) : string :=
  match v with
  | VNone => "None"
  | VBool true => "True"
  | VBool false => "False"
  | VInt z => int_str z
  | VFloat f => float_str f
  | VStr s => s
  | VList _ | VDict _ => repr_container v
  end.

(** [float(v)]: an [int] up to [2^53] is converted exactly; a larger one
    is rounded by the interpreter, or is an [OverflowError]. *)
Definition py_float (v : pyval) : M pyfloat :=
  match v with
  | VBool b => ret (float_of_Z (if b then 1 else 0))
  | VInt z =>
      if Z.abs z <=? 2 ^ 53 then ret (float_of_Z z)
      else lift_option OverflowError (int_to_float z)
  | VFloat f => ret f
  | VStr s => lift_option ValueError (str_to_float s)
  | VNone | VList _ | VDict _ => raise TypeError
  end.

(** [int(v)]: a [float] is truncated towards zero; the literal gives
    the result when it has at most 15 significant digits or is an
    integer that binary64 holds exactly. *)
Definition py_int (v : pyval) : M Z :=
  match v with
  | VBool b => ret (if b then 1 else 0)
  | VInt z => ret z
  | VFloat f =>
      if float_short f || float_integral f then ret (float_trunc f)
      else ret (float_to_int f)
  | VStr s => lift_option ValueError (str_to_int s)
  | VNone | VList _ | VDict _ => raise TypeError
  end.

(** [os.path.join(d, v)] where [v] comes out of a request: anything
    but a string is a [TypeError]. *)
Definition py_path_join (d : string) (v : pyval) : M string :=
  match v with
  | VStr s => ret (os_path_join d s)
  | _ => raise TypeError
  end.

(** The projections of a trace the statements below speak about. *)
Definition runs (t : list event) : list (list string * completed * St) :=
  omap (fun e => match e with EvRun c _ r s => Some (c, r, s) | _ => None end) t.

Definition writes (t : list event) : list (string * bytes) :=
  omap (fun e => match e with EvWrite p b => Some (p, b) | _ => None end) t.

End Monad.

Declare Scope prog_scope.
Delimit Scope prog_scope with prog.
Notation "'do' x <- m ; k" := (bind m (fun x => k))
  (at level 10, x name, m at level 100, k at level 200) : prog_scope.
Notation "'do' ' p <- m ; k" := (bind m (fun x => match x with p => k end))
  (at level 10, p pattern, m at level 100, k at level 200) : prog_scope.
Notation "'exec' m ; k" := (bind m (fun _ => k))
  (at level 10, m at level 100, k at level 200) : prog_scope.

End Os.
Export Os.

(** ** [.runpod/handler.py] *)
Module Handler.
Section Code.
Context {W : World}.
Local Open Scope prog_scope.

Definition REPO_DIR : string := abspath (os_path_join handler_file_dir "..").
Definition VECSET_SCRIPT : string := os_path_join REPO_DIR "vecset_edit.py".
Definition TEXTURE_SCRIPT : string := os_path_join REPO_DIR "preserving_texture_baking.py".

Definition _safe_mkdir (path : string) : M unit := do_makedirs path.

Definition do_fetch (url : pyval) : M fetch :=
  fun s => (Ok (http_get url s), s, [EvFetch url]).

(** [_download]: nothing is opened when the request or
    [raise_for_status] raises; the chunks received are written in
    order. *)
Definition _download (url : pyval) (dest_path : string) : M unit :=
  do r <- do_fetch url;
  match r with
  | FetchFailed => raise RequestException
  | FetchBody body => do_write dest_path body
  | FetchBroken partial => exec do_write dest_path partial; raise RequestException
  end.

Definition _write_base64 (data_b64 : pyval) (dest_path : string) : M unit :=
  do raw <-
    match data_b64 with
    | VStr _ => lift_option ValueError (b64decode data_b64)
    | _ => raise TypeError
    end;
  do_write dest_path raw.

(** [a or b] *)
Definition py_or (a b : pyval) : pyval := if truthy a then a else b.

Definition _get_input_file (input_data : gmap string pyval)
    (key_prefix dest_dir default_name : string) : M (option string) :=
  let url_key := key_prefix +:+ "_url" in
  let b64_key := key_prefix +:+ "_base64" in
  let name_key := key_prefix +:+ "_filename" in
  let filename := py_or (dict_get input_data name_key) (VStr default_name) in
  do dest_path <- py_path_join dest_dir filename;
  if present_nonempty input_data url_key then
    exec _download (dict_get input_data url_key) dest_path;
    ret (Some dest_path)
  else if present_nonempty input_data b64_key then
    exec _write_base64 (dict_get input_data b64_key) dest_path;
    ret (Some dest_path)
  else ret None.

(** The log [_run_cmd] assembles from a finished process. *)
Definition run_log (cmd : list string) (result : completed) : string :=
  let log := ["$ " +:+ join " " cmd] in
  let log := if String.eqb (stdout result) "" then log else log ++ [stdout result] in
  let log := if String.eqb (stderr result) "" then log else log ++ [stderr result] in
  join nl log.

Definition _run_cmd (cmd : list string) (workdir : string) : M (Z * string) :=
  do result <- do_run cmd workdir;
  ret (returncode result, run_log cmd result).

Definition _zip_dir (src_dir dest_base : string) : M string :=
  do_make_archive dest_base src_dir.

Definition _encode_file (path : string) : M pyval :=
  do data <- do_read path;
  ret (VDict [("filename", VStr (os_path_basename path));
              ("size_bytes", VInt (Z.of_nat (length data)));
              ("base64", VStr (b64encode data))]).

Definition candidates : list string :=
  ["edited_mesh.glb";
   "edited_mesh_views.png";
   "selected_fixed_tokens_views.png";
   "2d_masked_input.png";
   "mv_repaint_model.glb";
   "mv_adapter_repaint_6_views.png";
   "mv_adapter_6_views.png"].

(** [_collect_outputs]: the insertion-ordered dictionary name -> path. *)
Definition _collect_outputs (output_dir : string) : M (list (string * string)) :=
  gets (fun s =>
    omap (fun name =>
            let path := os_path_join output_dir name in
            if path_exists s path then Some (name, path) else None)
         candidates).

Fixpoint mapM {A B} (f : A -> M B) (l : list A) : M (list B) :=
  match l with
  | [] => ret []
  | a :: l' => do b <- f a; do bs <- mapM f l'; ret (b :: bs)
  end.

(** [os.path.basename] of a resolved slot. *)
Definition basename_of (p : option string) : M string :=
  lift_option TypeError (os_path_basename <$> p).

Definition dry_run_response : gmap string pyval :=
  {[ "status" := VStr "ok"; "message" := VStr "dry_run: handler is reachable" ]}.

Definition missing_response (missing : list string) : gmap string pyval :=
  {[ "status" := VStr "error";
     "message" := VStr ("Missing required inputs: " +:+ join ", " missing) ]}.

Definition edit_failed_response (log : string) : gmap string pyval :=
  {[ "status" := VStr "error";
     "message" := VStr "vecset_edit failed";
     "log" := VStr log ]}.

Definition texture_failed_response (log log2 : string) : gmap string pyval :=
  {[ "status" := VStr "error";
     "message" := VStr "texture repaint failed";
     "log" := VStr (log +:+ nl +:+ nl +:+ log2) ]}.

(** Lines 233-249: collection and packaging. *)
Definition package (input_data : gmap string pyval) (run_id : pyval)
    (work_dir output_dir log : string) (texture_log : option string)
    : M (gmap string pyval) :=
  do outputs <- _collect_outputs output_dir;
  let result : gmap string pyval :=
    {[ "status" := VStr "ok";
       "run_id" := run_id;
       "outputs" := VList (VStr <$> outputs.*1);
       "log" := VStr (match texture_log with
                      | Some tl => if String.eqb tl "" then log
                                   else log +:+ nl +:+ nl +:+ tl
                      | None => log
                      end) ]} in
  do result <-
    (if is_True (dict_get input_data "return_files") then
       do files <- mapM (fun np => do enc <- _encode_file np.2; ret (np.1, enc)) outputs;
       ret (<["files" := VDict files]> result)
     else ret result);
  if is_True (dict_get input_data "return_zip_base64") then
    do archive_path <- _zip_dir output_dir (os_path_join work_dir "results");
    do enc <- _encode_file archive_path;
    ret (<["zip" := enc]> result)
  else ret result.

(** Lines 204-231: the optional second stage; [inl] is an early return. *)
Definition texture_stage (input_data : gmap string pyval)
    (output_dir log : string) : M (gmap string pyval + option string) :=
  if is_True (dict_get input_data "run_texture_repaint") then
    do seed <- py_int (dict_get_or input_data "seed" (VInt 99999));
    let render_method := dict_get_or input_data "render_method" (VStr "nvdiffrast") in
    let cmd2 :=
      ["python";
       TEXTURE_SCRIPT;
       "--input_mesh";
       os_path_join output_dir "edited_mesh.glb";
       "--ref_mesh";
       os_path_join output_dir "source_model.glb";
       "--texture_image";
       os_path_join output_dir "2d_edit.png";
       "--output_dir";
       output_dir;
       "--seed";
       int_str seed;
       "--render_method";
       py_str render_method] in
    do '(code2, log2) <- _run_cmd cmd2 REPO_DIR;
    if negb (code2 =? 0) then ret (inl (texture_failed_response log log2))
    else ret (inr (Some log2))
  else ret (inr None).

(** Lines 147-194: the argument vector of the edit stage. *)
Definition edit_cmd (input_data : gmap string pyval)
    (input_dir output_dir : string)
    (mesh_path edit_path mask_path render_path : option string)
    : M (list string) :=
  do azimuth <- py_float (dict_get_or input_data "azimuth" (VFloat (mk_float 0 1)));
  do elevation <- py_float (dict_get_or input_data "elevation" (VFloat (mk_float 0 1)));
  do scale <- py_float (dict_get_or input_data "scale" (VFloat (mk_float 20 1)));
  do attentive_2d <- py_int (dict_get_or input_data "attentive_2d" (VInt 8));
  do cut_off_p <- py_float (dict_get_or input_data "cut_off_p" (VFloat (mk_float 5 1)));
  do topk_percent_2d <- py_float (dict_get_or input_data "topk_percent_2d" (VFloat (mk_float 2 1)));
  do threshold_percent_2d <-
    py_float (dict_get_or input_data "threshold_percent_2d" (VFloat (mk_float 1 1)));
  do step_pruning <- py_int (dict_get_or input_data "step_pruning" (VInt 5));
  do edit_strength <- py_float (dict_get_or input_data "edit_strength" (VFloat (mk_float 7 1)));
  do guidance_scale <- py_float (dict_get_or input_data "guidance_scale" (VFloat (mk_float 75 1)));
  do mesh_name <- basename_of mesh_path;
  do edit_name <- basename_of edit_path;
  do mask_name <- basename_of mask_path;
  let cmd :=
    ["python";
     VECSET_SCRIPT;
     "--input_dir";
     input_dir;
     "--output_dir";
     output_dir;
     "--mesh_file";
     mesh_name;
     "--edit_image";
     edit_name;
     "--mask_image";
     mask_name;
     "--azimuth";
     float_str azimuth;
     "--elevation";
     float_str elevation;
     "--scale";
     float_str scale;
     "--attentive_2d";
     int_str attentive_2d;
     "--cut_off_p";
     float_str cut_off_p;
     "--topk_percent_2d";
     float_str topk_percent_2d;
     "--threshold_percent_2d";
     float_str threshold_percent_2d;
     "--step_pruning";
     int_str step_pruning;
     "--edit_strength";
     float_str edit_strength;
     "--guidance_scale";
     float_str guidance_scale] in
  match render_path with
  | Some rp => ret (cmd ++ ["--render_image"; os_path_basename rp])
  | None => ret cmd
  end.

(** [run_id = input_data.get("run_id") or f"{stamp}_{uuid4().hex[:8]}"] *)
Definition new_run_id (input_data : gmap string pyval) : M pyval :=
  let v := dict_get input_data "run_id" in
  if truthy v then ret v
  else gets (fun s => VStr (utcnow_stamp s +:+ "_" +:+ String.substring 0 8 (uuid4_hex s))).

(** The names of the mandatory slots whose path is [None]. *)
Definition missing_of (slots : list (string * option string)) : list string :=
  omap (fun np => match np.2 with None => Some np.1 | Some _ => None end) slots.

(** Lines 196-249: the two stages, then collection and packaging. *)
Definition pipeline (input_data : gmap string pyval) (run_id : pyval)
    (work_dir output_dir : string) (cmd : list string) : M (gmap string pyval) :=
  do '(code, log) <- _run_cmd cmd REPO_DIR;
  if negb (code =? 0) then ret (edit_failed_response log)
  else
    do tex <- texture_stage input_data output_dir log;
    match tex with
    | inl response => ret response
    | inr texture_log =>
        package input_data run_id work_dir output_dir log texture_log
    end.

Definition handler (job : gmap string (gmap string pyval)) : M (gmap string pyval) :=
  let input_data := default ∅ (job !! "input") in
  if is_True (dict_get input_data "dry_run") then ret dry_run_response
  else
    do run_id <- new_run_id input_data;
    do work_dir <- do_mkdtemp ("vecset_" +:+ py_str run_id +:+ "_");
    let input_dir := os_path_join work_dir "input" in
    let output_dir := os_path_join work_dir "output" in
    exec _safe_mkdir input_dir;
    exec _safe_mkdir output_dir;
    do mesh_path <- _get_input_file input_data "mesh" input_dir "model.glb";
    do edit_path <- _get_input_file input_data "edit_image" input_dir "2d_edit.png";
    do mask_path <- _get_input_file input_data "mask_image" input_dir "2d_mask.png";
    do render_path <- _get_input_file input_data "render_image" input_dir "2d_render.png";
    let missing :=
      missing_of [("mesh", mesh_path); ("edit_image", edit_path); ("mask_image", mask_path)] in
    match missing with
    | _ :: _ => ret (missing_response missing)
    | [] =>
        do cmd <- edit_cmd input_data input_dir output_dir
                    mesh_path edit_path mask_path render_path;
        pipeline input_data run_id work_dir output_dir cmd
    end.

(** *** Vocabulary of the statements *)

(** A slot has neither a usable URL nor usable inline bytes. *)
Definition slot_unresolved (input_data : gmap string pyval) (key_prefix : string) : bool :=
  negb (present_nonempty input_data (key_prefix +:+ "_url")) &&
  negb (present_nonempty input_data (key_prefix +:+ "_base64")).

Definition mandatory_slots : list string := ["mesh"; "edit_image"; "mask_image"].

Definition missing_slots (input_data : gmap string pyval) : list string :=
  List.filter (slot_unresolved input_data) mandatory_slots.

(** The file name [_get_input_file] settles on:
    [input_data.get(name_key) or default_name]. *)
Definition py_or_name (input_data : gmap string pyval)
    (name_key default_name : string) : pyval :=
  py_or (dict_get input_data name_key) (VStr default_name).

(** The four keys tested with [is True]. *)
Definition gate_keys : list string :=
  ["dry_run"; "run_texture_repaint"; "return_files"; "return_zip_base64"].

(** The text of the ["log"] field of a successful response. *)
Definition ok_log (log : string) (texture_log : option string) : string :=
  match texture_log with
  | Some tl => if String.eqb tl "" then log else log +:+ nl +:+ nl +:+ tl
  | None => log
  end.

(** Fields of a response. *)
Definition has_field (response : gmap string pyval) (k : string) : bool :=
  bool_decide (is_Some (response !! k)).

End Code.
End Handler.

(** ** [app.py] *)
Module App.
Section Code.
Context {W : World}.
Local Open Scope prog_scope.

Definition ROOT_DIR : string := root_dir.
Definition RUNS_DIR : string := os_path_join ROOT_DIR "runs".

Definition _ensure_dir (path : string) : M unit := do_makedirs path.

(** The log [_run_cmd] assembles from a finished process. *)
Definition run_log (cmd : list string) (result : completed) : string :=
  let log := ["$ " +:+ join " " cmd] in
  let log := if String.eqb (stdout result) "" then log else log ++ [stdout result] in
  let log := if String.eqb (stderr result) "" then log else log ++ [stderr result] in
  join nl log.

Definition _run_cmd (cmd : list string) (workdir : string) : M (Z * string) :=
  do result <- do_run cmd workdir;
  ret (returncode result, run_log cmd result).

Definition _copy_uploaded (src_path dest_dir dest_name : string) : M string :=
  exec _ensure_dir dest_dir;
  let dest_path := os_path_join dest_dir dest_name in
  exec do_copy2 src_path dest_path;
  ret dest_path.

Definition _new_run_dir : M (string * string * string) :=
  do stamp <- gets utcnow_stamp;
  do hex <- gets uuid4_hex;
  let run_id := stamp +:+ "_" +:+ String.substring 0 8 hex in
  let run_dir := os_path_join RUNS_DIR run_id in
  let input_dir := os_path_join run_dir "input" in
  let output_dir := os_path_join run_dir "output" in
  exec _ensure_dir input_dir;
  exec _ensure_dir output_dir;
  ret (run_dir, input_dir, output_dir).

Definition _zip_dir (src_dir dest_base : string) : M string :=
  do_make_archive dest_base src_dir.

(** The form values the click handler passes to [run_vecset_edit]. *)
Record form := mk_form {
  mesh_file : option string;
  edit_image : option string;
  mask_image : option string;
  render_image : option string;
  azimuth : pyval;
  elevation : pyval;
  scale : pyval;
  attentive_2d : pyval;
  cut_off_p : pyval;
  topk_percent_2d : pyval;
  threshold_percent_2d : pyval;
  step_pruning : pyval;
  edit_strength : pyval;
  guidance_scale : pyval;
  run_texture_repaint : pyval;
  seed : pyval;
  render_method : string
}.

Definition missing_inputs_tuple : list (option string) :=
  [None; None; None; None; None;
   Some "Missing required inputs: mesh, edited image, and mask image are required."].

Definition edit_failed_tuple (code : Z) (log : string) : list (option string) :=
  [None; None; None; None; None;
   Some ("VecSetEdit failed (exit code " +:+ int_str code +:+ ")." +:+ nl +:+ nl +:+ log)].

(** [p if os.path.exists(p) else None] *)
Definition if_exists (s : St) (p : string) : option string :=
  if path_exists s p then Some p else None.

(** Lines 215-240: the optional second stage, which returns the path of
    the textured mesh (if any) and the log so far. *)
Definition texture_stage (f : form) (output_dir edited_mesh log : string)
    : M (option string * string) :=
  if truthy (run_texture_repaint f) then
    let cmd2 :=
      [sys_executable;
       "preserving_texture_baking.py";
       "--input_mesh";
       edited_mesh;
       "--ref_mesh";
       os_path_join output_dir "source_model.glb";
       "--texture_image";
       os_path_join output_dir "2d_edit.png";
       "--output_dir";
       output_dir;
       "--seed";
       py_str (seed f);
       "--render_method";
       render_method f] in
    do '(code2, log2) <- _run_cmd cmd2 ROOT_DIR;
    let log := log +:+ nl +:+ nl +:+ log2 in
    if code2 =? 0 then ret (Some (os_path_join output_dir "mv_repaint_model.glb"), log)
    else ret (None, log +:+ nl +:+ "Texture repaint failed (exit code " +:+ int_str code2 +:+ ").")
  else ret (None, log).

Definition run_vecset_edit (f : form) : M (list (option string)) :=
  match mesh_file f, edit_image f, mask_image f with
  | Some mesh, Some edit, Some mask =>
      do '(run_dir, input_dir, output_dir) <- _new_run_dir;
      let mesh_name := os_path_basename mesh in
      let edit_name := os_path_basename edit in
      let mask_name := os_path_basename mask in
      exec _copy_uploaded mesh input_dir mesh_name;
      exec _copy_uploaded edit input_dir edit_name;
      exec _copy_uploaded mask input_dir mask_name;
      do render_name <-
        match render_image f with
        | Some render =>
            if String.eqb render "" then ret None
            else
              let render_name := os_path_basename render in
              exec _copy_uploaded render input_dir render_name;
              ret (Some render_name)
        | None => ret None
        end;
      let cmd :=
        [sys_executable;
         "vecset_edit.py";
         "--input_dir";
         input_dir;
         "--output_dir";
         output_dir;
         "--mesh_file";
         mesh_name;
         "--edit_image";
         edit_name;
         "--mask_image";
         mask_name;
         "--azimuth";
         py_str (azimuth f);
         "--elevation";
         py_str (elevation f);
         "--scale";
         py_str (scale f);
         "--attentive_2d";
         py_str (attentive_2d f);
         "--cut_off_p";
         py_str (cut_off_p f);
         "--topk_percent_2d";
         py_str (topk_percent_2d f);
         "--threshold_percent_2d";
         py_str (threshold_percent_2d f);
         "--step_pruning";
         py_str (step_pruning f);
         "--edit_strength";
         py_str (edit_strength f);
         "--guidance_scale";
         py_str (guidance_scale f)] in
      let cmd :=
        match render_name with
        | Some rn => if String.eqb rn "" then cmd else cmd ++ ["--render_image"; rn]
        | None => cmd
        end in
      do '(code, log) <- _run_cmd cmd ROOT_DIR;
      if negb (code =? 0) then ret (edit_failed_tuple code log)
      else
        let edited_mesh := os_path_join output_dir "edited_mesh.glb" in
        let edited_views := os_path_join output_dir "edited_mesh_views.png" in
        let selected_views := os_path_join output_dir "selected_fixed_tokens_views.png" in
        let masked_input := os_path_join output_dir "2d_masked_input.png" in
        do '(texture_mesh, log) <- texture_stage f output_dir edited_mesh log;
        do archive_path <- _zip_dir output_dir (os_path_join run_dir "results");
        gets (fun s =>
          [if_exists s edited_mesh;
           match texture_mesh with
           | Some tm => if String.eqb tm "" then None else if_exists s tm
           | None => None
           end;
           if_exists s masked_input;
           if_exists s selected_views;
           if_exists s edited_views;
           if_exists s archive_path;
           Some log])
  | _, _, _ => ret missing_inputs_tuple
  end.

End Code.
End App.

(** ** A scripted world

    A small concrete environment: files are a list of paths with their
    contents, the network and the two child processes follow a script.  It
    serves to run the two front-ends on concrete requests. *)
Module Sim.

Record script := mk_script {
  edit_result : completed;
  edit_creates : list string;
  texture_result : completed;
  texture_creates : list string;
  net : pyval -> fetch
}.

(** The value that follows [flag] in an argument vector. *)
Fixpoint arg_after (flag : string) (cmd : list string) : option string :=
  match cmd with
  | a :: rest =>
      if String.eqb a flag then head rest else arg_after flag rest
  | [] => None
  end.

(** The files of the scripted world: paths with their contents, the most
    recent first. *)
Definition files := list (string * bytes).

Fixpoint file_lookup (s : files) (p : string) : option bytes :=
  match s with
  | (q, b) :: rest => if String.eqb q p then Some b else file_lookup rest p
  | [] => None
  end.

Definition touch (dir : string) (names : list string) (s : files) : files :=
  foldr (fun n acc => (os_path_join dir n, []) :: acc) s names.

Definition sim_run (sc : script) (cmd : list string) (cwd : string)
    (s : files) : completed * files :=
  let out := default "" (arg_after "--output_dir" cmd) in
  if String.eqb (os_path_basename (default "" (cmd !! 1%nat))) "vecset_edit.py"
  then (edit_result sc, touch out (edit_creates sc) s)
  else (texture_result sc, touch out (texture_creates sc) s).

Definition world (sc : script) : World := {|
  St := files;
  handler_file_dir := "/srv/vecset/.runpod";
  root_dir := "/srv/vecset";
  sys_executable := "/usr/bin/python3";
  utcnow_stamp := fun _ => "20240101_120000";
  uuid4_hex := fun _ => "0123456789abcdef0123456789abcdef";
  mkdtemp := fun prefix s =>
               if has_slash prefix then None else Some ("/tmp/" +:+ prefix +:+ "k3x9", s);
  makedirs := fun _ s => s;
  path_exists := fun s p => match file_lookup s p with Some _ => true | None => false end;
  read_bytes := file_lookup;
  write_bytes := fun p b s => Some ((p, b) :: s);
  copy2 := fun src dst s => (fun b => (dst, b) :: s) <$> file_lookup s src;
  make_archive := fun base _ s => (base +:+ ".zip", (base +:+ ".zip", []) :: s);
  http_get := fun url _ => net sc url;
  subprocess_run := sim_run sc;
  abspath := fun p => if String.eqb p "/srv/vecset/.runpod/.." then "/srv/vecset" else p;
  b64decode := fun v => match v with
                        | VStr s => Some (String.list_byte_of_string s)
                        | _ => None
                        end;
  b64encode := String.string_of_list_byte;
  str_to_float := fun _ => None;
  str_to_int := fun _ => None;
  repr_container := fun _ => "[]";
  float_repr := float_positional;
  int_to_float := fun z => Some (float_of_Z z);
  float_to_int := float_trunc
|}.

Definition proc (rc : Z) (out err : string) : completed := mk_completed rc out err.

(** Both stages succeed. *)
Definition all_good : script :=
  mk_script (proc 0 "edit done" "") ["edited_mesh.glb"; "source_model.glb"; "2d_edit.png"; "notes.txt"]
            (proc 0 "repaint done" "") ["mv_repaint_model.glb"]
            (fun _ => FetchFailed).

(** The edit stage fails. *)
Definition edit_fails : script :=
  mk_script (proc 2 "" "edit crashed") []
            (proc 0 "repaint done" "") ["mv_repaint_model.glb"]
            (fun _ => FetchFailed).

(** The edit stage succeeds, the texture repaint fails. *)
Definition texture_fails : script :=
  mk_script (proc 0 "edit done" "") ["edited_mesh.glb"; "source_model.glb"; "2d_edit.png"]
            (proc 1 "" "repaint crashed") []
            (fun _ => FetchFailed).


(** The handler returned a response whose status is [st]. *)
Definition status_is (o : outcome (gmap string pyval)) (st : string) : bool :=
  match o with
  | Ok response =>
      match response !! "status" with
      | Some (VStr x) => String.eqb x st
      | _ => false
      end
  | Raise _ => false
  end.

(** A request with the three mandatory slots inline. *)
Definition inline_request (extra : gmap string pyval) : gmap string (gmap string pyval) :=
  {[ "input" :=
       <["mesh_base64" := VStr "glTF"]>
       (<["edit_image_base64" := VStr "PNG1"]>
       (<["mask_image_base64" := VStr "PNG2"]> extra)) ]}.

(** An upload form with default parameters. *)
Definition upload_form (repaint : bool) : App.form :=
  App.mk_form (Some "/uploads/chair.glb") (Some "/uploads/2d_edit.png")
              (Some "/uploads/2d_mask.png") None
              (VFloat (mk_float 0 1)) (VFloat (mk_float 0 1)) (VFloat (mk_float 20 1))
              (VInt 8) (VFloat (mk_float 5 1)) (VFloat (mk_float 2 1))
              (VFloat (mk_float 1 1)) (VInt 5) (VFloat (mk_float 7 1))
              (VFloat (mk_float 75 1)) (VBool repaint) (VInt 99999) "nvdiffrast".

Definition uploads : files :=
  [("/uploads/chair.glb", []); ("/uploads/2d_edit.png", []); ("/uploads/2d_mask.png", [])].

(** Nothing on disk yet. *)
Definition empty_disk : files := [].

End Sim.

(** ** Vocabulary of the proofs *)
Section Vocabulary.
Context {W : World}.

(** A computation that starts no child process. *)
Definition quiet {A} (m : M A) : Prop :=
  forall s r s' t, m s = (r, s', t) -> runs t = [].

(** A computation that only reads the world. *)
Definition readonly {A} (m : M A) : Prop :=
  forall s r s' t, m s = (r, s', t) -> s' = s /\ t = [].

(** How a run that is not a dry run goes on once its work directory
    [work_dir] is allocated: it ends before the first stage, or else
    reaches the pipeline. *)
Definition after_alloc (d : gmap string pyval) (run_id : pyval) (work_dir : string)
    (r : outcome (gmap string pyval)) (s' : St) (t : list event) : Prop :=
  (exists e, r = Raise e /\ runs t = []) \/
  (Handler.missing_slots d <> [] /\
   r = Ok (Handler.missing_response (Handler.missing_slots d)) /\ runs t = []) \/
  (exists cmd s0 t0 t1,
      Handler.missing_slots d = [] /\ runs t0 = [] /\ t = t0 ++ t1 /\
      cmd !! 1%nat = Some Handler.VECSET_SCRIPT /\
      Handler.pipeline d run_id work_dir (os_path_join work_dir "output") cmd s0
      = (r, s', t1)).

(** The run identifier: the caller's, when truthy, else a fresh one. *)
Definition run_id_of (d : gmap string pyval) (s : St) : pyval :=
  if truthy (dict_get d "run_id") then dict_get d "run_id"
  else VStr (utcnow_stamp s +:+ "_" +:+ String.substring 0 8 (uuid4_hex s)).

(** The seven slots returned after the stages. *)
Definition outputs_tuple (s : St) (output_dir : string) (texture_mesh : option string)
    (archive_path log : string) : list (option string) :=
  [App.if_exists s (os_path_join output_dir "edited_mesh.glb");
   texture_mesh;
   App.if_exists s (os_path_join output_dir "2d_masked_input.png");
   App.if_exists s (os_path_join output_dir "selected_fixed_tokens_views.png");
   App.if_exists s (os_path_join output_dir "edited_mesh_views.png");
   App.if_exists s archive_path;
   Some log].

(** What happens from the first stage on, for a run whose output
    directory is [od]. *)
Definition after_edit_cmd (f : App.form) (od : string) (cmd : list string) (s0 : St)
    (r : outcome (list (option string))) (s' : St) (t : list event) : Prop :=
  exists p1 s1,
    subprocess_run cmd App.ROOT_DIR s0 = (p1, s1) /\
    let log := App.run_log cmd p1 in
    let ev1 := EvRun cmd App.ROOT_DIR p1 s1 in
    (returncode p1 <> 0 /\ r = Ok (App.edit_failed_tuple (returncode p1) log) /\
     s' = s1 /\ t = [ev1]) \/
    (returncode p1 = 0 /\ truthy (App.run_texture_repaint f) = false /\
     exists base ap,
       make_archive base od s1 = (ap, s') /\
       t = [ev1; EvArchive base od ap] /\
       r = Ok (outputs_tuple s' od None ap log)) \/
    (returncode p1 = 0 /\ truthy (App.run_texture_repaint f) = true /\
     exists cmd2 p2 s2 base ap,
       subprocess_run cmd2 App.ROOT_DIR s1 = (p2, s2) /\
       cmd2 !! 1%nat = Some "preserving_texture_baking.py" /\
       make_archive base od s2 = (ap, s') /\
       t = [ev1; EvRun cmd2 App.ROOT_DIR p2 s2; EvArchive base od ap] /\
       let log2 := App.run_log cmd2 p2 in
       (returncode p2 = 0 ->
        r = Ok (outputs_tuple s' od
                  (App.if_exists s' (os_path_join od "mv_repaint_model.glb")) ap
                  (log +:+ nl +:+ nl +:+ log2))) /\
       (returncode p2 <> 0 ->
        r = Ok (outputs_tuple s' od None ap
                  ((log +:+ nl +:+ nl +:+ log2) +:+ nl +:+
                   "Texture repaint failed (exit code " +:+ int_str (returncode p2)
                   +:+ ").")))).

Definition gui_run (f : App.form)
    (r : outcome (list (option string))) (s' : St) (t : list event) : Prop :=
  (exists e, r = Raise e /\ runs t = []) \/
  (exists od cmd s0 t0 t1,
      runs t0 = [] /\ t = t0 ++ t1 /\
      cmd !! 1%nat = Some "vecset_edit.py" /\ cmd !! 5%nat = Some od /\
      after_edit_cmd f od cmd s0 r s' t1).

End Vocabulary.

(** ** Vocabulary of the further properties *)
Section MoreVocabulary.
Context {W : World}.

(** More projections of a trace. *)
Definition archives (t : list event) : list (string * string * string) :=
  omap (fun e => match e with EvArchive b src p => Some (b, src, p) | _ => None end) t.

Definition copies (t : list event) : list (string * string) :=
  omap (fun e => match e with EvCopy src dst => Some (src, dst) | _ => None end) t.

(** The actions of one slot resolution: at most a fetch and a write. *)
Definition fetch_or_write (t : list event) : Prop :=
  Forall (fun e => match e with EvFetch _ | EvWrite _ _ => True | _ => False end) t.

(** Values that [float()] and [int()] reject with a [TypeError]. *)
Definition uncoercible (v : pyval) : bool :=
  match v with
  | VNone | VList _ | VDict _ => true
  | _ => false
  end.

(** The ten numeric parameters of the edit stage. *)
Definition numeric_keys : list string :=
  ["azimuth"; "elevation"; "scale"; "attentive_2d"; "cut_off_p"; "topk_percent_2d";
   "threshold_percent_2d"; "step_pruning"; "edit_strength"; "guidance_scale"].

(** The flags of the edit stage, in the order both front-ends emit them. *)
Definition edit_flags : list string :=
  ["--input_dir"; "--output_dir"; "--mesh_file"; "--edit_image"; "--mask_image";
   "--azimuth"; "--elevation"; "--scale"; "--attentive_2d"; "--cut_off_p";
   "--topk_percent_2d"; "--threshold_percent_2d"; "--step_pruning"; "--edit_strength";
   "--guidance_scale"].

(** The elements of a list at the even positions 0, 2, 4, ... *)
Fixpoint evens {A} (l : list A) : list A :=
  match l with
  | a :: _ :: rest => a :: evens rest
  | [a] => [a]
  | [] => []
  end.



(** The uploads a GUI run stages, in the order it copies them. *)
Definition gui_uploads (f : App.form) : list string :=
  match App.mesh_file f, App.edit_image f, App.mask_image f with
  | Some mesh, Some edit, Some mask =>
      [mesh; edit; mask] ++
      match App.render_image f with
      | Some render => if String.eqb render "" then [] else [render]
      | None => []
      end
  | _, _, _ => []
  end.

(** The run directory [_new_run_dir] picks in the world [s]. *)
Definition gui_run_dir (s : St) : string :=
  os_path_join App.RUNS_DIR
    (utcnow_stamp s +:+ "_" +:+ String.substring 0 8 (uuid4_hex s)).

(** An upload and the place [_copy_uploaded] gives it in [input_dir]. *)
Definition staged (input_dir src : string) : string * string :=
  (src, os_path_join input_dir (os_path_basename src)).

(** The argument vector of the texture stage of the GUI. *)
Definition gui_texture_cmd (f : App.form) (od : string) : list string :=
  [sys_executable; "preserving_texture_baking.py";
   "--input_mesh"; os_path_join od "edited_mesh.glb";
   "--ref_mesh"; os_path_join od "source_model.glb";
   "--texture_image"; os_path_join od "2d_edit.png";
   "--output_dir"; od;
   "--seed"; py_str (App.seed f);
   "--render_method"; App.render_method f].

(** What a GUI run does from its first stage on, with run directory
    [run_dir], output directory [od] and edit command [cmd]. *)
Definition gui_stages (f : App.form) (run_dir od : string) (cmd : list string) (s0 : St)
    (r : outcome (list (option string))) (s' : St) (t : list event) : Prop :=
  exists p1 s1,
    subprocess_run cmd App.ROOT_DIR s0 = (p1, s1) /\
    let log := App.run_log cmd p1 in
    let ev1 := EvRun cmd App.ROOT_DIR p1 s1 in
    if negb (returncode p1 =? 0)
    then r = Ok (App.edit_failed_tuple (returncode p1) log) /\ s' = s1 /\ t = [ev1]
    else exists tr sc tm lg ap,
        make_archive (os_path_join run_dir "results") od sc = (ap, s') /\
        t = ev1 :: tr ++ [EvArchive (os_path_join run_dir "results") od ap] /\
        r = Ok (outputs_tuple s' od tm ap lg) /\
        ((truthy (App.run_texture_repaint f) = false /\
          tr = [] /\ sc = s1 /\ tm = None /\ lg = log) \/
         (truthy (App.run_texture_repaint f) = true /\
          exists p2,
            let log2 := App.run_log (gui_texture_cmd f od) p2 in
            subprocess_run (gui_texture_cmd f od) App.ROOT_DIR s1 = (p2, sc) /\
            tr = [EvRun (gui_texture_cmd f od) App.ROOT_DIR p2 sc] /\
            if returncode p2 =? 0
            then tm = App.if_exists s' (os_path_join od "mv_repaint_model.glb") /\
                 lg = log +:+ nl +:+ nl +:+ log2
            else tm = None /\
                 lg = (log +:+ nl +:+ nl +:+ log2) +:+ nl +:+
                      "Texture repaint failed (exit code " +:+ int_str (returncode p2)
                      +:+ ").")).

(** The four input slots with their default file names. *)
Definition input_slots : list (string * string) :=
  [("mesh", "model.glb"); ("edit_image", "2d_edit.png");
   ("mask_image", "2d_mask.png"); ("render_image", "2d_render.png")].

(** What resolving one slot may write: nothing, or one file at the
    slot's destination in [dir]. *)
Definition slot_write (d : gmap string pyval) (dir : string) (slot : string * string)
    (w : list (string * bytes)) : Prop :=
  w = [] \/
  exists n b, Handler.py_or_name d (slot.1 +:+ "_filename") slot.2 = VStr n /\
              w = [(os_path_join dir n, b)].

End MoreVocabulary.

(** ** Paths *)
Section PathFacts.

Lemma has_slash_app a b : has_slash (a +:+ b) = has_slash a || has_slash b.
Proof.
  induction a as [|c a IH]; [done |].
  change (String c a +:+ b) with (String c (a +:+ b)).
  cbn [has_slash]. rewrite IH. by destruct (Ascii.eqb c "/").
Qed.

Lemma ends_with_slash_has_slash a : ends_with_slash a = true -> has_slash a = true.
Proof.
  induction a as [|c a IH]; [done |]. cbn. destruct a as [|c' a'].
  - intros ->. done.
  - intros H. rewrite (IH H). by destruct (Ascii.eqb c "/").
Qed.

Lemma basename_no_slash n : has_slash n = false -> os_path_basename n = n.
Proof.
  destruct n as [|c n]; [done |]. cbn.
  destruct (Ascii.eqb c "/"); [done |]. cbn. by intros ->.
Qed.

Lemma basename_app_slash a n :
  has_slash n = false -> os_path_basename (a +:+ "/" +:+ n) = n.
Proof.
  intros Hn. induction a as [|c a IH].
  - change ("" +:+ "/" +:+ n) with (String "/"%char n).
    cbn [os_path_basename]. by rewrite Hn, Ascii.eqb_refl.
  - change (String c a +:+ "/" +:+ n) with (String c (a +:+ "/" +:+ n)).
    cbn [os_path_basename]. rewrite has_slash_app.
    change ("/" +:+ n) with (String "/"%char n). cbn [has_slash].
    rewrite Ascii.eqb_refl, orb_true_r. exact IH.
Qed.

Lemma basename_app_dir a n :
  ends_with_slash a = true -> has_slash n = false -> os_path_basename (a +:+ n) = n.
Proof.
  intros Ha Hn. induction a as [|c a IH]; [done |].
  destruct a as [|c' a'].
  - change (String c "" +:+ n) with (String c n).
    cbn [ends_with_slash] in Ha. cbn [os_path_basename]. by rewrite Hn, Ha.
  - change (String c (String c' a') +:+ n) with (String c (String c' a' +:+ n)).
    cbn [os_path_basename]. rewrite has_slash_app.
    rewrite (ends_with_slash_has_slash (String c' a')) by exact Ha.
    cbn [orb]. by apply IH.
Qed.

Lemma prefix_slash_has_slash n : starts_with_slash n = true -> has_slash n = true.
Proof. destruct n as [|c n]; [done |]. cbn. by intros ->. Qed.

(** The base name of [os.path.join(d, n)] is [n] when [n] has no slash. *)
Lemma basename_join d n : has_slash n = false -> os_path_basename (os_path_join d n) = n.
Proof.
  intros Hn. unfold os_path_join.
  destruct (starts_with_slash n) eqn:Hp.
  { apply prefix_slash_has_slash in Hp. congruence. }
  destruct (String.eqb_spec d "") as [-> | Hd]; cbn [orb].
  { by apply basename_no_slash. }
  destruct (ends_with_slash d) eqn:He.
  - by apply basename_app_dir.
  - by apply basename_app_slash.
Qed.

(** A relative name lands directly below a directory that is written
    without a trailing slash. *)
Lemma join_relative d n :
  starts_with_slash n = false -> d <> "" -> ends_with_slash d = false ->
  os_path_join d n = d +:+ "/" +:+ n.
Proof.
  intros Hp Hd He. unfold os_path_join. rewrite Hp, He.
  by destruct (String.eqb_spec d "").
Qed.

Lemma ends_with_slash_app a b : b <> "" -> ends_with_slash (a +:+ b) = ends_with_slash b.
Proof.
  intros Hb. induction a as [|c a IH]; [done |].
  change (String c a +:+ b) with (String c (a +:+ b)).
  cbn [ends_with_slash]. destruct (a +:+ b) eqn:E; [| exact IH].
  destruct a, b; done.
Qed.

Lemma join_nonempty_tail d n :
  n <> "" -> ends_with_slash n = false ->
  os_path_join d n <> "" /\ ends_with_slash (os_path_join d n) = false.
Proof.
  intros Hn He. unfold os_path_join.
  destruct (starts_with_slash n); [done |].
  destruct (String.eqb d "" || ends_with_slash d).
  - split; [destruct d, n; done |]. by rewrite ends_with_slash_app.
  - split; [destruct d; done |].
    rewrite ends_with_slash_app by (destruct n; done).
    destruct n; [done |]. exact He.
Qed.

End PathFacts.

(** * Properties *)

(** ** Reasoning about monadic programs *)
Section MonadFacts.
Context {W : World}.

Lemma runs_app (t1 t2 : list event) : runs (t1 ++ t2) = runs t1 ++ runs t2.
Proof. unfold runs. apply omap_app. Qed.

Lemma runs_cons_run c wd p s1 (t : list event) :
  runs (EvRun c wd p s1 :: t) = (c, p, s1) :: runs t.
Proof. reflexivity. Qed.

Lemma writes_app (t1 t2 : list event) : writes (t1 ++ t2) = writes t1 ++ writes t2.
Proof. unfold writes. apply omap_app. Qed.

Lemma bind_inv {A B} (m : M A) (f : A -> M B) s r s' t :
  bind m f s = (r, s', t) ->
  (exists a s1 t1 t2, m s = (Ok a, s1, t1) /\ f a s1 = (r, s', t2) /\ t = t1 ++ t2) \/
  (exists e, m s = (Raise e, s', t) /\ r = Raise e).
Proof.
  unfold bind. destruct (m s) as [[[a|e] s1] t1].
  - destruct (f a s1) as [[r2 s2] t2] eqn:Hf. intros [= <- <- <-].
    left. by exists a, s1, t1, t2.
  - intros [= <- <- <-]. right. by exists e.
Qed.

Lemma bind_ret_l {A B} (a : A) (f : A -> M B) s : bind (ret a) f s = f a s.
Proof. unfold bind, ret. by destruct (f a s) as [[??]?]. Qed.

Lemma bind_ok {A B} (m : M A) (f : A -> M B) s a s1 t1 :
  m s = (Ok a, s1, t1) ->
  bind m f s = (let '(r, s2, t2) := f a s1 in (r, s2, t1 ++ t2)).
Proof. unfold bind. intros ->. by destruct (f a s1) as [[??]?]. Qed.

Lemma bind_raise {A B} (m : M A) (f : A -> M B) s e s1 t1 :
  m s = (Raise e, s1, t1) -> bind m f s = (Raise e, s1, t1).
Proof. unfold bind. by intros ->. Qed.

Lemma readonly_quiet {A} (m : M A) : readonly m -> quiet m.
Proof. intros H s r s' t E. by destruct (H _ _ _ _ E) as [_ ->]. Qed.

Lemma readonly_ret {A} (a : A) : readonly (ret a).
Proof. by intros s r s' t [= <- <- <-]. Qed.

Lemma readonly_raise {A} e : readonly (raise (A:=A) e).
Proof. by intros s r s' t [= <- <- <-]. Qed.

Lemma readonly_gets {A} (f : St -> A) : readonly (gets f).
Proof. by intros s r s' t [= <- <- <-]. Qed.

Lemma gets_inv {A} (f : St -> A) s a s' t :
  gets f s = (Ok a, s', t) -> a = f s /\ s' = s /\ t = [].
Proof. unfold gets. intros H. by injection H as <- <- <-. Qed.

Lemma gets_inv' {A} (f : St -> A) s r s' t :
  gets f s = (r, s', t) -> r = Ok (f s) /\ s' = s /\ t = [].
Proof. unfold gets. intros H. by injection H as <- <- <-. Qed.

Lemma readonly_lift_option {A} e (o : option A) : readonly (lift_option e o).
Proof. destruct o; [apply readonly_ret | apply readonly_raise]. Qed.

Lemma readonly_bind {A B} (m : M A) (f : A -> M B) :
  readonly m -> (forall a, readonly (f a)) -> readonly (bind m f).
Proof.
  intros Hm Hf s r s' t E.
  apply bind_inv in E as [(a & s1 & t1 & t2 & E1 & E2 & ->) | (e & E1 & ->)].
  - apply Hm in E1 as [-> ->]. apply Hf in E2 as [-> ->]. done.
  - by apply Hm in E1.
Qed.

Lemma readonly_do_read p : readonly (do_read p).
Proof. intros s r s' t. unfold do_read. by destruct (read_bytes s p); intros [= <- <- <-]. Qed.

Lemma readonly_py_float v : readonly (py_float v).
Proof.
  destruct v; simpl; try destruct (_ <=? _);
    auto using readonly_ret, readonly_raise, readonly_lift_option.
Qed.

Lemma readonly_py_int v : readonly (py_int v).
Proof.
  destruct v; simpl; try destruct (_ || _);
    auto using readonly_ret, readonly_raise, readonly_lift_option.
Qed.

Lemma readonly_py_path_join d v : readonly (py_path_join d v).
Proof. destruct v; simpl; auto using readonly_ret, readonly_raise. Qed.

Lemma quiet_bind {A B} (m : M A) (f : A -> M B) :
  quiet m -> (forall a, quiet (f a)) -> quiet (bind m f).
Proof.
  intros Hm Hf s r s' t E.
  apply bind_inv in E as [(a & s1 & t1 & t2 & E1 & E2 & ->) | (e & E1 & ->)].
  - rewrite runs_app, (Hm _ _ _ _ E1), (Hf _ _ _ _ _ E2). done.
  - by apply Hm in E1.
Qed.

Lemma quiet_do_mkdtemp p : quiet (do_mkdtemp p).
Proof.
  intros s r s' t. unfold do_mkdtemp.
  by destruct (mkdtemp p s) as [[? ?]|]; intros [= <- <- <-].
Qed.

Lemma quiet_do_makedirs p : quiet (do_makedirs p).
Proof. by intros s r s' t [= <- <- <-]. Qed.

Lemma quiet_do_write p b : quiet (do_write p b).
Proof. intros s r s' t. unfold do_write. by destruct (write_bytes p b s); intros [= <- <- <-]. Qed.

Lemma quiet_do_copy2 a b : quiet (do_copy2 a b).
Proof. intros s r s' t. unfold do_copy2. by destruct (copy2 a b s); intros [= <- <- <-]. Qed.

Lemma quiet_do_make_archive a b : quiet (do_make_archive a b).
Proof.
  intros s r s' t. unfold do_make_archive.
  by destruct (make_archive a b s); intros [= <- <- <-].
Qed.

End MonadFacts.

Create HintDb readonly.
Create HintDb quiet.

#[global] Hint Resolve readonly_ret readonly_raise readonly_gets readonly_lift_option
  readonly_do_read readonly_py_float readonly_py_int readonly_py_path_join : readonly.
#[global] Hint Resolve quiet_do_mkdtemp quiet_do_makedirs quiet_do_write quiet_do_copy2
  quiet_do_make_archive : quiet.

Ltac readonly_tac :=
  repeat first
    [ apply readonly_bind; [| intros ? ]
    | solve [ auto with readonly ]
    | match goal with |- readonly (match ?x with _ => _ end) => destruct x end
    | match goal with |- readonly (if ?x then _ else _) => destruct x end ].

Ltac quiet_tac :=
  repeat first
    [ apply quiet_bind; [| intros ? ]
    | solve [ auto with quiet ]
    | solve [ apply readonly_quiet; readonly_tac ]
    | match goal with |- quiet (match ?x with _ => _ end) => destruct x end
    | match goal with |- quiet (if ?x then _ else _) => destruct x end ].

(** ** The job handler *)
Section HandlerFacts.
Context {W : World}.

Lemma quiet_do_fetch url : quiet (Handler.do_fetch url).
Proof. by intros s r s' t [= <- <- <-]. Qed.

Lemma quiet__download url dest : quiet (Handler._download url dest).
Proof.
  unfold Handler._download. apply quiet_bind; [apply quiet_do_fetch |].
  intros []; quiet_tac.
Qed.

Lemma quiet__write_base64 v dest : quiet (Handler._write_base64 v dest).
Proof. unfold Handler._write_base64. quiet_tac. Qed.

Lemma quiet__get_input_file d p dir dflt :
  quiet (Handler._get_input_file d p dir dflt).
Proof.
  unfold Handler._get_input_file.
  apply quiet_bind; [quiet_tac |]. intros dest.
  destruct (present_nonempty d (p +:+ "_url")).
  { apply quiet_bind; [apply quiet__download | intros; quiet_tac]. }
  destruct (present_nonempty d (p +:+ "_base64")).
  { apply quiet_bind; [apply quiet__write_base64 | intros; quiet_tac]. }
  quiet_tac.
Qed.

Lemma readonly_new_run_id d : readonly (Handler.new_run_id d).
Proof. unfold Handler.new_run_id. readonly_tac. Qed.

Lemma readonly_basename_of p : readonly (Handler.basename_of p).
Proof. unfold Handler.basename_of. readonly_tac. Qed.

Lemma readonly_edit_cmd d i o m e k r : readonly (Handler.edit_cmd d i o m e k r).
Proof.
  unfold Handler.edit_cmd.
  repeat (apply readonly_bind;
          [first [apply readonly_py_float | apply readonly_py_int
                 | apply readonly_basename_of] | intros ?]).
  destruct r; apply readonly_ret.
Qed.

Lemma readonly__encode_file p : readonly (Handler._encode_file p).
Proof. unfold Handler._encode_file. readonly_tac. Qed.

Lemma readonly_mapM {A B} (f : A -> M B) l :
  (forall a, readonly (f a)) -> readonly (Handler.mapM f l).
Proof.
  intros Hf. induction l as [|a l IH]; simpl; [apply readonly_ret |].
  apply readonly_bind; [apply Hf | intros b].
  apply readonly_bind; [apply IH | intros bs]. apply readonly_ret.
Qed.

(** What [_get_input_file] returns is decided by the request alone. *)
Lemma _get_input_file_result d p dir dflt s o s' t :
  Handler._get_input_file d p dir dflt s = (Ok o, s', t) ->
  match o with
  | Some _ => Handler.slot_unresolved d p = false
  | None => Handler.slot_unresolved d p = true
  end.
Proof.
  unfold Handler._get_input_file, Handler.slot_unresolved. intros H.
  apply bind_inv in H as [(dest & s1 & t1 & t2 & _ & H & _) | (e & _ & [=])].
  destruct (present_nonempty d (p +:+ "_url")).
  { apply bind_inv in H as [(? & ? & ? & ? & _ & [= <- _ _] & _) | (e & _ & [=])]. done. }
  destruct (present_nonempty d (p +:+ "_base64")).
  { apply bind_inv in H as [(? & ? & ? & ? & _ & [= <- _ _] & _) | (e & _ & [=])]. done. }
  by injection H as <- _ _.
Qed.

Lemma missing_of_slots d dir1 dir2 dir3 n1 n2 n3 s1 s2 s3 m e k s1' s2' s3' t1 t2 t3 :
  Handler._get_input_file d "mesh" dir1 n1 s1 = (Ok m, s1', t1) ->
  Handler._get_input_file d "edit_image" dir2 n2 s2 = (Ok e, s2', t2) ->
  Handler._get_input_file d "mask_image" dir3 n3 s3 = (Ok k, s3', t3) ->
  Handler.missing_of [("mesh", m); ("edit_image", e); ("mask_image", k)]
  = Handler.missing_slots d.
Proof.
  intros H1 H2 H3.
  apply _get_input_file_result in H1, H2, H3.
  unfold Handler.missing_slots, Handler.mandatory_slots. simpl.
  destruct m, e, k; rewrite H1, H2, H3; reflexivity.
Qed.

Lemma edit_cmd_positions d i o m e k rp s cmd s' t :
  Handler.edit_cmd d i o m e k rp s = (Ok cmd, s', t) ->
  cmd !! 1%nat = Some Handler.VECSET_SCRIPT /\
  cmd !! 3%nat = Some i /\ cmd !! 5%nat = Some o.
Proof.
  unfold Handler.edit_cmd. intros H.
  repeat (apply bind_inv in H as [(? & ? & ? & ? & _ & H & _) | (? & _ & [=])]).
  destruct rp; by injection H as <- _ _.
Qed.

Lemma after_alloc_app d run_id wd r s' t1 t2 :
  runs t1 = [] -> after_alloc d run_id wd r s' t2 -> after_alloc d run_id wd r s' (t1 ++ t2).
Proof.
  intros Ht1 [(e & -> & Ht) | [(Hm & -> & Ht) | (cmd & s0 & t0 & t3 & Hm & Ht0 & -> & Hp)]].
  - left. exists e. by rewrite runs_app, Ht1, Ht.
  - right; left. by rewrite runs_app, Ht1, Ht.
  - right; right. exists cmd, s0, (t1 ++ t0), t3.
    rewrite runs_app, Ht1, Ht0, <- app_assoc. done.
Qed.

Lemma bind_after_alloc {A} d run_id wd (m : M A) f s r s' t :
  quiet m ->
  (forall a s1 t1, m s = (Ok a, s1, t1) -> forall t2, f a s1 = (r, s', t2) ->
                   after_alloc d run_id wd r s' t2) ->
  bind m f s = (r, s', t) -> after_alloc d run_id wd r s' t.
Proof.
  intros Hq Hk H.
  apply bind_inv in H as [(a & s1 & t1 & t2 & E1 & E2 & ->) | (e & E1 & ->)].
  - apply after_alloc_app; [by eapply Hq | by eapply Hk].
  - left. exists e. split; [done | by eapply Hq].
Qed.

Lemma handler_not_dry job s r s' t :
  let d := default ∅ (job !! "input") in
  is_True (dict_get d "dry_run") = false ->
  Handler.handler job s = (r, s', t) ->
  (r = Raise OSError /\ s' = s /\ t = []) \/
  exists prefix work_dir s1 t',
    mkdtemp prefix s = Some (work_dir, s1) /\
    t = EvMkdtemp prefix work_dir :: t' /\
    after_alloc d (run_id_of d s) work_dir r s' t'.
Proof.
  intros d Hdry. unfold Handler.handler. fold d. rewrite Hdry. intros H.
  apply bind_inv in H as [(run_id & s1 & t1 & t2 & E1 & H & ->) | (e & E1 & _)].
  2:{ unfold Handler.new_run_id in E1. by destruct (truthy _). }
  assert (run_id = run_id_of d s /\ s1 = s /\ t1 = []) as (-> & -> & ->).
  { unfold Handler.new_run_id, run_id_of in *.
    destruct (truthy _); by injection E1 as <- <- <-. }
  apply bind_inv in H as [(work_dir & s2 & t3 & t4 & E2 & H & ->) | (e & E2 & H)].
  2:{ unfold do_mkdtemp in E2. destruct (mkdtemp _ _) as [[? ?]|]; [done |].
      injection E2 as <- <- <-. by left. }
  unfold do_mkdtemp in E2.
  destruct (mkdtemp ("vecset_" +:+ py_str (run_id_of d s) +:+ "_") s)
    as [[wd sm]|] eqn:Em; [| done].
  injection E2 as <- <- <-.
  right. eexists _, wd, sm, t4. split_and!; [exact Em | done |].
  revert H.
  apply bind_after_alloc; [apply quiet_do_makedirs |]. intros _ s3 t5 _ t6.
  apply bind_after_alloc; [apply quiet_do_makedirs |]. intros _ s4 t7 _ t8.
  apply bind_after_alloc; [apply quiet__get_input_file |]. intros m s5 t9 Hm t10.
  apply bind_after_alloc; [apply quiet__get_input_file |]. intros e s6 t11 He t12.
  apply bind_after_alloc; [apply quiet__get_input_file |]. intros k s7 t13 Hk t14.
  apply bind_after_alloc; [apply quiet__get_input_file |]. intros rp s8 t15 Hr t16.
  rewrite (missing_of_slots _ _ _ _ _ _ _ _ _ _ _ _ _ _ _ _ _ _ _ Hm He Hk).
  destruct (Handler.missing_slots d) as [|x l] eqn:Hmiss.
  - apply bind_after_alloc; [apply readonly_quiet, readonly_edit_cmd |].
    intros cmd s9 t17 Hc t18 Hp.
    right; right. exists cmd, s9, [], t18. rewrite Hmiss.
    apply edit_cmd_positions in Hc as (Hc & _). done.
  - intros [= <- <- <-]. right; left. by rewrite Hmiss.
Qed.

Lemma collected_names s od l :
  (omap (fun name =>
           let path := os_path_join od name in
           if path_exists s path then Some (name, path) else None) l).*1
  = List.filter (fun n => path_exists s (os_path_join od n)) l.
Proof.
  induction l as [|n l IH]; [done |]. simpl.
  destruct (path_exists s (os_path_join od n)); simpl; by rewrite <- IH.
Qed.

Lemma quiet_package d run_id wd od log tl :
  quiet (Handler.package d run_id wd od log tl).
Proof.
  unfold Handler.package.
  apply quiet_bind; [apply readonly_quiet, readonly_gets | intros outs].
  apply quiet_bind.
  { destruct (is_True _); [| quiet_tac].
    apply readonly_quiet, readonly_bind; [| intros; apply readonly_ret].
    apply readonly_mapM. intros a.
    apply readonly_bind; [apply readonly__encode_file | intros; apply readonly_ret]. }
  intros res. destruct (is_True _); [| quiet_tac].
  apply quiet_bind; [apply quiet_do_make_archive | intros ap].
  apply readonly_quiet, readonly_bind; [apply readonly__encode_file |].
  intros; apply readonly_ret.
Qed.

Lemma package_trace d run_id wd od log tl s r s' t :
  Handler.package d run_id wd od log tl s = (r, s', t) ->
  t = [] \/ exists base src ap, t = [EvArchive base src ap].
Proof.
  unfold Handler.package. intros H.
  apply bind_inv in H as [(outs & s1 & t1 & t2 & E0 & H & ->) | (e & E0 & _)].
  2:{ apply readonly_gets in E0 as [_ ->]. by left. }
  apply readonly_gets in E0 as [-> ->].
  assert (Hro : readonly
            (if is_True (dict_get d "return_files")
             then bind (Handler.mapM
                          (fun np => bind (Handler._encode_file np.2)
                                          (fun enc => ret (np.1, enc))) outs)
                       (fun files => ret (<["files" := VDict files]>
                          ({[ "status" := VStr "ok"; "run_id" := run_id;
                              "outputs" := VList (VStr <$> outs.*1);
                              "log" := VStr (match tl with
                                             | Some tl0 => if String.eqb tl0 "" then log
                                                           else log +:+ nl +:+ nl +:+ tl0
                                             | None => log
                                             end) ]} : gmap string pyval)))
             else ret ({[ "status" := VStr "ok"; "run_id" := run_id;
                          "outputs" := VList (VStr <$> outs.*1);
                          "log" := VStr (match tl with
                                         | Some tl0 => if String.eqb tl0 "" then log
                                                       else log +:+ nl +:+ nl +:+ tl0
                                         | None => log
                                         end) ]} : gmap string pyval))).
  { destruct (is_True _); [| apply readonly_ret].
    apply readonly_bind; [| intros; apply readonly_ret].
    apply readonly_mapM. intros a.
    apply readonly_bind; [apply readonly__encode_file | intros; apply readonly_ret]. }
  apply bind_inv in H as [(res & s1 & t1 & t3 & E1 & H & ->) | (e & E1 & _)].
  2:{ apply Hro in E1 as [_ ->]. by left. }
  apply Hro in E1 as [-> ->]. cbn [app].
  destruct (is_True (dict_get d "return_zip_base64")).
  2:{ injection H as _ _ <-. by left. }
  right. unfold Handler._zip_dir, do_make_archive in H.
  destruct (make_archive (os_path_join wd "results") od s) as [ap sa] eqn:Ea.
  apply bind_inv in H as [(ap' & s2 & t4 & t5 & E2 & H & ->) | (e & E2 & _)].
  2:{ rewrite Ea in E2. discriminate. }
  rewrite Ea in E2. injection E2 as <- <- <-.
  assert (t5 = []) as ->; [| by eexists _, _, _].
  apply bind_inv in H as [(enc & s3 & t6 & t7 & E3 & [= _ _ <-] & ->) | (e & E3 & _)].
  - by apply readonly__encode_file in E3 as [_ ->].
  - by apply readonly__encode_file in E3 as [_ ->].
Qed.

(** The response assembled by lines 233-249. *)
Lemma package_ok d run_id wd od log tl s resp s' t :
  Handler.package d run_id wd od log tl s = (Ok resp, s', t) ->
  resp !! "status" = Some (VStr "ok") /\
  resp !! "run_id" = Some run_id /\
  resp !! "outputs" =
    Some (VList (VStr <$> List.filter (fun n => path_exists s (os_path_join od n))
                                       Handler.candidates)) /\
  resp !! "log" = Some (VStr (Handler.ok_log log tl)) /\
  resp !! "message" = None /\
  Handler.has_field resp "files" = is_True (dict_get d "return_files") /\
  Handler.has_field resp "zip" = is_True (dict_get d "return_zip_base64") /\
  s' = (if is_True (dict_get d "return_zip_base64")
        then (make_archive (os_path_join wd "results") od s).2 else s).
Proof.
  unfold Handler.package, Handler._collect_outputs. intros H.
  apply bind_inv in H as [(outs & s1 & t1 & t2 & Eg & H & ->) | (e & _ & [=])].
  apply gets_inv in Eg as (-> & -> & ->).
  rewrite collected_names in H.
  set (names := List.filter _ _) in *.
  set (base := ({[ "status" := VStr "ok"; "run_id" := run_id;
                   "outputs" := VList _; "log" := VStr _ ]} : gmap string pyval)) in H.
  assert (Hbase : forall k v, base !! k = Some v ->
            (<["files" := v]> base) !! k = Some v \/ True) by auto.
  clear Hbase.
  apply bind_inv in H as [(res & s1 & t1 & t3 & E1 & H & ->) | (e & _ & [=])].
  assert (Hres : s1 = s /\
            ((is_True (dict_get d "return_files") = false /\ res = base) \/
             (is_True (dict_get d "return_files") = true /\
              exists fs, res = <["files" := VDict fs]> base))).
  { destruct (is_True (dict_get d "return_files")).
    - apply bind_inv in E1 as [(fs & s2 & t4 & t5 & E1 & [= <- <- <-] & ->) | (e & _ & [=])].
      apply readonly_mapM in E1 as [-> ->]; [eauto |].
      intros a. apply readonly_bind; [apply readonly__encode_file | intros; apply readonly_ret].
    - injection E1 as <- <- <-. auto. }
  destruct Hres as [-> Hres].
  assert (Hfields : res !! "status" = Some (VStr "ok") /\
            res !! "run_id" = Some run_id /\
            res !! "outputs" = base !! "outputs" /\
            res !! "log" = Some (VStr (Handler.ok_log log tl)) /\
            res !! "message" = None /\ res !! "zip" = None /\
            Handler.has_field res "files" = is_True (dict_get d "return_files")).
  { unfold Handler.has_field.
    destruct Hres as [[-> ->] | [-> [fs ->]]]; unfold base; split_and!; reflexivity. }
  destruct Hfields as (F1 & F2 & F3 & F4 & F5 & F6 & F7).
  destruct (is_True (dict_get d "return_zip_base64")).
  - unfold Handler._zip_dir, do_make_archive in H.
    apply bind_inv in H as [(ap & s2 & t4 & t5 & E2 & H & ->) | (e & E2 & [=])].
    destruct (make_archive (os_path_join wd "results") od s) as [ap' s2'] eqn:Ea.
    injection E2 as <- <- <-.
    apply bind_inv in H as [(enc & s3 & t6 & t7 & E3 & [= <- <- <-] & ->) | (e & _ & [=])].
    apply readonly__encode_file in E3 as [-> ->].
    unfold Handler.has_field in *.
    rewrite lookup_insert_eq, !lookup_insert_ne by discriminate.
    split_and!; first [assumption | reflexivity].
  - injection H as <- <- <-. unfold Handler.has_field in *. rewrite F6. done.
Qed.

Lemma _run_cmd_inv cmd wd s r s' t :
  Handler._run_cmd cmd wd s = (r, s', t) ->
  exists p s1, subprocess_run cmd wd s = (p, s1) /\
               r = Ok (returncode p, Handler.run_log cmd p) /\
               s' = s1 /\ t = [EvRun cmd wd p s1].
Proof.
  unfold Handler._run_cmd, do_run, bind.
  destruct (subprocess_run cmd wd s) as [p s1]. cbn.
  intros [= <- <- <-]. by exists p, s1.
Qed.

(** The ways the two stages can go. *)
Lemma pipeline_cases d run_id wd od cmd s0 r s' t :
  Handler.pipeline d run_id wd od cmd s0 = (r, s', t) ->
  exists p1 s1,
    subprocess_run cmd Handler.REPO_DIR s0 = (p1, s1) /\
    let log := Handler.run_log cmd p1 in
    let ev1 := EvRun cmd Handler.REPO_DIR p1 s1 in
    (returncode p1 <> 0 /\ r = Ok (Handler.edit_failed_response log) /\
     s' = s1 /\ t = [ev1]) \/
    (returncode p1 = 0 /\ is_True (dict_get d "run_texture_repaint") = false /\
     exists t2, Handler.package d run_id wd od log None s1 = (r, s', t2) /\
                t = ev1 :: t2) \/
    (returncode p1 = 0 /\ is_True (dict_get d "run_texture_repaint") = true /\
     exists e, r = Raise e /\ t = [ev1]) \/
    (returncode p1 = 0 /\ is_True (dict_get d "run_texture_repaint") = true /\
     exists cmd2 p2 s2,
       subprocess_run cmd2 Handler.REPO_DIR s1 = (p2, s2) /\
       cmd2 !! 1%nat = Some Handler.TEXTURE_SCRIPT /\
       let log2 := Handler.run_log cmd2 p2 in
       let ev2 := EvRun cmd2 Handler.REPO_DIR p2 s2 in
       (returncode p2 <> 0 /\ r = Ok (Handler.texture_failed_response log log2) /\
        s' = s2 /\ t = [ev1; ev2]) \/
       (returncode p2 = 0 /\
        exists t2, Handler.package d run_id wd od log (Some log2) s2 = (r, s', t2) /\
                   t = ev1 :: ev2 :: t2)).
Proof.
  unfold Handler.pipeline. intros H.
  apply bind_inv in H as [(cl & s2 & t1 & t2 & Eb & H & ->) | (e & Eb & _)].
  2:{ by apply _run_cmd_inv in Eb as (p & s1 & _ & [=] & _). }
  apply _run_cmd_inv in Eb as (p1 & s1 & E1 & [= ->] & -> & ->).
  exists p1, s1. split; [done |]. cbn zeta. cbn beta iota in H.
  destruct (Z.eqb_spec (returncode p1) 0) as [Hz | Hnz]; cbn [negb] in H.
  2:{ left. by injection H as <- <- <-. }
  right. unfold Handler.texture_stage in H.
  destruct (is_True (dict_get d "run_texture_repaint")).
  2:{ left. apply bind_inv in H as [(x & s3 & t3 & t4 & [= <- <- <-] & H & ->) | (e & [=] & _)].
      split_and!; [done.. |]. by exists t4. }
  right.
  apply bind_inv in H as [(tex & s3 & t3 & t4 & Et & H & ->) | (e & Et & ->)].
  - apply bind_inv in Et as [(sd & s4 & t5 & t6 & Es & Et & ->) | (e & Es & [=])].
    apply readonly_py_int in Es as [-> ->].
    apply bind_inv in Et as [(x & s5 & t7 & t8 & Er & Et & ->) | (e & Er & [=])].
    apply _run_cmd_inv in Er as (p2 & s2 & E2 & [= ->] & -> & ->).
    right. split_and!; [done.. |]. eexists _, p2, s2. split_and!; [exact E2 | done |].
    cbn zeta. cbn beta iota in Et.
    destruct (Z.eqb_spec (returncode p2) 0) as [Hz2 | Hnz2]; cbn [negb] in Et;
      injection Et as <- <- <-.
    + right. split; [done |]. by exists t4.
    + left. by injection H as <- <- <-.
  - left. split_and!; [done.. |]. exists e. split; [done |].
    apply bind_inv in Et as [(sd & s4 & t5 & t6 & Es & Et & ->) | (e' & Es & _)].
    + exfalso.
      apply bind_inv in Et as [(x & s5 & t7 & t8 & Er & Et & ->) | (e' & Er & _)].
      * apply _run_cmd_inv in Er as (p2 & s2 & E2 & [= ->] & -> & ->).
        cbn beta iota in Et. destruct (negb (returncode p2 =? 0)); discriminate.
      * by apply _run_cmd_inv in Er as (p2 & s2 & _ & [=] & _).
    + by apply readonly_py_int in Es as [-> ->].
Qed.

End HandlerFacts.

(** ** The GUI callback *)
Section AppFacts.
Context {W : World}.

Lemma app_run_cmd_inv cmd wd s r s' t :
  App._run_cmd cmd wd s = (r, s', t) ->
  exists p s1, subprocess_run cmd wd s = (p, s1) /\
               r = Ok (returncode p, App.run_log cmd p) /\
               s' = s1 /\ t = [EvRun cmd wd p s1].
Proof.
  unfold App._run_cmd, do_run, bind.
  destruct (subprocess_run cmd wd s) as [p s1]. cbn.
  intros [= <- <- <-]. by exists p, s1.
Qed.

Lemma quiet__copy_uploaded a b c : quiet (App._copy_uploaded a b c).
Proof. unfold App._copy_uploaded, App._ensure_dir. quiet_tac. Qed.

Lemma quiet__new_run_dir : quiet App._new_run_dir.
Proof. unfold App._new_run_dir, App._ensure_dir. quiet_tac. Qed.

Lemma gui_run_app f r s' t1 t2 :
  runs t1 = [] -> gui_run f r s' t2 -> gui_run f r s' (t1 ++ t2).
Proof.
  intros Ht1 [(e & -> & Ht) | (od & cmd & s0 & t0 & t3 & Ht0 & -> & Hc & Hc' & H)].
  - left. exists e. by rewrite runs_app, Ht1, Ht.
  - right. exists od, cmd, s0, (t1 ++ t0), t3.
    rewrite runs_app, Ht1, Ht0, <- app_assoc. done.
Qed.

Lemma bind_gui_run {A} f (m : M A) k s r s' t :
  quiet m ->
  (forall a s1 t1, m s = (Ok a, s1, t1) -> forall t2, k a s1 = (r, s', t2) ->
                   gui_run f r s' t2) ->
  bind m k s = (r, s', t) -> gui_run f r s' t.
Proof.
  intros Hq Hk H.
  apply bind_inv in H as [(a & s1 & t1 & t2 & E1 & E2 & ->) | (e & E1 & ->)].
  - apply gui_run_app; [by eapply Hq | by eapply Hk].
  - left. exists e. split; [done | by eapply Hq].
Qed.

Lemma nonempty_path_nonempty d n : n <> "" -> String.eqb (os_path_join d n) "" = false.
Proof.
  intros Hn. apply String.eqb_neq. unfold os_path_join.
  destruct (starts_with_slash n); [done |].
  destruct (String.eqb d "" || ends_with_slash d); destruct d, n; done.
Qed.

Lemma after_edit_cmd_intro f run_dir od cmd s0 r s' t :
  (do '(code, log) <- App._run_cmd cmd App.ROOT_DIR;
   if negb (code =? 0) then ret (App.edit_failed_tuple code log)
   else
     let edited_mesh := os_path_join od "edited_mesh.glb" in
     let edited_views := os_path_join od "edited_mesh_views.png" in
     let selected_views := os_path_join od "selected_fixed_tokens_views.png" in
     let masked_input := os_path_join od "2d_masked_input.png" in
     do '(texture_mesh, log) <- App.texture_stage f od edited_mesh log;
     do archive_path <- App._zip_dir od (os_path_join run_dir "results");
     gets (fun s =>
       [App.if_exists s edited_mesh;
        match texture_mesh with
        | Some tm => if String.eqb tm "" then None else App.if_exists s tm
        | None => None
        end;
        App.if_exists s masked_input;
        App.if_exists s selected_views;
        App.if_exists s edited_views;
        App.if_exists s archive_path;
        Some log]))%prog s0 = (r, s', t) ->
  after_edit_cmd f od cmd s0 r s' t.
Proof.
  intros H.
  apply bind_inv in H as [(cl & s2 & t1 & t2 & Eb & H & ->) | (e & Eb & _)].
  2:{ by apply app_run_cmd_inv in Eb as (p & s1 & _ & [=] & _). }
  apply app_run_cmd_inv in Eb as (p1 & s1 & E1 & [= ->] & -> & ->).
  exists p1, s1. split; [done |]. cbn zeta. cbn beta iota in H.
  destruct (Z.eqb_spec (returncode p1) 0) as [Hz | Hnz]; cbn [negb] in H.
  2:{ left. by injection H as <- <- <-. }
  right. cbn zeta in H. unfold App.texture_stage in H.
  destruct (truthy (App.run_texture_repaint f)).
  - right. split_and!; [done.. |].
    apply bind_inv in H as [(tl & s3 & t3 & t4 & Et & H & ->) | (e & Et & _)].
    2:{ apply bind_inv in Et as [(x & s5 & t7 & t8 & Er & Et & _) | (e' & Er & _)].
        - apply app_run_cmd_inv in Er as (p2 & s2 & E2 & [= ->] & -> & ->).
          cbn beta iota in Et. destruct (returncode p2 =? 0); discriminate.
        - by apply app_run_cmd_inv in Er as (p2 & s2 & _ & [=] & _). }
    apply bind_inv in Et as [(x & s5 & t7 & t8 & Er & Et & ->) | (e' & Er & [=])].
    apply app_run_cmd_inv in Er as (p2 & s2 & E2 & [= ->] & -> & ->).
    destruct tl as [tm lg]. cbn beta iota in Et, H.
    apply bind_inv in H as [(ap & s6 & t5 & t6 & Ea & H & ->) | (e & Ea & _)].
    2:{ unfold App._zip_dir, do_make_archive in Ea.
        destruct (make_archive _ _ _); discriminate. }
    unfold App._zip_dir, do_make_archive in Ea.
    destruct (make_archive (os_path_join run_dir "results") od s3) as [ap' s7] eqn:Em.
    injection Ea as <- <- <-.
    apply gets_inv' in H as (-> & -> & ->).
    eexists _, p2, s2, _, ap'.
    destruct (Z.eqb_spec (returncode p2) 0) as [Hz2 | Hnz2];
      injection Et as <- <- <- <-.
    + split; [exact E2 |]. split; [done |]. split; [exact Em |]. split; [done |].
      cbn zeta. split; [intros _ | done].
      unfold outputs_tuple.
      rewrite nonempty_path_nonempty; [reflexivity | discriminate].
    + split; [exact E2 |]. split; [done |]. split; [exact Em |]. split; [done |].
      cbn zeta. split; [done | intros _; done].
  - left. split_and!; [done.. |].
    apply bind_inv in H as [(tl & s3 & t3 & t4 & [= <- <- <-] & H & ->) | (e & [=] & _)].
    cbn beta iota in H.
    apply bind_inv in H as [(ap & s6 & t5 & t6 & Ea & H & ->) | (e & Ea & _)].
    2:{ unfold App._zip_dir, do_make_archive in Ea.
        destruct (make_archive _ _ _); discriminate. }
    unfold App._zip_dir, do_make_archive in Ea.
    destruct (make_archive (os_path_join run_dir "results") od s1) as [ap' s7] eqn:Em.
    injection Ea as <- <- <-.
    apply gets_inv' in H as (-> & -> & ->).
    by exists (os_path_join run_dir "results"), ap'.
Qed.

Lemma run_vecset_edit_gui_run f mesh edit mask s r s' t :
  App.mesh_file f = Some mesh -> App.edit_image f = Some edit ->
  App.mask_image f = Some mask ->
  App.run_vecset_edit f s = (r, s', t) -> gui_run f r s' t.
Proof.
  intros Hm He Hk. unfold App.run_vecset_edit. rewrite Hm, He, Hk.
  apply bind_gui_run; [apply quiet__new_run_dir |].
  intros [[run_dir input_dir] output_dir] s1 t1 _ t2.
  apply bind_gui_run; [apply quiet__copy_uploaded |]. intros _ s2 t3 _ t4.
  apply bind_gui_run; [apply quiet__copy_uploaded |]. intros _ s3 t5 _ t6.
  apply bind_gui_run; [apply quiet__copy_uploaded |]. intros _ s4 t7 _ t8.
  apply bind_gui_run.
  { destruct (App.render_image f) as [rd|]; [| quiet_tac].
    destruct (String.eqb rd ""); [quiet_tac |].
    apply quiet_bind; [apply quiet__copy_uploaded | intros; quiet_tac]. }
  intros render_name s5 t9 _ t10 H.
  apply after_edit_cmd_intro in H.
  right. eexists output_dir, _, s5, [], t10. split_and!; [done | done | | | exact H].
  all: destruct render_name as [rn|]; [destruct (String.eqb rn "") |]; reflexivity.
Qed.

Lemma run_vecset_edit_missing f s :
  App.mesh_file f = None \/ App.edit_image f = None \/ App.mask_image f = None ->
  App.run_vecset_edit f s = (Ok App.missing_inputs_tuple, s, []).
Proof.
  unfold App.run_vecset_edit.
  intros [-> | [-> | ->]]; repeat case_match; reflexivity.
Qed.

End AppFacts.

(** ** Stage invocation *)
Section StageInvoker.
Context {W : World}.

(** C5. For every stage invocation, in both front-ends, the returned log
    is the newline-joined list made of ["$ "] followed by the space-joined
    command line, then the captured stdout if non-empty, then the captured
    stderr if non-empty; the exit code is returned as it is, and the call
    returns normally whatever the exit code. *)
Theorem run_cmd_log_and_exit_code (cmd : list string) (workdir : string) (s : St) :
  let p := (subprocess_run cmd workdir s).1 in
  let s1 := (subprocess_run cmd workdir s).2 in
  let log :=
    join nl (("$ " +:+ join " " cmd)
               :: (if String.eqb (stdout p) "" then [] else [stdout p])
               ++ (if String.eqb (stderr p) "" then [] else [stderr p])) in
  Handler._run_cmd cmd workdir s = (Ok (returncode p, log), s1, [EvRun cmd workdir p s1]) /\
  App._run_cmd cmd workdir s = (Ok (returncode p, log), s1, [EvRun cmd workdir p s1]).
Proof.
  unfold Handler._run_cmd, App._run_cmd, do_run, bind, Handler.run_log, App.run_log.
  destruct (subprocess_run cmd workdir s) as [p s1]. cbn.
  destruct (String.eqb (stdout p) ""), (String.eqb (stderr p) ""); done.
Qed.

End StageInvoker.

(** ** Dry runs and boolean gates *)
Section Gates.
Context {W : World}.

(** C9. For every request with [dry_run] equal to [True], the job handler
    performs no external action at all (no run directory is created, no
    input is resolved, the world is unchanged) and returns the fixed
    reachability payload. *)
Theorem dry_run_allocates_nothing (job : gmap string (gmap string pyval))
    (d : gmap string pyval) (s : St) :
  job !! "input" = Some d ->
  d !! "dry_run" = Some (VBool true) ->
  Handler.handler job s
  = (Ok {[ "status" := VStr "ok"; "message" := VStr "dry_run: handler is reachable" ]},
     s, []).
Proof.
  intros Hj Hd. unfold Handler.handler, dict_get. by rewrite Hj; cbn; rewrite Hd.
Qed.

End Gates.

(** ** Stage failures *)
Section StageFailures.
Context {W : World}.

(** C2. For every request where the edit stage exits with a non-zero
    code, that stage is the only child process of the run: the
    texture-repaint stage is never invoked, whatever the request asks.  The
    job handler answers with status ["error"] and the edit stage's log as
    its log; the GUI answers with the failure line followed by that same
    log, and no artifact. *)
Theorem edit_failure_stops_pipeline :
  (forall (job : gmap string (gmap string pyval)) s r s' t c1 p1 s1,
      Handler.handler job s = (r, s', t) ->
      runs t !! 0%nat = Some (c1, p1, s1) ->
      returncode p1 <> 0 ->
      runs t = [(c1, p1, s1)] /\
      c1 !! 1%nat = Some Handler.VECSET_SCRIPT /\
      r = Ok {[ "status" := VStr "error";
                "message" := VStr "vecset_edit failed";
                "log" := VStr (Handler.run_log c1 p1) ]}) /\
  (forall (f : App.form) s r s' t c1 p1 s1,
      App.run_vecset_edit f s = (r, s', t) ->
      runs t !! 0%nat = Some (c1, p1, s1) ->
      returncode p1 <> 0 ->
      runs t = [(c1, p1, s1)] /\
      c1 !! 1%nat = Some "vecset_edit.py" /\
      r = Ok [None; None; None; None; None;
              Some ("VecSetEdit failed (exit code " +:+ int_str (returncode p1) +:+ ")."
                    +:+ nl +:+ nl +:+ App.run_log c1 p1)]).
Proof.
  split.
  - intros job s r s' t c1 p1 s1 H Hrun Hrc.
    destruct (is_True (dict_get (default ∅ (job !! "input")) "dry_run")) eqn:Hdry.
    { unfold Handler.handler in H. rewrite Hdry in H. by injection H as <- <- <-. }
    apply handler_not_dry in H as [(Hf & _ & Hft) | (pre & wd & sm & t' & _ & -> & H)];
    [by first [discriminate Hf | rewrite Hft in *] | | done].
    change (runs t' !! 0%nat = Some (c1, p1, s1)) in Hrun.
    change (runs (EvMkdtemp pre wd :: t')) with (runs t').
    destruct H as [(e & -> & Ht) | [(_ & -> & Ht) | (cmd & s0 & t0 & t1 & _ & Ht0 & -> & Hc & H)]];
      [by rewrite Ht in Hrun.. |].
    rewrite runs_app, Ht0 in Hrun |- *. cbn [app] in *.
    apply pipeline_cases in H as (q1 & sq & E1 & H). cbn zeta in H.
    destruct H as [(Hq & -> & -> & ->) | [(Hq & _ & t2 & _ & ->) |
                   [(Hq & _ & e & _ & ->) | (Hq & _ & H)]]].
    + injection Hrun as <- <- <-. done.
    + injection Hrun as <- <- <-. done.
    + injection Hrun as <- <- <-. done.
    + destruct H as (cmd2 & p2 & s2 & _ & _ & [(_ & _ & _ & ->) | (_ & t2 & _ & ->)]);
        injection Hrun as <- <- <-; done.
  - intros f s r s' t c1 p1 s1 H Hrun Hrc.
    destruct (App.mesh_file f) as [mesh|] eqn:Hm;
      [destruct (App.edit_image f) as [edit|] eqn:He;
       [destruct (App.mask_image f) as [mask|] eqn:Hk |] |].
    2-4: rewrite run_vecset_edit_missing in H by auto;
         by injection H as <- <- <-.
    apply (run_vecset_edit_gui_run _ _ _ _ _ _ _ _ Hm He Hk) in H.
    destruct H as [(e & -> & Ht) | (od & cmd & s0 & t0 & t1 & Ht0 & -> & Hc & _ & H)];
      [by rewrite Ht in Hrun |].
    rewrite runs_app, Ht0 in Hrun |- *. cbn [app] in *.
    destruct H as (q1 & sq & E1 & H). cbn zeta in H.
    destruct H as [(Hq & -> & -> & ->) | [(Hq & _ & b & ap & _ & -> & _) |
                   (Hq & _ & c2 & p2 & s2 & b & ap & _ & _ & _ & -> & _)]];
      injection Hrun as <- <- <-; done.
Qed.

End StageFailures.

(** ** Texture-repaint failures *)
Section TextureFailure.
Context {W : World}.

(** C1 (as the code has it).  When the texture-repaint stage runs and
    exits non-zero (so the edit stage exited zero), the job handler
    reports a failure: status ["error"], message ["texture repaint
    failed"], and as log the edit stage's log, a blank line, and the
    texture stage's log.  The GUI does not fail the run: it returns the
    usual seven slots, with the edit-stage artifacts that exist, no
    textured mesh, the archive, and as log the two logs joined by a blank
    line followed by the line ["Texture repaint failed (exit code N)."]. *)
Theorem texture_failure_outcome :
  (forall (job : gmap string (gmap string pyval)) s r s' t c1 p1 s1 c2 p2 s2,
      Handler.handler job s = (r, s', t) ->
      runs t !! 0%nat = Some (c1, p1, s1) ->
      runs t !! 1%nat = Some (c2, p2, s2) ->
      returncode p2 <> 0 ->
      runs t = [(c1, p1, s1); (c2, p2, s2)] /\
      returncode p1 = 0 /\
      c2 !! 1%nat = Some Handler.TEXTURE_SCRIPT /\
      r = Ok {[ "status" := VStr "error";
                "message" := VStr "texture repaint failed";
                "log" := VStr (Handler.run_log c1 p1 +:+ nl +:+ nl +:+
                               Handler.run_log c2 p2) ]}) /\
  (forall (f : App.form) s r s' t c1 p1 s1 c2 p2 s2,
      App.run_vecset_edit f s = (r, s', t) ->
      runs t !! 0%nat = Some (c1, p1, s1) ->
      runs t !! 1%nat = Some (c2, p2, s2) ->
      returncode p2 <> 0 ->
      runs t = [(c1, p1, s1); (c2, p2, s2)] /\
      returncode p1 = 0 /\
      c2 !! 1%nat = Some "preserving_texture_baking.py" /\
      exists od base ap,
        c1 !! 5%nat = Some od /\
        last t = Some (EvArchive base od ap) /\
        r = Ok [App.if_exists s' (os_path_join od "edited_mesh.glb");
                None;
                App.if_exists s' (os_path_join od "2d_masked_input.png");
                App.if_exists s' (os_path_join od "selected_fixed_tokens_views.png");
                App.if_exists s' (os_path_join od "edited_mesh_views.png");
                App.if_exists s' ap;
                Some ((App.run_log c1 p1 +:+ nl +:+ nl +:+ App.run_log c2 p2) +:+ nl +:+
                      "Texture repaint failed (exit code " +:+ int_str (returncode p2)
                      +:+ ").")]).
Proof.
  split.
  - intros job s r s' t c1 p1 s1 c2 p2 s2 H Hrun1 Hrun2 Hrc.
    destruct (is_True (dict_get (default ∅ (job !! "input")) "dry_run")) eqn:Hdry.
    { unfold Handler.handler in H. rewrite Hdry in H. by injection H as <- <- <-. }
    apply handler_not_dry in H as [(Hf & _ & Hft) | (pre & wd & sm & t' & _ & -> & H)];
    [by first [discriminate Hf | rewrite Hft in *] | | done].
    change (runs (EvMkdtemp pre wd :: t')) with (runs t') in *.
    destruct H as [(e & -> & Ht) | [(_ & -> & Ht) | (cmd & s0 & t0 & t1 & _ & Ht0 & -> & Hc & H)]];
      [by rewrite Ht in Hrun1.. |].
    rewrite runs_app, Ht0 in Hrun1, Hrun2 |- *. cbn [app] in *.
    apply pipeline_cases in H as (q1 & sq & E1 & H). cbn zeta in H.
    destruct H as [(Hq & -> & -> & ->) | [(Hq & _ & t2 & Hp & ->) |
                   [(Hq & _ & e & _ & ->) | (Hq & _ & H)]]].
    + done.
    + apply quiet_package in Hp. rewrite runs_cons_run, Hp in Hrun2. done.
    + done.
    + destruct H as (cmd2 & q2 & sq2 & _ & Hc2 & [(_ & -> & _ & ->) | (Hz & t2 & Hp & ->)]).
      * injection Hrun1 as <- <- <-. injection Hrun2 as <- <- <-. done.
      * rewrite !runs_cons_run in Hrun2. injection Hrun2 as <- <- <-. done.
  - intros f s r s' t c1 p1 s1 c2 p2 s2 H Hrun1 Hrun2 Hrc.
    destruct (App.mesh_file f) as [mesh|] eqn:Hm;
      [destruct (App.edit_image f) as [edit|] eqn:He;
       [destruct (App.mask_image f) as [mask|] eqn:Hk |] |].
    2-4: rewrite run_vecset_edit_missing in H by auto;
         by injection H as <- <- <-.
    apply (run_vecset_edit_gui_run _ _ _ _ _ _ _ _ Hm He Hk) in H.
    destruct H as [(e & -> & Ht) | (od & cmd & s0 & t0 & t1 & Ht0 & -> & _ & Hc & H)];
      [by rewrite Ht in Hrun1 |].
    rewrite runs_app, Ht0 in Hrun1, Hrun2 |- *. cbn [app] in *.
    destruct H as (q1 & sq & E1 & H). cbn zeta in H.
    destruct H as [(Hq & -> & -> & ->) | [(Hq & _ & b & ap & _ & -> & _) |
                   (Hq & _ & cmd2 & q2 & sq2 & b & ap & _ & Hc2 & _ & -> & _ & Hr)]];
      [done.. |].
    injection Hrun1 as <- <- <-. injection Hrun2 as <- <- <-.
    split_and!; [done.. |]. exists od, b, ap. split_and!; [done | |].
    + rewrite last_app. reflexivity.
    + by apply Hr.
Qed.

End TextureFailure.

(** ** Missing inputs and the shape of responses *)
Section Responses.
Context {W : World}.


(** C4 (as the code has it).  Every response of the job handler has a
    status.  The response of a completed pipeline has status ["ok"] and
    the fields run_id, outputs and log, no message, and files and zip
    exactly when requested with [True].  The dry-run response is the
    two-field reachability payload.  An error response has a message but
    neither run_id nor outputs, files or zip, and it has a log exactly when
    a stage was invoked. *)
Theorem response_fields (job : gmap string (gmap string pyval)) (s : St) resp s' t :
  let d := default ∅ (job !! "input") in
  Handler.handler job s = (Ok resp, s', t) ->
  (is_True (dict_get d "dry_run") = true /\
   resp = {[ "status" := VStr "ok"; "message" := VStr "dry_run: handler is reachable" ]}) \/
  (is_True (dict_get d "dry_run") = false /\
   resp !! "status" = Some (VStr "ok") /\
   Handler.has_field resp "run_id" = true /\
   Handler.has_field resp "outputs" = true /\
   Handler.has_field resp "log" = true /\
   Handler.has_field resp "message" = false /\
   Handler.has_field resp "files" = is_True (dict_get d "return_files") /\
   Handler.has_field resp "zip" = is_True (dict_get d "return_zip_base64")) \/
  (is_True (dict_get d "dry_run") = false /\
   resp !! "status" = Some (VStr "error") /\
   Handler.has_field resp "message" = true /\
   Handler.has_field resp "run_id" = false /\
   Handler.has_field resp "outputs" = false /\
   Handler.has_field resp "files" = false /\
   Handler.has_field resp "zip" = false /\
   Handler.has_field resp "log" = negb (bool_decide (runs t = []))).
Proof.
  intros d H.
  destruct (is_True (dict_get d "dry_run")) eqn:Hdry.
  { left. unfold Handler.handler in H. fold d in H. rewrite Hdry in H.
    by injection H as <- <- <-. }
  right.
  assert (Hpk : forall run_id wd od log tl s0 t2,
             Handler.package d run_id wd od log tl s0 = (Ok resp, s', t2) ->
             resp !! "status" = Some (VStr "ok") /\
             Handler.has_field resp "run_id" = true /\
             Handler.has_field resp "outputs" = true /\
             Handler.has_field resp "log" = true /\
             Handler.has_field resp "message" = false /\
             Handler.has_field resp "files" = is_True (dict_get d "return_files") /\
             Handler.has_field resp "zip" = is_True (dict_get d "return_zip_base64")).
  { intros run_id wd od log tl s0 t2 Hp.
    apply package_ok in Hp as (F1 & F2 & F3 & F4 & F5 & F6 & F7 & _).
    unfold Handler.has_field in *. rewrite F2, F3, F4, F5. done. }
  apply handler_not_dry in H as [(Hf & _ & Hft) | (pre & wd & sm & t' & _ & -> & H)];
    [by first [discriminate Hf | rewrite Hft in *] | | done].
  change (runs (EvMkdtemp pre wd :: t')) with (runs t').
  destruct H as [(e & [=] & _) | [(_ & [= ->] & Ht) | (cmd & s0 & t0 & t1 & _ & Ht0 & -> & _ & H)]].
  { right. rewrite Ht. unfold Handler.missing_response, Handler.has_field. done. }
  rewrite runs_app, Ht0. cbn [app].
  apply pipeline_cases in H as (q1 & sq & E1 & H). cbn zeta in H.
  destruct H as [(Hq & [= ->] & -> & ->) | [(Hq & _ & t2 & Hp & ->) |
                 [(Hq & _ & e & [=] & ->) | (Hq & _ & H)]]].
  - right. unfold Handler.edit_failed_response, Handler.has_field. done.
  - left. split; [done |]. by eapply Hpk.
  - destruct H as (cmd2 & q2 & sq2 & _ & _ & [(_ & [= ->] & _ & ->) | (Hz & t2 & Hp & ->)]).
    + right. unfold Handler.texture_failed_response, Handler.has_field. done.
    + left. split; [done |]. by eapply Hpk.
Qed.

(** C7. After a successful pipeline the ["outputs"] field lists, in
    catalog order, exactly the names of the fixed seven-name catalog for
    which [os.path.exists] holds in the run's output directory once the
    last stage has finished; nothing but existence is tested. *)
Theorem outputs_are_existing_catalog_names (job : gmap string (gmap string pyval))
    (s : St) resp s' t :
  let d := default ∅ (job !! "input") in
  is_True (dict_get d "dry_run") = false ->
  Handler.handler job s = (Ok resp, s', t) ->
  resp !! "status" = Some (VStr "ok") ->
  exists prefix work_dir c p sc,
    head t = Some (EvMkdtemp prefix work_dir) /\
    last (runs t) = Some (c, p, sc) /\
    resp !! "outputs" =
      Some (VList (VStr <$>
        List.filter
          (fun name => path_exists sc (os_path_join (os_path_join work_dir "output") name))
          ["edited_mesh.glb"; "edited_mesh_views.png"; "selected_fixed_tokens_views.png";
           "2d_masked_input.png"; "mv_repaint_model.glb";
           "mv_adapter_repaint_6_views.png"; "mv_adapter_6_views.png"])).
Proof.
  intros d Hdry H Hok.
  apply handler_not_dry in H as [(Hf & _ & Hft) | (pre & wd & sm & t' & _ & -> & H)];
    [by first [discriminate Hf | rewrite Hft in *] | | done].
  change (runs (EvMkdtemp pre wd :: t')) with (runs t').
  exists pre, wd.
  destruct H as [(e & [=] & _) | [(_ & [= ->] & Ht) | (cmd & s0 & t0 & t1 & _ & Ht0 & -> & _ & H)]].
  { by unfold Handler.missing_response in Hok. }
  rewrite runs_app, Ht0. cbn [app].
  apply pipeline_cases in H as (q1 & sq & E1 & H). cbn zeta in H.
  destruct H as [(Hq & [= ->] & -> & ->) | [(Hq & _ & t2 & Hp & ->) |
                 [(Hq & _ & e & [=] & ->) | (Hq & _ & H)]]].
  - by unfold Handler.edit_failed_response in Hok.
  - exists cmd, q1, sq. pose proof (quiet_package _ _ _ _ _ _ _ _ _ _ Hp) as Hq2.
    apply package_ok in Hp as (_ & _ & F3 & _).
    rewrite runs_cons_run, Hq2. done.
  - destruct H as (cmd2 & q2 & sq2 & _ & _ & [(_ & [= ->] & _ & ->) | (Hz & t2 & Hp & ->)]).
    + by unfold Handler.texture_failed_response in Hok.
    + exists cmd2, q2, sq2. pose proof (quiet_package _ _ _ _ _ _ _ _ _ _ Hp) as Hq2.
      apply package_ok in Hp as (_ & _ & F3 & _).
      rewrite !runs_cons_run, Hq2. done.
Qed.

End Responses.

(** ** Input resolution *)
Section InputResolver.
Context {W : World}.


End InputResolver.

(** ** Strict boolean gates *)
Section StrictGates.
Context {W : World}.

Lemma _get_input_file_ext d1 d2 p :
  d1 !! (p +:+ "_url") = d2 !! (p +:+ "_url") ->
  d1 !! (p +:+ "_base64") = d2 !! (p +:+ "_base64") ->
  d1 !! (p +:+ "_filename") = d2 !! (p +:+ "_filename") ->
  Handler._get_input_file d1 p = Handler._get_input_file d2 p.
Proof.
  intros H1 H2 H3.
  unfold Handler._get_input_file, present_nonempty, dict_get.
  by rewrite H1, H2, H3.
Qed.

Lemma not_gate_key k :
  k ∉ Handler.gate_keys ->
  k <> "dry_run" /\ k <> "run_texture_repaint" /\ k <> "return_files" /\
  k <> "return_zip_base64".
Proof. unfold Handler.gate_keys. set_solver. Qed.

(** Requests that agree on every key but the gates, and whose gates are
    [True] together, are handled alike. *)
Lemma handler_ext job1 job2 s :
  let d1 := default ∅ (job1 !! "input") in
  let d2 := default ∅ (job2 !! "input") in
  (forall k, k ∉ Handler.gate_keys -> d1 !! k = d2 !! k) ->
  (forall k, k ∈ Handler.gate_keys ->
             is_True (dict_get d1 k) = is_True (dict_get d2 k)) ->
  Handler.handler job1 s = Handler.handler job2 s.
Proof.
  intros d1 d2 Hk Hg.
  assert (Hkey : forall k, bool_decide (k ∈ Handler.gate_keys) = false -> d1 !! k = d2 !! k).
  { intros k Hb. apply Hk. by apply bool_decide_eq_false in Hb. }
  assert (Hgate : forall k, bool_decide (k ∈ Handler.gate_keys) = true ->
                            is_True (dict_get d1 k) = is_True (dict_get d2 k)).
  { intros k Hb. apply Hg. by apply bool_decide_eq_true in Hb. }
  unfold Handler.handler. fold d1 d2.
  rewrite (Hgate "dry_run") by reflexivity.
  rewrite (_get_input_file_ext d1 d2 "mesh") by (apply Hkey; reflexivity).
  rewrite (_get_input_file_ext d1 d2 "edit_image") by (apply Hkey; reflexivity).
  rewrite (_get_input_file_ext d1 d2 "mask_image") by (apply Hkey; reflexivity).
  rewrite (_get_input_file_ext d1 d2 "render_image") by (apply Hkey; reflexivity).
  unfold Handler.new_run_id, Handler.edit_cmd, Handler.pipeline, Handler.texture_stage,
    Handler.package, dict_get_or.
  rewrite (Hgate "run_texture_repaint"), (Hgate "return_files"),
    (Hgate "return_zip_base64") by reflexivity.
  unfold dict_get.
  rewrite (Hkey "run_id"), (Hkey "azimuth"), (Hkey "elevation"), (Hkey "scale"),
    (Hkey "attentive_2d"), (Hkey "cut_off_p"), (Hkey "topk_percent_2d"),
    (Hkey "threshold_percent_2d"), (Hkey "step_pruning"), (Hkey "edit_strength"),
    (Hkey "guidance_scale"), (Hkey "seed"), (Hkey "render_method") by reflexivity.
  reflexivity.
Qed.

(** C10. Each of the keys dry_run, run_texture_repaint, return_files and
    return_zip_base64 enables its feature only when its value is the
    boolean [True]: with any other value, truthy or not (the string
    ["true"], the integer [1], ...), the handler behaves in every respect
    as if the key were absent. *)
Theorem gate_requires_exactly_True (job : gmap string (gmap string pyval))
    (d : gmap string pyval) (g : string) (v : pyval) (s : St) :
  g ∈ ["dry_run"; "run_texture_repaint"; "return_files"; "return_zip_base64"] ->
  v <> VBool true ->
  Handler.handler (<["input" := <[g := v]> d]> job) s
  = Handler.handler (<["input" := delete g d]> job) s.
Proof.
  intros Hg Hv. apply handler_ext; rewrite !lookup_insert_eq; cbn [default from_option id].
  - intros k Hk.
    assert (g <> k) by (intros ->; contradiction).
    by rewrite lookup_insert_ne, lookup_delete_ne.
  - intros k Hk. unfold dict_get.
    destruct (decide (g = k)) as [-> | Hne].
    + rewrite lookup_insert_eq, lookup_delete_eq. cbn.
      destruct v as [|[]| | | | |]; done.
    + by rewrite lookup_insert_ne, lookup_delete_ne.
Qed.

End StrictGates.

(** ** The inline-bytes scenario *)
Section Scenario.
Context {W : World}.

Lemma get_inline_inv d p dir dflt v s o s' t :
  d !! (p +:+ "_filename") = None ->
  present_nonempty d (p +:+ "_url") = false ->
  d !! (p +:+ "_base64") = Some v -> truthy v = true ->
  Handler._get_input_file d p dir dflt s = (Ok o, s', t) ->
  exists raw, b64decode v = Some raw /\
              o = Some (os_path_join dir dflt) /\
              t = [EvWrite (os_path_join dir dflt) raw].
Proof.
  intros Hn Hu Hb Hv. unfold Handler._get_input_file, Handler.py_or, dict_get, present_nonempty in *.
  rewrite Hn, Hb, Hv. cbn [default from_option truthy py_path_join id]. rewrite bind_ret_l.
  destruct (d !! (p +:+ "_url")) as [u|]; [rewrite Hu |].
  all: unfold Handler._write_base64, lift_option, do_write, bind, ret, raise;
    destruct v as [| | | |data_b64| |]; try done;
    destruct (b64decode (VStr data_b64)) as [raw|]; [| done]; cbn;
    destruct (write_bytes (os_path_join dir dflt) raw s); [| done];
    intros [= <- <- <-]; by exists raw.
Qed.

Lemma get_absent d p dir dflt s :
  d !! (p +:+ "_filename") = None ->
  d !! (p +:+ "_url") = None -> d !! (p +:+ "_base64") = None ->
  Handler._get_input_file d p dir dflt s = (Ok None, s, []).
Proof.
  intros Hn Hu Hb. unfold Handler._get_input_file, Handler.py_or, dict_get, present_nonempty.
  rewrite Hn, Hu, Hb. cbn [default from_option truthy py_path_join id]. by rewrite bind_ret_l.
Qed.

Lemma do_makedirs_inv p s r s' t :
  do_makedirs p s = (r, s', t) -> r = Ok tt /\ t = [EvMakedirs p].
Proof. by intros [= <- <- <-]. Qed.

(** C8. For the request that carries the three mandatory slots inline
    (non-empty base64 text, no URL, no file name), [attentive_2d: 8] and
    [guidance_scale: 7.5], whenever the handler returns a response the
    three payloads were decoded and written, as the only files, to
    [model.glb], [2d_edit.png] and [2d_mask.png] directly below the run's
    input directory, and the edit stage was started with the argument
    vector below: [--attentive_2d 8], [--guidance_scale 7.5], and every
    other numeric parameter at its default. *)
Theorem inline_request_scenario (mesh edit mask : string) (s : St) resp s' t :
  let d : gmap string pyval :=
    {[ "mesh_base64" := VStr mesh;
       "edit_image_base64" := VStr edit;
       "mask_image_base64" := VStr mask;
       "attentive_2d" := VInt 8;
       "guidance_scale" := VFloat (mk_float 75 1) ]} in
  mesh <> "" -> edit <> "" -> mask <> "" ->
  Handler.handler {[ "input" := d ]} s = (Ok resp, s', t) ->
  exists prefix work_dir raw_mesh raw_edit raw_mask p sc rest,
    let input_dir := os_path_join work_dir "input" in
    let output_dir := os_path_join work_dir "output" in
    head t = Some (EvMkdtemp prefix work_dir) /\
    b64decode (VStr mesh) = Some raw_mesh /\
    b64decode (VStr edit) = Some raw_edit /\
    b64decode (VStr mask) = Some raw_mask /\
    writes t = [(input_dir +:+ "/model.glb", raw_mesh);
                (input_dir +:+ "/2d_edit.png", raw_edit);
                (input_dir +:+ "/2d_mask.png", raw_mask)] /\
    runs t =
      (["python"; Handler.VECSET_SCRIPT;
        "--input_dir"; input_dir;
        "--output_dir"; output_dir;
        "--mesh_file"; "model.glb";
        "--edit_image"; "2d_edit.png";
        "--mask_image"; "2d_mask.png";
        "--azimuth"; "0.0";
        "--elevation"; "0.0";
        "--scale"; "2.0";
        "--attentive_2d"; "8";
        "--cut_off_p"; "0.5";
        "--topk_percent_2d"; "0.2";
        "--threshold_percent_2d"; "0.1";
        "--step_pruning"; "5";
        "--edit_strength"; "0.7";
        "--guidance_scale"; "7.5"], p, sc) :: rest.
Proof.
  intros d Hm He Hk H.
  assert (Ht : forall x, x <> "" -> truthy (VStr x) = true).
  { intros x Hx. cbn. by destruct (String.eqb_spec x ""). }
  unfold Handler.handler in H. rewrite lookup_singleton_eq in H.
  cbn [default from_option id] in H.
  change (is_True (dict_get d "dry_run")) with false in H. cbn iota in H.
  apply bind_inv in H as [(run_id & s1 & t1 & t2 & E1 & H & ->) | (e0 & _ & [=])].
  apply readonly_new_run_id in E1 as [-> ->].
  apply bind_inv in H as [(wd & s2 & t3 & t4 & E2 & H & ->) | (e0 & _ & [=])].
  unfold do_mkdtemp in E2.
  destruct (mkdtemp ("vecset_" +:+ py_str run_id +:+ "_") s) as [[wd' sm]|];
    [| discriminate E2].
  injection E2 as <- <- <-.
  set (input_dir := os_path_join wd' "input") in *.
  set (output_dir := os_path_join wd' "output") in *.
  destruct (join_nonempty_tail wd' "input") as [Hin1 Hin2]; [done.. |].
  fold input_dir in Hin1, Hin2.
  apply bind_inv in H as [(u1 & s3 & t5 & t6 & E3 & H & ->) | (e0 & _ & [=])].
  apply do_makedirs_inv in E3 as [_ ->].
  apply bind_inv in H as [(u2 & s4 & t7 & t8 & E4 & H & ->) | (e0 & _ & [=])].
  apply do_makedirs_inv in E4 as [_ ->].
  apply bind_inv in H as [(pm & s5 & t9 & t10 & E5 & H & ->) | (e0 & _ & [=])].
  apply get_inline_inv with (v := VStr mesh) in E5 as (rm & Dm & -> & ->);
    [| reflexivity | reflexivity | reflexivity | by apply Ht].
  apply bind_inv in H as [(pe & s6 & t11 & t12 & E6 & H & ->) | (e0 & _ & [=])].
  apply get_inline_inv with (v := VStr edit) in E6 as (re & De & -> & ->);
    [| reflexivity | reflexivity | reflexivity | by apply Ht].
  apply bind_inv in H as [(pk & s7 & t13 & t14 & E7 & H & ->) | (e0 & _ & [=])].
  apply get_inline_inv with (v := VStr mask) in E7 as (rk & Dk & -> & ->);
    [| reflexivity | reflexivity | reflexivity | by apply Ht].
  apply bind_inv in H as [(pr & s8 & t15 & t16 & E8 & H & ->) | (e0 & _ & [=])].
  rewrite get_absent in E8 by reflexivity. injection E8 as <- <- <-.
  cbn [Handler.missing_of omap list_omap snd fst] in H.
  apply bind_inv in H as [(cmd & s9 & t17 & t18 & E9 & H & ->) | (e0 & _ & [=])].
  pose proof (readonly_edit_cmd _ _ _ _ _ _ _ _ _ _ _ E9) as [-> ->].
  set (cmd0 := ["python"; Handler.VECSET_SCRIPT;
        "--input_dir"; input_dir;
        "--output_dir"; output_dir;
        "--mesh_file"; "model.glb";
        "--edit_image"; "2d_edit.png";
        "--mask_image"; "2d_mask.png";
        "--azimuth"; "0.0";
        "--elevation"; "0.0";
        "--scale"; "2.0";
        "--attentive_2d"; "8";
        "--cut_off_p"; "0.5";
        "--topk_percent_2d"; "0.2";
        "--threshold_percent_2d"; "0.1";
        "--step_pruning"; "5";
        "--edit_strength"; "0.7";
        "--guidance_scale"; "7.5"]).
  assert (cmd = cmd0) as ->.
  { unfold Handler.edit_cmd, Handler.basename_of in E9.
    cbn [fmap option_fmap option_map lift_option] in E9.
    rewrite !basename_join in E9 by reflexivity.
    vm_compute in E9. injection E9 as <-. reflexivity. }
  apply pipeline_cases in H as (p1 & sq & _ & H). cbn zeta in H.
  exists ("vecset_" +:+ py_str run_id +:+ "_"), wd', rm, re, rk, p1, sq.
  rewrite !(join_relative input_dir) by done.
  assert (exists rest, t18 = EvRun cmd0 Handler.REPO_DIR p1 sq :: rest /\ writes rest = [])
    as (rest & -> & Hw).
  { destruct H as [(_ & _ & _ & ->) | [(_ & _ & t2 & Hp & ->) |
                   [(_ & _ & e0 & _ & ->) | (_ & Hx & _)]]].
    - by eexists.
    - eexists; split; [done |].
      by destruct (package_trace _ _ _ _ _ _ _ _ _ _ Hp) as [-> | (b & sr & ap & ->)].
    - by eexists.
    - done. }
  exists (runs rest). split_and!; [done.. | |].
  - rewrite !writes_app.
    change (writes (EvRun cmd0 Handler.REPO_DIR p1 sq :: rest)) with (writes rest).
    rewrite Hw. reflexivity.
  - rewrite !runs_app. reflexivity.
Qed.

End Scenario.

(** ** Concrete runs *)
Section ConcreteRuns.

Lemma run_eta {A B C} (x : A * B * C) : x = (x.1.1, x.1.2, x.2).
Proof. by destruct x as [[??]?]. Qed.

Lemma status_is_inv `{W : World} (o : outcome (gmap string pyval)) st :
  Sim.status_is o st = true ->
  exists response, o = Ok response /\ response !! "status" = Some (VStr st).
Proof.
  unfold Sim.status_is. destruct o as [response|e]; [| done].
  destruct (response !! "status") as [[| | | |x| |]|] eqn:Hs; try done.
  intros Hx. apply String.eqb_eq in Hx as ->. by exists response.
Qed.

Lemma dry_run_allocates_nothing_witness :
  let W := Sim.world Sim.all_good in
  let d : gmap string pyval :=
    {[ "dry_run" := VBool true; "mesh_url" := VStr "https://example.org/chair.glb" ]} in
  d !! "dry_run" = Some (VBool true) /\
  Handler.handler (W := W) {[ "input" := d ]} Sim.empty_disk
  = (Ok {[ "status" := VStr "ok"; "message" := VStr "dry_run: handler is reachable" ]},
     Sim.empty_disk, []).
Proof.
  intros W d. split; [reflexivity |].
  apply (dry_run_allocates_nothing (W := W) _ d); reflexivity.
Defined.

Lemma edit_failure_stops_pipeline_witness :
  let W := Sim.world Sim.edit_fails in
  let job := Sim.inline_request {[ "run_texture_repaint" := VBool true ]} in
  let h := Handler.handler (W := W) job Sim.empty_disk in
  let g := App.run_vecset_edit (W := W) (Sim.upload_form true) Sim.uploads in
  (exists c1 p1 s1,
      runs h.2 !! 0%nat = Some (c1, p1, s1) /\ returncode p1 <> 0 /\
      runs h.2 = [(c1, p1, s1)] /\
      h.1.1 = Ok {[ "status" := VStr "error";
                    "message" := VStr "vecset_edit failed";
                    "log" := VStr (Handler.run_log c1 p1) ]}) /\
  (exists c1 p1 s1,
      runs g.2 !! 0%nat = Some (c1, p1, s1) /\ returncode p1 <> 0 /\
      runs g.2 = [(c1, p1, s1)] /\
      g.1.1 = Ok [None; None; None; None; None;
                  Some ("VecSetEdit failed (exit code " +:+ int_str (returncode p1) +:+ ")."
                        +:+ nl +:+ nl +:+ App.run_log c1 p1)]).
Proof.
  intros W job h g. split.
  - assert (E : (fun x : list string * completed * St => negb (returncode x.1.2 =? 0))
                  <$> runs h.2 !! 0%nat = Some true) by (vm_compute; reflexivity).
    destruct (runs h.2 !! 0%nat) as [[[c1 p1] s1]|] eqn:Hrun; [| discriminate E].
    assert (Hrc : returncode p1 <> 0).
    { injection E as E. cbn in E. intros Hz. rewrite Hz in E. discriminate. }
    exists c1, p1, s1.
    destruct (proj1 (edit_failure_stops_pipeline (W := W)) job Sim.empty_disk _ _ _
                c1 p1 s1 (run_eta h) Hrun Hrc) as (H1 & _ & H2).
    exact (conj eq_refl (conj Hrc (conj H1 H2))).
  - assert (E : (fun x : list string * completed * St => negb (returncode x.1.2 =? 0))
                  <$> runs g.2 !! 0%nat = Some true) by (vm_compute; reflexivity).
    destruct (runs g.2 !! 0%nat) as [[[c1 p1] s1]|] eqn:Hrun; [| discriminate E].
    assert (Hrc : returncode p1 <> 0).
    { injection E as E. cbn in E. intros Hz. rewrite Hz in E. discriminate. }
    exists c1, p1, s1.
    destruct (proj2 (edit_failure_stops_pipeline (W := W)) (Sim.upload_form true)
                Sim.uploads _ _ _ c1 p1 s1 (run_eta g) Hrun Hrc) as (H1 & _ & H2).
    exact (conj eq_refl (conj Hrc (conj H1 H2))).
Defined.

Lemma texture_failure_outcome_witness :
  let W := Sim.world Sim.texture_fails in
  let job := Sim.inline_request {[ "run_texture_repaint" := VBool true ]} in
  let h := Handler.handler (W := W) job Sim.empty_disk in
  let g := App.run_vecset_edit (W := W) (Sim.upload_form true) Sim.uploads in
  (exists c1 p1 s1 c2 p2 s2,
      runs h.2 = [(c1, p1, s1); (c2, p2, s2)] /\ returncode p2 <> 0 /\
      h.1.1 = Ok {[ "status" := VStr "error";
                    "message" := VStr "texture repaint failed";
                    "log" := VStr (Handler.run_log c1 p1 +:+ nl +:+ nl +:+
                                   Handler.run_log c2 p2) ]}) /\
  (exists c1 p1 s1 c2 p2 s2 od base ap,
      runs g.2 = [(c1, p1, s1); (c2, p2, s2)] /\ returncode p2 <> 0 /\
      c1 !! 5%nat = Some od /\
      last g.2 = Some (EvArchive base od ap) /\
      g.1.1 = Ok [App.if_exists g.1.2 (os_path_join od "edited_mesh.glb");
                  None;
                  App.if_exists g.1.2 (os_path_join od "2d_masked_input.png");
                  App.if_exists g.1.2 (os_path_join od "selected_fixed_tokens_views.png");
                  App.if_exists g.1.2 (os_path_join od "edited_mesh_views.png");
                  App.if_exists g.1.2 ap;
                  Some ((App.run_log c1 p1 +:+ nl +:+ nl +:+ App.run_log c2 p2) +:+ nl +:+
                        "Texture repaint failed (exit code " +:+ int_str (returncode p2)
                        +:+ ").")]).
Proof.
  intros W job h g. split.
  - assert (E : (fun x : list string * completed * St => negb (returncode x.1.2 =? 0))
                  <$> runs h.2 !! 1%nat = Some true) by (vm_compute; reflexivity).
    assert (E0 : is_Some (runs h.2 !! 0%nat)) by (vm_compute; eauto).
    destruct (runs h.2 !! 0%nat) as [[[c1 p1] s1]|] eqn:Hrun1; [| by destruct E0].
    destruct (runs h.2 !! 1%nat) as [[[c2 p2] s2]|] eqn:Hrun2; [| discriminate E].
    assert (Hrc : returncode p2 <> 0).
    { injection E as E. cbn in E. intros Hz. rewrite Hz in E. discriminate. }
    exists c1, p1, s1, c2, p2, s2.
    destruct (proj1 (texture_failure_outcome (W := W)) job Sim.empty_disk _ _ _
                c1 p1 s1 c2 p2 s2 (run_eta h) Hrun1 Hrun2 Hrc) as (H1 & _ & _ & H2).
    exact (conj H1 (conj Hrc H2)).
  - assert (E : (fun x : list string * completed * St => negb (returncode x.1.2 =? 0))
                  <$> runs g.2 !! 1%nat = Some true) by (vm_compute; reflexivity).
    assert (E0 : is_Some (runs g.2 !! 0%nat)) by (vm_compute; eauto).
    destruct (runs g.2 !! 0%nat) as [[[c1 p1] s1]|] eqn:Hrun1; [| by destruct E0].
    destruct (runs g.2 !! 1%nat) as [[[c2 p2] s2]|] eqn:Hrun2; [| discriminate E].
    assert (Hrc : returncode p2 <> 0).
    { injection E as E. cbn in E. intros Hz. rewrite Hz in E. discriminate. }
    exists c1, p1, s1, c2, p2, s2.
    destruct (proj2 (texture_failure_outcome (W := W)) (Sim.upload_form true) Sim.uploads
                _ _ _ c1 p1 s1 c2 p2 s2 (run_eta g) Hrun1 Hrun2 Hrc)
      as (H1 & _ & _ & od & base & ap & H2 & H3 & H4).
    exists od, base, ap. exact (conj H1 (conj Hrc (conj H2 (conj H3 H4)))).
Defined.

(** C1, counterexample.  In the GUI, with the texture repaint requested,
    the edit stage exiting 0 and the texture stage exiting 1, the run is
    not reported as a failure: the callback returns the edited mesh and the
    archive; and its log is not just the two stage logs joined. *)
Lemma gui_texture_failure_is_partial_success :
  let W := Sim.world Sim.texture_fails in
  let g := App.run_vecset_edit (W := W) (Sim.upload_form true) Sim.uploads in
  truthy (App.run_texture_repaint (Sim.upload_form true)) = true /\
  (fun x : list string * completed * St => returncode x.1.2) <$> runs g.2 = [0; 1] /\
  (exists log,
      g.1.1 = Ok [Some "/srv/vecset/runs/20240101_120000_01234567/output/edited_mesh.glb";
                  None; None; None; None;
                  Some "/srv/vecset/runs/20240101_120000_01234567/results.zip";
                  Some log]) /\
  match runs g.2, g.1.1 with
  | [(c1, p1, _); (c2, p2, _)], Ok [_; _; _; _; _; _; Some log] =>
      String.eqb log (App.run_log c1 p1 +:+ nl +:+ nl +:+ App.run_log c2 p2) = false
  | _, _ => False
  end.
Proof.
  intros W g. split_and!.
  - reflexivity.
  - vm_compute. reflexivity.
  - vm_compute. eexists. reflexivity.
  - vm_compute. reflexivity.
Qed.




Lemma response_fields_witness :
  let W := Sim.world Sim.all_good in
  let job := Sim.inline_request {[ "return_files" := VBool true ]} in
  let d := default ∅ (job !! "input") in
  let h := Handler.handler (W := W) job Sim.empty_disk in
  exists resp,
    h.1.1 = Ok resp /\
    resp !! "status" = Some (VStr "ok") /\
    Handler.has_field resp "run_id" = true /\
    Handler.has_field resp "outputs" = true /\
    Handler.has_field resp "log" = true /\
    Handler.has_field resp "message" = false /\
    Handler.has_field resp "files" = true /\
    Handler.has_field resp "zip" = false.
Proof.
  intros W job d h.
  assert (Hs : Sim.status_is h.1.1 "ok" = true) by (vm_compute; reflexivity).
  apply status_is_inv in Hs as (resp & Hr & Hst).
  pose proof (run_eta h) as E. rewrite Hr in E.
  exists resp. split; [exact Hr |].
  destruct (response_fields (W := W) job Sim.empty_disk resp h.1.2 h.2 E)
    as [(Hd & _) | [(_ & H) | (_ & Hx & _)]].
  - vm_compute in Hd. discriminate Hd.
  - exact H.
  - rewrite Hst in Hx. discriminate Hx.
Defined.

(** C4, counterexample.  The dry-run response and the missing-inputs
    error carry neither run_id nor outputs nor log. *)
Lemma responses_without_run_id_outputs_log :
  let W := Sim.world Sim.all_good in
  let h1 := Handler.handler (W := W) {[ "input" := {[ "dry_run" := VBool true ]} ]}
              Sim.empty_disk in
  let h2 := Handler.handler (W := W) {[ "input" := ∅ ]} Sim.empty_disk in
  (exists resp, h1.1.1 = Ok resp /\ resp !! "status" = Some (VStr "ok") /\
                resp !! "run_id" = None /\ resp !! "outputs" = None /\
                resp !! "log" = None) /\
  (exists resp, h2.1.1 = Ok resp /\ resp !! "status" = Some (VStr "error") /\
                resp !! "run_id" = None /\ resp !! "outputs" = None /\
                resp !! "log" = None).
Proof.
  intros W h1 h2. split.
  - exists Handler.dry_run_response. split_and!; vm_compute; reflexivity.
  - exists (Handler.missing_response ["mesh"; "edit_image"; "mask_image"]).
    split_and!; vm_compute; reflexivity.
Qed.

Lemma outputs_are_existing_catalog_names_witness :
  let W := Sim.world Sim.all_good in
  let job := Sim.inline_request ∅ in
  let h := Handler.handler (W := W) job Sim.empty_disk in
  exists resp prefix work_dir c p sc,
    h.1.1 = Ok resp /\
    resp !! "status" = Some (VStr "ok") /\
    head h.2 = Some (EvMkdtemp prefix work_dir) /\
    last (runs h.2) = Some (c, p, sc) /\
    resp !! "outputs" =
      Some (VList (VStr <$>
        List.filter
          (fun name => path_exists sc (os_path_join (os_path_join work_dir "output") name))
          ["edited_mesh.glb"; "edited_mesh_views.png"; "selected_fixed_tokens_views.png";
           "2d_masked_input.png"; "mv_repaint_model.glb";
           "mv_adapter_repaint_6_views.png"; "mv_adapter_6_views.png"])).
Proof.
  intros W job h.
  assert (Hs : Sim.status_is h.1.1 "ok" = true) by (vm_compute; reflexivity).
  apply status_is_inv in Hs as (resp & Hr & Hst).
  pose proof (run_eta h) as E. rewrite Hr in E.
  destruct (outputs_are_existing_catalog_names (W := W) job Sim.empty_disk resp h.1.2 h.2)
    as (prefix & work_dir & c & p & sc & H1 & H2 & H3);
    [reflexivity | exact E | exact Hst |].
  exists resp, prefix, work_dir, c, p, sc.
  exact (conj Hr (conj Hst (conj H1 (conj H2 H3)))).
Defined.



Lemma inline_request_scenario_witness :
  let W := Sim.world Sim.all_good in
  let d : gmap string pyval :=
    {[ "mesh_base64" := VStr "glTF";
       "edit_image_base64" := VStr "PNG1";
       "mask_image_base64" := VStr "PNG2";
       "attentive_2d" := VInt 8;
       "guidance_scale" := VFloat (mk_float 75 1) ]} in
  let h := Handler.handler (W := W) {[ "input" := d ]} Sim.empty_disk in
  exists work_dir p sc rest,
    writes h.2 = [(os_path_join work_dir "input" +:+ "/model.glb", [Byte.x67; Byte.x6c; Byte.x54; Byte.x46]);
                  (os_path_join work_dir "input" +:+ "/2d_edit.png", [Byte.x50; Byte.x4e; Byte.x47; Byte.x31]);
                  (os_path_join work_dir "input" +:+ "/2d_mask.png", [Byte.x50; Byte.x4e; Byte.x47; Byte.x32])] /\
    runs h.2 =
      (["python"; Handler.VECSET_SCRIPT;
        "--input_dir"; os_path_join work_dir "input";
        "--output_dir"; os_path_join work_dir "output";
        "--mesh_file"; "model.glb";
        "--edit_image"; "2d_edit.png";
        "--mask_image"; "2d_mask.png";
        "--azimuth"; "0.0";
        "--elevation"; "0.0";
        "--scale"; "2.0";
        "--attentive_2d"; "8";
        "--cut_off_p"; "0.5";
        "--topk_percent_2d"; "0.2";
        "--threshold_percent_2d"; "0.1";
        "--step_pruning"; "5";
        "--edit_strength"; "0.7";
        "--guidance_scale"; "7.5"], p, sc) :: rest.
Proof.
  intros W d h.
  assert (Hs : Sim.status_is h.1.1 "ok" = true) by (vm_compute; reflexivity).
  apply status_is_inv in Hs as (resp & Hr & _).
  pose proof (run_eta h) as E. rewrite Hr in E.
  destruct (inline_request_scenario (W := W) "glTF" "PNG1" "PNG2" Sim.empty_disk
              resp h.1.2 h.2) as (prefix & wd & rm & re & rk & p & sc & rest & H);
    [discriminate.. | exact E |].
  cbn zeta in H. destruct H as (_ & Dm & De & Dk & Hw & Hrun).
  injection Dm as <-. injection De as <-. injection Dk as <-.
  exists wd, p, sc, rest. exact (conj Hw Hrun).
Defined.

Lemma gate_requires_exactly_True_witness :
  let W := Sim.world Sim.texture_fails in
  let d := default ∅ (Sim.inline_request ∅ !! "input") in
  VStr "true" <> VBool true /\
  Handler.handler (W := W)
    (<["input" := <["run_texture_repaint" := VStr "true"]> d]> ∅) Sim.empty_disk
  = Handler.handler (W := W)
      (<["input" := delete "run_texture_repaint" d]> ∅) Sim.empty_disk.
Proof.
  intros W d.
  assert (Hv : VStr "true" <> VBool true) by discriminate.
  split; [exact Hv |].
  apply (gate_requires_exactly_True (W := W)); [| exact Hv].
  apply list_elem_of_In. right; left. reflexivity.
Defined.

End ConcreteRuns.

(** * Further properties *)

(** ** The job handler up to the first stage *)
Section HandlerEntry.
Context {W : World}.

Lemma archives_app (t1 t2 : list event) : archives (t1 ++ t2) = archives t1 ++ archives t2.
Proof. unfold archives. apply omap_app. Qed.

Lemma copies_app (t1 t2 : list event) : copies (t1 ++ t2) = copies t1 ++ copies t2.
Proof. unfold copies. apply omap_app. Qed.

Lemma get_input_path d p dir dflt s o s' t :
  Handler._get_input_file d p dir dflt s = (Ok o, s', t) ->
  exists n, Handler.py_or_name d (p +:+ "_filename") dflt = VStr n /\
            match o with
            | Some path => path = os_path_join dir n
            | None => True
            end.
Proof.
  unfold Handler._get_input_file, Handler.py_or_name. intros H.
  apply bind_inv in H as [(dest & s1 & t1 & t2 & E & H & _) | (e & _ & [=])].
  destruct (Handler.py_or _ _) as [| | | |n| |]; try discriminate E.
  injection E as <- _ _. exists n. split; [done |].
  destruct (present_nonempty d (p +:+ "_url")).
  { by apply bind_inv in H as [(? & ? & ? & ? & _ & [= <- _ _] & _) | (e & _ & [=])]. }
  destruct (present_nonempty d (p +:+ "_base64")).
  { by apply bind_inv in H as [(? & ? & ? & ? & _ & [= <- _ _] & _) | (e & _ & [=])]. }
  by injection H as <- _ _.
Qed.

Lemma get_input_events d p dir dflt s r s' t :
  Handler._get_input_file d p dir dflt s = (r, s', t) -> fetch_or_write t.
Proof.
  unfold Handler._get_input_file, fetch_or_write. intros H.
  apply bind_inv in H as [(dest & s1 & t1 & t2 & E & H & ->) | (e & E & _)].
  2:{ apply readonly_py_path_join in E as [_ ->]. constructor. }
  apply readonly_py_path_join in E as [-> ->]. cbn [app].
  destruct (present_nonempty d (p +:+ "_url")).
  { unfold Handler._download, Handler.do_fetch, do_write, bind, ret, raise in H.
    repeat case_match; simplify_eq; repeat constructor. }
  destruct (present_nonempty d (p +:+ "_base64")).
  { unfold Handler._write_base64, lift_option, do_write, bind, ret, raise in H.
    repeat case_match; simplify_eq; repeat constructor. }
  injection H as _ _ <-. constructor.
Qed.

Lemma quiet_of_events t : fetch_or_write t -> runs t = [].
Proof.
  induction 1 as [|e t He _ IH]; [done |]. by destruct e.
Qed.

Lemma no_archive_of_events t : fetch_or_write t -> archives t = [].
Proof.
  induction 1 as [|e t He _ IH]; [done |]. by destruct e.
Qed.

Lemma do_mkdtemp_inv prefix s r s' t :
  do_mkdtemp prefix s = (r, s', t) ->
  (exists wd, mkdtemp prefix s = Some (wd, s') /\ r = Ok wd /\
              t = [EvMkdtemp prefix wd]) \/
  (mkdtemp prefix s = None /\ r = Raise OSError /\ s' = s /\ t = []).
Proof.
  unfold do_mkdtemp. destruct (mkdtemp prefix s) as [[wd sm]|];
    intros [= <- <- <-]; [left; by exists wd | by right].
Qed.

Lemma new_run_id_inv d s r s' t :
  Handler.new_run_id d s = (r, s', t) -> r = Ok (run_id_of d s) /\ s' = s /\ t = [].
Proof.
  unfold Handler.new_run_id, run_id_of.
  destruct (truthy _); by intros [= <- <- <-].
Qed.


(** What is known when a run has started a child process. *)
Lemma handler_stage_entry job s r s' t :
  let d := default ∅ (job !! "input") in
  Handler.handler job s = (r, s', t) ->
  runs t <> [] ->
  is_True (dict_get d "dry_run") = false /\
  exists wd s0 t0 t1 n_mesh n_edit n_mask rp cmd,
    let input_dir := os_path_join wd "input" in
    let output_dir := os_path_join wd "output" in
    t = t0 ++ t1 /\ runs t0 = [] /\ archives t0 = [] /\
    head t0 = Some (EvMkdtemp ("vecset_" +:+ py_str (run_id_of d s) +:+ "_") wd) /\
    Handler.py_or_name d "mesh_filename" "model.glb" = VStr n_mesh /\
    Handler.py_or_name d "edit_image_filename" "2d_edit.png" = VStr n_edit /\
    Handler.py_or_name d "mask_image_filename" "2d_mask.png" = VStr n_mask /\
    match rp with
    | Some p => exists n, Handler.py_or_name d "render_image_filename" "2d_render.png" = VStr n /\
                          p = os_path_join input_dir n /\
                          Handler.slot_unresolved d "render_image" = false
    | None => Handler.slot_unresolved d "render_image" = true
    end /\
    Handler.edit_cmd d input_dir output_dir
      (Some (os_path_join input_dir n_mesh)) (Some (os_path_join input_dir n_edit))
      (Some (os_path_join input_dir n_mask)) rp s0 = (Ok cmd, s0, []) /\
    Handler.pipeline d (run_id_of d s) wd output_dir cmd s0 = (r, s', t1).
Proof.
  intros d H Hruns.
  destruct (is_True (dict_get d "dry_run")) eqn:Hdry.
  { unfold Handler.handler in H. fold d in H. rewrite Hdry in H.
    injection H as _ _ <-. done. }
  split; [done |].
  unfold Handler.handler in H. fold d in H. rewrite Hdry in H.
  apply bind_inv in H as [(run_id & s1 & t1 & t2 & E1 & H & ->) | (e & E1 & _)].
  2:{ by apply new_run_id_inv in E1 as ([=] & _). }
  apply new_run_id_inv in E1 as ([= ->] & -> & ->).
  apply bind_inv in H as [(wd & s2 & t3 & t4 & E2 & H & ->) | (e & E2 & _)].
  2:{ by apply do_mkdtemp_inv in E2 as [(? & _ & [=] & _) | (_ & _ & _ & ->)]. }
  apply do_mkdtemp_inv in E2 as [(wd' & Em & [= <-] & ->) | (_ & [=] & _)].
  apply bind_inv in H as [(u1 & s3 & t5 & t6 & E3 & H & ->) | (e & [=] & _)].
  injection E3 as _ <- <-.
  apply bind_inv in H as [(u2 & s4 & t7 & t8 & E4 & H & ->) | (e & [=] & _)].
  injection E4 as _ <- <-.
  cbn [app] in Hruns.
  change (runs (?a :: ?b :: ?c :: t8)) with (runs t8) in Hruns.
  apply bind_inv in H as [(m & s5 & t9 & t10 & E5 & H & ->) | (e & E5 & ->)];
    [rewrite runs_app, (quiet__get_input_file _ _ _ _ _ _ _ _ E5) in Hruns; cbn [app] in Hruns
    | exfalso; apply Hruns; exact (quiet__get_input_file _ _ _ _ _ _ _ _ E5)].
  apply bind_inv in H as [(ei & s6 & t11 & t12 & E6 & H & ->) | (e & E6 & ->)];
    [rewrite runs_app, (quiet__get_input_file _ _ _ _ _ _ _ _ E6) in Hruns; cbn [app] in Hruns
    | exfalso; apply Hruns; exact (quiet__get_input_file _ _ _ _ _ _ _ _ E6)].
  apply bind_inv in H as [(k & s7 & t13 & t14 & E7 & H & ->) | (e & E7 & ->)];
    [rewrite runs_app, (quiet__get_input_file _ _ _ _ _ _ _ _ E7) in Hruns; cbn [app] in Hruns
    | exfalso; apply Hruns; exact (quiet__get_input_file _ _ _ _ _ _ _ _ E7)].
  apply bind_inv in H as [(rp & s8 & t15 & t16 & E8 & H & ->) | (e & E8 & ->)];
    [rewrite runs_app, (quiet__get_input_file _ _ _ _ _ _ _ _ E8) in Hruns; cbn [app] in Hruns
    | exfalso; apply Hruns; exact (quiet__get_input_file _ _ _ _ _ _ _ _ E8)].
  pose proof (get_input_events _ _ _ _ _ _ _ _ E5) as A5.
  pose proof (get_input_events _ _ _ _ _ _ _ _ E6) as A6.
  pose proof (get_input_events _ _ _ _ _ _ _ _ E7) as A7.
  pose proof (get_input_events _ _ _ _ _ _ _ _ E8) as A8.
  pose proof (_get_input_file_result _ _ _ _ _ _ _ _ E8) as Hrp.
  apply get_input_path in E5 as (n1 & N1 & P1).
  apply get_input_path in E6 as (n2 & N2 & P2).
  apply get_input_path in E7 as (n3 & N3 & P3).
  apply get_input_path in E8 as (n4 & N4 & P4).
  destruct m as [m|], ei as [ei|], k as [k|];
    cbn [Handler.missing_of omap list_omap snd fst] in H;
    try (injection H as _ _ <-; done).
  subst m ei k.
  apply bind_inv in H as [(cmd & s9 & t17 & t18 & E9 & H & ->) | (e & E9 & ->)].
  2:{ exfalso. apply Hruns. by apply readonly_edit_cmd in E9 as [_ ->]. }
  pose proof (readonly_edit_cmd _ _ _ _ _ _ _ _ _ _ _ E9) as [-> ->].
  exists wd, s8,
    (EvMkdtemp ("vecset_" +:+ py_str (run_id_of d s) +:+ "_") wd
       :: EvMakedirs (os_path_join wd "input") :: EvMakedirs (os_path_join wd "output")
       :: t9 ++ t11 ++ t13 ++ t15),
    t18, n1, n2, n3, rp, cmd.
  cbn zeta. split_and!; try done.
  - cbn [app]. by rewrite <- !app_assoc.
  - change (runs (?a :: ?b :: ?c :: ?l)) with (runs l).
    rewrite !runs_app.
    by rewrite (quiet_of_events _ A5), (quiet_of_events _ A6), (quiet_of_events _ A7),
      (quiet_of_events _ A8).
  - change (archives (?a :: ?b :: ?c :: ?l)) with (archives l).
    rewrite !archives_app.
    by rewrite (no_archive_of_events _ A5), (no_archive_of_events _ A6),
      (no_archive_of_events _ A7), (no_archive_of_events _ A8).
  - destruct rp as [p|]; [| done]. exists n4. done.
Qed.

End HandlerEntry.

(** ** The argument vector of the edit stage *)
Section EditCommand.
Context {W : World}.

Lemma py_float_inv v s r s' t :
  py_float v s = (r, s', t) -> s' = s /\ t = [] /\ (uncoercible v = true -> r = Raise TypeError).
Proof.
  intros H. destruct (readonly_py_float _ _ _ _ _ H) as [-> ->]. split_and!; [done.. |].
  destruct v; try discriminate; intros _; by injection H as <-.
Qed.

Lemma py_int_inv v s r s' t :
  py_int v s = (r, s', t) -> s' = s /\ t = [] /\ (uncoercible v = true -> r = Raise TypeError).
Proof.
  intros H. destruct (readonly_py_int _ _ _ _ _ H) as [-> ->]. split_and!; [done.. |].
  destruct v; try discriminate; intros _; by injection H as <-.
Qed.

(** The outcome of a coercion does not depend on the world. *)
Lemma py_int_state v s1 s2 : (py_int v s1).1.1 = (py_int v s2).1.1.
Proof.
  destruct v as [|[]| |f|x| |]; try reflexivity; cbn.
  - by destruct (_ || _).
  - by destruct (str_to_int x).
Qed.

Lemma py_float_state v s1 s2 : (py_float v s1).1.1 = (py_float v s2).1.1.
Proof.
  destruct v as [|[]|z| |x| |]; try reflexivity; cbn.
  - destruct (_ <=? _); [done |]. by destruct (int_to_float z).
  - by destruct (str_to_float x).
Qed.

Tactic Notation "coerce_step" hyp(H) ident(E) ident(x) constr(Q) :=
  let sx := fresh "s" in let ta := fresh "t" in let tb := fresh "t" in
  let e := fresh "e" in
  apply bind_inv in H as [(x & sx & ta & tb & E & H & _) | (e & _ & [=])];
  pose proof (Q _ _ _ _ _ E) as [-> _];
  apply (f_equal (fun y => y.1.1)) in E; cbn [fst] in E.

(** The argument vector [edit_cmd] returns. *)
Lemma edit_cmd_ok d i o m e k rp s cmd s' t :
  Handler.edit_cmd d i o (Some m) (Some e) (Some k) rp s = (Ok cmd, s', t) ->
  exists az el sc a2 cp tk th sp es gs,
    (py_float (dict_get_or d "azimuth" (VFloat (mk_float 0 1))) s).1.1 = Ok az /\
    (py_float (dict_get_or d "elevation" (VFloat (mk_float 0 1))) s).1.1 = Ok el /\
    (py_float (dict_get_or d "scale" (VFloat (mk_float 20 1))) s).1.1 = Ok sc /\
    (py_int (dict_get_or d "attentive_2d" (VInt 8)) s).1.1 = Ok a2 /\
    (py_float (dict_get_or d "cut_off_p" (VFloat (mk_float 5 1))) s).1.1 = Ok cp /\
    (py_float (dict_get_or d "topk_percent_2d" (VFloat (mk_float 2 1))) s).1.1 = Ok tk /\
    (py_float (dict_get_or d "threshold_percent_2d" (VFloat (mk_float 1 1))) s).1.1 = Ok th /\
    (py_int (dict_get_or d "step_pruning" (VInt 5)) s).1.1 = Ok sp /\
    (py_float (dict_get_or d "edit_strength" (VFloat (mk_float 7 1))) s).1.1 = Ok es /\
    (py_float (dict_get_or d "guidance_scale" (VFloat (mk_float 75 1))) s).1.1 = Ok gs /\
    cmd = ["python"; Handler.VECSET_SCRIPT;
           "--input_dir"; i;
           "--output_dir"; o;
           "--mesh_file"; os_path_basename m;
           "--edit_image"; os_path_basename e;
           "--mask_image"; os_path_basename k;
           "--azimuth"; float_str az;
           "--elevation"; float_str el;
           "--scale"; float_str sc;
           "--attentive_2d"; int_str a2;
           "--cut_off_p"; float_str cp;
           "--topk_percent_2d"; float_str tk;
           "--threshold_percent_2d"; float_str th;
           "--step_pruning"; int_str sp;
           "--edit_strength"; float_str es;
           "--guidance_scale"; float_str gs]
          ++ match rp with
             | Some p => ["--render_image"; os_path_basename p]
             | None => []
             end.
Proof.
  unfold Handler.edit_cmd. intros H.
  coerce_step H E1 az readonly_py_float.
  coerce_step H E2 el readonly_py_float.
  coerce_step H E3 sc readonly_py_float.
  coerce_step H E4 a2 readonly_py_int.
  coerce_step H E5 cp readonly_py_float.
  coerce_step H E6 tk readonly_py_float.
  coerce_step H E7 th readonly_py_float.
  coerce_step H E8 sp readonly_py_int.
  coerce_step H E9 es readonly_py_float.
  coerce_step H E10 gs readonly_py_float.
  cbn [Handler.basename_of fmap option_fmap option_map lift_option] in H.
  rewrite !bind_ret_l in H.
  exists az, el, sc, a2, cp, tk, th, sp, es, gs.
  split_and!; [done.. |].
  destruct rp; by injection H as <- _ _.
Qed.

End EditCommand.

(** ** The two stages and the packaging, in detail *)
Section PipelineDetail.
Context {W : World}.

Lemma run_log_nonempty cmd p : String.eqb (Handler.run_log cmd p) "" = false.
Proof.
  unfold Handler.run_log, join.
  destruct (String.eqb (stdout p) ""), (String.eqb (stderr p) ""); reflexivity.
Qed.

(** The second stage of the handler. *)
Lemma texture_stage_detail d od log s r s' t :
  Handler.texture_stage d od log s = (r, s', t) ->
  (is_True (dict_get d "run_texture_repaint") = false /\
   r = Ok (inr None) /\ s' = s /\ t = []) \/
  (is_True (dict_get d "run_texture_repaint") = true /\
   (exists e, (py_int (dict_get_or d "seed" (VInt 99999)) s).1.1 = Raise e /\
              r = Raise e /\ s' = s /\ t = [])) \/
  (is_True (dict_get d "run_texture_repaint") = true /\
   exists seed p2,
     (py_int (dict_get_or d "seed" (VInt 99999)) s).1.1 = Ok seed /\
     let cmd2 :=
       ["python"; Handler.TEXTURE_SCRIPT;
        "--input_mesh"; os_path_join od "edited_mesh.glb";
        "--ref_mesh"; os_path_join od "source_model.glb";
        "--texture_image"; os_path_join od "2d_edit.png";
        "--output_dir"; od;
        "--seed"; int_str seed;
        "--render_method"; py_str (dict_get_or d "render_method" (VStr "nvdiffrast"))] in
     subprocess_run cmd2 Handler.REPO_DIR s = (p2, s') /\
     t = [EvRun cmd2 Handler.REPO_DIR p2 s'] /\
     r = Ok (if negb (returncode p2 =? 0)
             then inl (Handler.texture_failed_response log (Handler.run_log cmd2 p2))
             else inr (Some (Handler.run_log cmd2 p2)))).
Proof.
  unfold Handler.texture_stage. intros H.
  destruct (is_True (dict_get d "run_texture_repaint")).
  2:{ left. by injection H as <- <- <-. }
  right.
  apply bind_inv in H as [(seed & s1 & t1 & t2 & Es & H & ->) | (e & Es & ->)].
  - right. split; [done |].
    pose proof (readonly_py_int _ _ _ _ _ Es) as [-> ->].
    apply (f_equal (fun y => y.1.1)) in Es. cbn [fst] in Es.
    apply bind_inv in H as [(x & s5 & t7 & t8 & Er & H & ->) | (e & Er & _)].
    2:{ by apply _run_cmd_inv in Er as (p2 & s2 & _ & [=] & _). }
    apply _run_cmd_inv in Er as (p2 & s2 & E2 & [= ->] & -> & ->).
    cbn beta iota in H.
    exists seed, p2. split; [done |]. cbn zeta.
    destruct (negb (returncode p2 =? 0)); by injection H as <- <- <-.
  - left. split; [done |]. exists e.
    pose proof (readonly_py_int _ _ _ _ _ Es) as [-> ->].
    apply (f_equal (fun y => y.1.1)) in Es. done.
Qed.

(** The inline payloads, one per collected name. *)
Lemma encode_all s od names r s' t :
  Handler.mapM (fun np : string * string =>
                  bind (Handler._encode_file np.2) (fun enc => ret (np.1, enc)))
               ((fun n => (n, os_path_join od n)) <$> names) s = (r, s', t) ->
  s' = s /\ t = [] /\
  forall fs, r = Ok fs ->
    fs.*1 = names /\
    Forall2 (fun name entry =>
               exists data, read_bytes s (os_path_join od name) = Some data /\
                 entry = VDict [("filename", VStr (os_path_basename (os_path_join od name)));
                                ("size_bytes", VInt (Z.of_nat (length data)));
                                ("base64", VStr (b64encode data))])
            names fs.*2.
Proof.
  revert r s' t. induction names as [|n names IH]; intros r s' t H.
  { injection H as <- <- <-. split_and!; [done.. |]. intros fs [= <-]. by split. }
  cbn [fmap list_fmap Handler.mapM] in H.
  apply bind_inv in H as [(b & s1 & t1 & t2 & Eb & H & ->) | (e & Eb & ->)].
  2:{ apply readonly_bind in Eb as [-> ->];
        [done | apply readonly__encode_file | intros; apply readonly_ret]. }
  assert (s1 = s /\ t1 = [] /\
          exists data, read_bytes s (os_path_join od n) = Some data /\
            b = (n, VDict [("filename", VStr (os_path_basename (os_path_join od n)));
                           ("size_bytes", VInt (Z.of_nat (length data)));
                           ("base64", VStr (b64encode data))])) as (-> & -> & data & Hd & ->).
  { revert Eb. unfold Handler._encode_file, do_read, bind, ret. cbn [fst snd].
    destruct (read_bytes s (os_path_join od n)) as [data|]; [| done].
    intros [= <- <- <-]. split_and!; [done.. |]. by exists data. }
  apply bind_inv in H as [(bs & s2 & t3 & t4 & Em & H & ->) | (e & Em & ->)].
  2:{ apply IH in Em as (-> & -> & _). done. }
  apply IH in Em as (-> & -> & Hfs). injection H as <- <- <-.
  split_and!; [done.. |]. intros fs [= <-].
  destruct (Hfs bs eq_refl) as [H1 H2]. cbn. split; [by rewrite H1 |].
  constructor; [by exists data | done].
Qed.

Lemma collected_pairs s od l :
  omap (fun name =>
          let path := os_path_join od name in
          if path_exists s path then Some (name, path) else None) l
  = (fun n => (n, os_path_join od n)) <$>
      List.filter (fun n => path_exists s (os_path_join od n)) l.
Proof.
  induction l as [|n l IH]; [done |].
  cbn [omap list_omap List.filter]. cbn zeta.
  destruct (path_exists s (os_path_join od n)); cbn [fmap list_fmap]; by rewrite <- IH.
Qed.

(** What packaging does beyond the four fixed fields. *)
Lemma package_detail d run_id wd od log tl s resp s' t :
  Handler.package d run_id wd od log tl s = (Ok resp, s', t) ->
  let names := List.filter (fun n => path_exists s (os_path_join od n)) Handler.candidates in
  (is_True (dict_get d "return_files") = true ->
   exists fs, resp !! "files" = Some (VDict fs) /\ fs.*1 = names /\
     Forall2 (fun name entry =>
                exists data, read_bytes s (os_path_join od name) = Some data /\
                  entry = VDict [("filename", VStr (os_path_basename (os_path_join od name)));
                                 ("size_bytes", VInt (Z.of_nat (length data)));
                                 ("base64", VStr (b64encode data))])
             names fs.*2) /\
  (is_True (dict_get d "return_zip_base64") = true ->
   exists ap data,
     make_archive (os_path_join wd "results") od s = (ap, s') /\
     t = [EvArchive (os_path_join wd "results") od ap] /\
     read_bytes s' ap = Some data /\
     resp !! "zip" = Some (VDict [("filename", VStr (os_path_basename ap));
                                  ("size_bytes", VInt (Z.of_nat (length data)));
                                  ("base64", VStr (b64encode data))])) /\
  (is_True (dict_get d "return_zip_base64") = false -> t = [] /\ s' = s).
Proof.
  intros H names. unfold Handler.package, Handler._collect_outputs in H.
  apply bind_inv in H as [(outs & s1 & t1 & t2 & Eg & H & ->) | (e & _ & [=])].
  apply gets_inv in Eg as (-> & -> & ->).
  rewrite collected_names, collected_pairs in H. fold names in H.
  set (base := ({[ "status" := VStr "ok"; "run_id" := run_id;
                   "outputs" := VList _; "log" := VStr _ ]} : gmap string pyval)) in H.
  apply bind_inv in H as [(res & s1 & t1 & t3 & E1 & H & ->) | (e & _ & [=])].
  assert (Hres : s1 = s /\ t1 = [] /\
            (is_True (dict_get d "return_files") = true ->
             exists fs, res !! "files" = Some (VDict fs) /\ fs.*1 = names /\
               Forall2 (fun name entry =>
                 exists data, read_bytes s (os_path_join od name) = Some data /\
                   entry = VDict [("filename", VStr (os_path_basename (os_path_join od name)));
                                  ("size_bytes", VInt (Z.of_nat (length data)));
                                  ("base64", VStr (b64encode data))])
                 names fs.*2)).
  { destruct (is_True (dict_get d "return_files")).
    - apply bind_inv in E1 as [(fs & s2 & t4 & t5 & E1 & [= <- <- <-] & ->) | (e & _ & [=])].
      apply encode_all in E1 as (-> & -> & Hfs).
      split_and!; [done.. |]. intros _. exists fs.
      split; [apply lookup_insert_eq | by apply Hfs].
    - injection E1 as <- <- <-. done. }
  destruct Hres as (-> & -> & Hfiles). cbn [app].
  destruct (is_True (dict_get d "return_zip_base64")).
  - unfold Handler._zip_dir, do_make_archive in H.
    destruct (make_archive (os_path_join wd "results") od s) as [ap sa] eqn:Ea.
    apply bind_inv in H as [(ap' & s2 & t4 & t5 & E2 & H & ->) | (e & E2 & _)].
    2:{ rewrite Ea in E2. discriminate E2. }
    rewrite Ea in E2. injection E2 as <- <- <-.
    apply bind_inv in H as [(enc & s3 & t6 & t7 & E3 & [= <- <- <-] & ->) | (e & _ & [=])].
    revert E3. unfold Handler._encode_file, do_read, bind, ret. cbn [fst snd].
    destruct (read_bytes sa ap) as [data|] eqn:Hd; [| done].
    intros [= <- <- <-].
    split_and!; [| | done].
    + intros Hf. destruct (Hfiles Hf) as (fs & F1 & F2). exists fs.
      by rewrite lookup_insert_ne.
    + intros _. exists ap, data. split_and!; [done.. |]. apply lookup_insert_eq.
  - injection H as <- <- <-. split_and!; [exact Hfiles | done | done].
Qed.

End PipelineDetail.

(** ** Runs of the job handler *)
Section HandlerRuns.
Context {W : World}.

Lemma pipeline_detail d run_id wd od cmd s0 r s' t :
  Handler.pipeline d run_id wd od cmd s0 = (r, s', t) ->
  exists p1 s1 t1,
    subprocess_run cmd Handler.REPO_DIR s0 = (p1, s1) /\
    t = EvRun cmd Handler.REPO_DIR p1 s1 :: t1 /\
    let log := Handler.run_log cmd p1 in
    if negb (returncode p1 =? 0)
    then r = Ok (Handler.edit_failed_response log) /\ s' = s1 /\ t1 = []
    else exists rt st tt t2,
        Handler.texture_stage d od log s1 = (rt, st, tt) /\ t1 = tt ++ t2 /\
        match rt with
        | Raise e => r = Raise e /\ s' = st /\ t2 = []
        | Ok (inl response) => r = Ok response /\ s' = st /\ t2 = []
        | Ok (inr tl) => Handler.package d run_id wd od log tl st = (r, s', t2)
        end.
Proof.
  unfold Handler.pipeline. intros H.
  apply bind_inv in H as [(cl & s2 & t1 & t2 & Eb & H & ->) | (e & Eb & _)].
  2:{ by apply _run_cmd_inv in Eb as (p & s1 & _ & [=] & _). }
  apply _run_cmd_inv in Eb as (p1 & s1 & E1 & [= ->] & -> & ->).
  exists p1, s1, t2. split_and!; [done.. |]. cbn zeta. cbn beta iota in H.
  destruct (negb (returncode p1 =? 0)).
  { by injection H as <- <- <-. }
  apply bind_inv in H as [(tex & s3 & t3 & t4 & Et & H & ->) | (e & Et & ->)].
  - exists (Ok tex), s3, t3, t4. split_and!; [done.. |].
    destruct tex as [response | tl]; [| done].
    by injection H as <- <- <-.
  - exists (Raise e), s', t2, []. by rewrite app_nil_r.
Qed.

(** A run that ends with an ok response, laid out. *)
Lemma handler_ok_run job s resp s' t :
  let d := default ∅ (job !! "input") in
  is_True (dict_get d "dry_run") = false ->
  Handler.handler job s = (Ok resp, s', t) ->
  resp !! "status" = Some (VStr "ok") ->
  exists wd t0 c1 p1 s1 tl sc tr t2,
    let od := os_path_join wd "output" in
    t = t0 ++ EvRun c1 Handler.REPO_DIR p1 s1 :: tr ++ t2 /\
    runs t0 = [] /\ archives t0 = [] /\
    head t0 = Some (EvMkdtemp ("vecset_" +:+ py_str (run_id_of d s) +:+ "_") wd) /\
    returncode p1 = 0 /\
    ((is_True (dict_get d "run_texture_repaint") = false /\
      tl = None /\ sc = s1 /\ tr = []) \/
     (is_True (dict_get d "run_texture_repaint") = true /\
      exists c2 p2, tl = Some (Handler.run_log c2 p2) /\ returncode p2 = 0 /\
                    tr = [EvRun c2 Handler.REPO_DIR p2 sc])) /\
    Handler.package d (run_id_of d s) wd od (Handler.run_log c1 p1) tl sc
    = (Ok resp, s', t2).
Proof.
  intros d Hdry H Hok.
  assert (Hruns : runs t <> []).
  { pose proof H as H'.
    apply handler_not_dry in H' as [(Hf & _ & Hft) | (pre & wd & sm & t' & _ & -> & H')];
    [by first [discriminate Hf | rewrite Hft in *] | | done].
    change (runs (EvMkdtemp pre wd :: t')) with (runs t').
    destruct H' as [(e & [=] & _) | [(_ & [= ->] & _) | (cmd & s0 & t0 & t1 & _ & Ht0 & -> & _ & H')]].
    { by unfold Handler.missing_response in Hok. }
    apply pipeline_detail in H' as (p1 & s1 & t2 & _ & -> & _).
    rewrite runs_app, Ht0. done. }
  apply handler_stage_entry in H as (_ & wd & s0 & t0 & t1 & n1 & n2 & n3 & rp & cmd & H);
    [| done].
  cbn zeta in H. fold d in H.
  destruct H as (-> & Ht0 & Ha0 & Hh & _ & _ & _ & _ & _ & H).
  apply pipeline_detail in H as (p1 & s1 & t2 & E1 & -> & H). cbn zeta in H.
  destruct (Z.eqb_spec (returncode p1) 0) as [Hz | Hnz]; cbn [negb] in H.
  2:{ destruct H as ([= ->] & _). by unfold Handler.edit_failed_response in Hok. }
  destruct H as (rt & st & tt & t3 & Et & -> & H).
  apply texture_stage_detail in Et as [(Hr & -> & -> & ->) | [(Hr & e & _ & -> & _) |
                                       (Hr & seed & p2 & _ & Et)]].
  - exists wd, t0, cmd, p1, s1, None, s1, [], t3. cbn zeta. split_and!; try done.
    left. done.
  - by destruct H as ([=] & _).
  - cbn zeta in Et. destruct Et as (E2 & -> & ->).
    destruct (Z.eqb_spec (returncode p2) 0) as [Hz2 | Hnz2]; cbn [negb] in H.
    2:{ destruct H as ([= ->] & _). by unfold Handler.texture_failed_response in Hok. }
    eexists wd, t0, cmd, p1, s1, (Some _), st, [_], t3. cbn zeta.
    split_and!; try done. right. split; [done |]. by eexists _, p2.
Qed.

(** X1. The run identifier of a successful response is the caller's
    [run_id] when that is truthy, and otherwise the UTC stamp, an
    underscore and the first eight hex digits of a fresh UUID; the same
    identifier names the work directory (prefix [vecset_<run_id>_]). *)
Theorem run_id_echoed_or_generated (job : gmap string (gmap string pyval))
    (s : St) resp s' t :
  let d := default ∅ (job !! "input") in
  let rid := if truthy (dict_get d "run_id") then dict_get d "run_id"
             else VStr (utcnow_stamp s +:+ "_" +:+ String.substring 0 8 (uuid4_hex s)) in
  is_True (dict_get d "dry_run") = false ->
  Handler.handler job s = (Ok resp, s', t) ->
  resp !! "status" = Some (VStr "ok") ->
  resp !! "run_id" = Some rid /\
  exists work_dir, head t = Some (EvMkdtemp ("vecset_" +:+ py_str rid +:+ "_") work_dir).
Proof.
  intros d rid Hdry H Hok.
  apply handler_ok_run in H as (wd & t0 & c1 & p1 & s1 & tl & sc & tr & t2 & H); [| done..].
  cbn zeta in H. destruct H as (-> & _ & _ & Hh & _ & _ & Hp).
  apply package_ok in Hp as (_ & F & _). split; [exact F |].
  exists wd. destruct t0; [done |]. exact Hh.
Qed.


End HandlerRuns.

(** ** What the handler passes to its stages *)
Section HandlerStages.
Context {W : World}.

(** The first child process of a run, laid out. *)
Lemma handler_first_run job s r s' t c1 p1 s1 :
  let d := default ∅ (job !! "input") in
  Handler.handler job s = (r, s', t) ->
  runs t !! 0%nat = Some (c1, p1, s1) ->
  is_True (dict_get d "dry_run") = false /\
  exists wd s0 t0 t1 n_mesh n_edit n_mask rp,
    let input_dir := os_path_join wd "input" in
    let output_dir := os_path_join wd "output" in
    t = t0 ++ EvRun c1 Handler.REPO_DIR p1 s1 :: t1 /\
    runs t0 = [] /\ archives t0 = [] /\
    head t0 = Some (EvMkdtemp ("vecset_" +:+ py_str (run_id_of d s) +:+ "_") wd) /\
    Handler.py_or_name d "mesh_filename" "model.glb" = VStr n_mesh /\
    Handler.py_or_name d "edit_image_filename" "2d_edit.png" = VStr n_edit /\
    Handler.py_or_name d "mask_image_filename" "2d_mask.png" = VStr n_mask /\
    match rp with
    | Some p => exists n, Handler.py_or_name d "render_image_filename" "2d_render.png" = VStr n /\
                          p = os_path_join input_dir n /\
                          Handler.slot_unresolved d "render_image" = false
    | None => Handler.slot_unresolved d "render_image" = true
    end /\
    Handler.edit_cmd d input_dir output_dir
      (Some (os_path_join input_dir n_mesh)) (Some (os_path_join input_dir n_edit))
      (Some (os_path_join input_dir n_mask)) rp s0 = (Ok c1, s0, []) /\
    subprocess_run c1 Handler.REPO_DIR s0 = (p1, s1) /\
    let log := Handler.run_log c1 p1 in
    if negb (returncode p1 =? 0)
    then r = Ok (Handler.edit_failed_response log) /\ s' = s1 /\ t1 = []
    else exists rt st tt t2,
        Handler.texture_stage d output_dir log s1 = (rt, st, tt) /\ t1 = tt ++ t2 /\
        match rt with
        | Raise e => r = Raise e /\ s' = st /\ t2 = []
        | Ok (inl response) => r = Ok response /\ s' = st /\ t2 = []
        | Ok (inr tl) =>
            Handler.package d (run_id_of d s) wd output_dir log tl st = (r, s', t2)
        end.
Proof.
  intros d H Hrun.
  assert (Hruns : runs t <> []) by (intros E; by rewrite E in Hrun).
  apply handler_stage_entry in H as (Hdry & wd & s0 & t0 & t1 & n1 & n2 & n3 & rp & cmd & H);
    [| done].
  split; [done |]. cbn zeta in H. fold d in H.
  destruct H as (-> & Ht0 & Ha0 & Hh & N1 & N2 & N3 & Hrp & Hc & H).
  apply pipeline_detail in H as (q1 & sq & t2 & E1 & -> & H).
  rewrite runs_app, Ht0 in Hrun. injection Hrun as <- <- <-.
  exists wd, s0, t0, t2, n1, n2, n3, rp. cbn zeta. split_and!; done.
Qed.

(** X3. The values the edit stage receives for [--mesh_file],
    [--edit_image] and [--mask_image] are the base names of the files the
    resolver wrote into the input directory passed as [--input_dir]: the
    effective file name itself when it contains no slash, only its last
    component otherwise. *)
Theorem stage_arguments_name_resolved_files (job : gmap string (gmap string pyval))
    (s : St) r s' t c1 p1 s1 :
  let d := default ∅ (job !! "input") in
  Handler.handler job s = (r, s', t) ->
  runs t !! 0%nat = Some (c1, p1, s1) ->
  exists input_dir n_mesh n_edit n_mask,
    Handler.py_or_name d "mesh_filename" "model.glb" = VStr n_mesh /\
    Handler.py_or_name d "edit_image_filename" "2d_edit.png" = VStr n_edit /\
    Handler.py_or_name d "mask_image_filename" "2d_mask.png" = VStr n_mask /\
    c1 !! 3%nat = Some input_dir /\
    c1 !! 7%nat = Some (if has_slash n_mesh
                        then os_path_basename (os_path_join input_dir n_mesh)
                        else n_mesh) /\
    c1 !! 9%nat = Some (if has_slash n_edit
                        then os_path_basename (os_path_join input_dir n_edit)
                        else n_edit) /\
    c1 !! 11%nat = Some (if has_slash n_mask
                         then os_path_basename (os_path_join input_dir n_mask)
                         else n_mask).
Proof.
  intros d H Hrun.
  apply handler_first_run with (c1 := c1) (p1 := p1) (s1 := s1) in H
      as (_ & wd & s0 & t0 & t1 & n1 & n2 & n3 & rp & H); [| done].
  cbn zeta in H. fold d in H.
  destruct H as (_ & _ & _ & _ & N1 & N2 & N3 & _ & Hc & _).
  apply edit_cmd_ok in Hc as (az & el & sc & a2 & cp & tk & th & sp & es & gs & Hc).
  destruct Hc as (_ & _ & _ & _ & _ & _ & _ & _ & _ & _ & ->).
  exists (os_path_join wd "input"), n1, n2, n3. split_and!; [done.. | | |].
  all: cbn [lookup list_lookup app]; f_equal.
  all: match goal with |- _ = (if has_slash ?n then _ else _) =>
         destruct (has_slash n) eqn:Hs; [done | by apply basename_join] end.
Qed.

(** X4. When the texture-repaint stage runs, it is given artifacts of the
    edit stage, taken from the directory the edit stage received as
    [--output_dir]: [edited_mesh.glb], [source_model.glb] and
    [2d_edit.png]; it writes into that same directory; its seed is
    [int(seed)] (99999 when absent) and its render method is [str] of the
    request's value (["nvdiffrast"] when absent), whatever that value is. *)
Theorem texture_stage_consumes_edit_outputs (job : gmap string (gmap string pyval))
    (s : St) r s' t c1 p1 s1 c2 p2 s2 :
  let d := default ∅ (job !! "input") in
  Handler.handler job s = (r, s', t) ->
  runs t !! 0%nat = Some (c1, p1, s1) ->
  runs t !! 1%nat = Some (c2, p2, s2) ->
  exists od seed,
    c1 !! 5%nat = Some od /\
    (py_int (dict_get_or d "seed" (VInt 99999)) s).1.1 = Ok seed /\
    (d !! "seed" = None -> seed = 99999) /\
    c2 = ["python"; Handler.TEXTURE_SCRIPT;
          "--input_mesh"; os_path_join od "edited_mesh.glb";
          "--ref_mesh"; os_path_join od "source_model.glb";
          "--texture_image"; os_path_join od "2d_edit.png";
          "--output_dir"; od;
          "--seed"; int_str seed;
          "--render_method";
          match d !! "render_method" with
          | Some v => py_str v
          | None => "nvdiffrast"
          end].
Proof.
  intros d H Hrun1 Hrun2.
  apply handler_first_run with (c1 := c1) (p1 := p1) (s1 := s1) in H
      as (_ & wd & s0 & t0 & t1 & n1 & n2 & n3 & rp & H); [| done].
  cbn zeta in H. fold d in H.
  destruct H as (-> & Ht0 & _ & _ & _ & _ & _ & _ & Hc & _ & H).
  rewrite runs_app, Ht0 in Hrun2. cbn [app] in Hrun2. rewrite runs_cons_run in Hrun2.
  change (runs t1 !! 0%nat = Some (c2, p2, s2)) in Hrun2.
  apply edit_cmd_positions in Hc as (_ & _ & Hod).
  destruct (negb (returncode p1 =? 0)).
  { destruct H as (_ & _ & ->). done. }
  destruct H as (rt & st & tt & t2 & Et & -> & H).
  apply texture_stage_detail in Et as [(_ & -> & -> & ->) | [(_ & e & _ & -> & _ & ->) |
                                       (_ & seed & q2 & Hs & Et)]].
  - apply quiet_package in H. cbn [app] in Hrun2. by rewrite H in Hrun2.
  - destruct H as (_ & _ & ->). done.
  - cbn zeta in Et. destruct Et as (E2 & -> & _).
    injection Hrun2 as <- <- <-.
    exists (os_path_join wd "output"), seed. split_and!; [done | | |].
    + by rewrite (py_int_state _ s s1).
    + intros Hn. unfold dict_get_or in Hs. rewrite Hn in Hs. by injection Hs.
    + unfold dict_get_or. by destruct (d !! "render_method").
Qed.

(** X5. A numeric parameter of the edit stage that is present with a
    value [float()] or [int()] rejects (null, a list, an object) is not
    replaced by its default: such a run never starts a stage, and the only
    response it can give is the dry-run payload or the missing-inputs
    error; otherwise the exception leaves the handler. *)
Theorem uncoercible_parameter_starts_no_stage (job : gmap string (gmap string pyval))
    (k : string) (v : pyval) (s : St) r s' t :
  let d := default ∅ (job !! "input") in
  k ∈ ["azimuth"; "elevation"; "scale"; "attentive_2d"; "cut_off_p"; "topk_percent_2d";
       "threshold_percent_2d"; "step_pruning"; "edit_strength"; "guidance_scale"] ->
  d !! k = Some v ->
  uncoercible v = true ->
  Handler.handler job s = (r, s', t) ->
  runs t = [] /\
  forall resp, r = Ok resp ->
    resp = Handler.dry_run_response \/
    (Handler.missing_slots d <> [] /\
     resp = Handler.missing_response (Handler.missing_slots d)).
Proof.
  intros d Hk Hv Hu H.
  assert (Hruns : runs t = []).
  { destruct (runs t) as [|[[c1 p1] s1] rest] eqn:Hr; [done |]. exfalso.
    assert (Hx : runs t !! 0%nat = Some (c1, p1, s1)) by (by rewrite Hr).
    destruct (handler_first_run _ _ _ _ _ _ _ _ H Hx)
      as (_ & wd & s0 & t0 & t1 & n1 & n2 & n3 & rp & H0).
    clear H. rename H0 into H. cbn zeta in H. fold d in H.
    destruct H as (_ & _ & _ & _ & _ & _ & _ & _ & Hc & _).
    apply edit_cmd_ok in Hc as (az & el & sc & a2 & cp & tk & th & sp & es & gs & Hc).
    destruct Hc as (C1 & C2 & C3 & C4 & C5 & C6 & C7 & C8 & C9 & C10 & _).
    unfold dict_get_or in *. clear - C1 C2 C3 C4 C5 C6 C7 C8 C9 C10 Hk Hv Hu.
    repeat (apply elem_of_cons in Hk as [Hk | Hk];
            [subst k; rewrite Hv in *; destruct v; done |]).
    by apply elem_of_nil in Hk. }
  split; [done |]. intros resp ->.
  destruct (is_True (dict_get d "dry_run")) eqn:Hdry.
  { left. unfold Handler.handler in H. fold d in H. rewrite Hdry in H.
    by injection H as <- _ _. }
  right.
  apply handler_not_dry in H as [(Hf & _ & Hft) | (pre & wd & sm & t' & _ & -> & H)];
    [by first [discriminate Hf | rewrite Hft in *] | | done].
  change (runs (EvMkdtemp pre wd :: t')) with (runs t') in Hruns.
  destruct H as [(e & [=] & _) | [(Hm & [= ->] & _) | (cmd & s0 & t0 & t1 & _ & Ht0 & -> & _ & H)]].
  { done. }
  apply pipeline_detail in H as (q1 & sq & t2 & _ & -> & _).
  rewrite runs_app, Ht0 in Hruns. done.
Qed.

(** X6. A seed that [int()] rejects is only noticed after the edit stage:
    with the texture repaint requested and the edit stage exiting zero, the
    run raises a [TypeError] with the edit stage as its only child process:
    no texture stage, no archive, no response. *)
Theorem uncoercible_seed_found_after_edit_stage (job : gmap string (gmap string pyval))
    (v : pyval) (s : St) r s' t c1 p1 s1 :
  let d := default ∅ (job !! "input") in
  d !! "run_texture_repaint" = Some (VBool true) ->
  d !! "seed" = Some v ->
  uncoercible v = true ->
  Handler.handler job s = (r, s', t) ->
  runs t !! 0%nat = Some (c1, p1, s1) ->
  returncode p1 = 0 ->
  r = Raise TypeError /\ runs t = [(c1, p1, s1)] /\ archives t = [] /\ s' = s1.
Proof.
  intros d Hrtp Hseed Hu H Hrun Hz.
  apply handler_first_run with (c1 := c1) (p1 := p1) (s1 := s1) in H
      as (_ & wd & s0 & t0 & t1 & n1 & n2 & n3 & rp & H); [| done].
  cbn zeta in H. fold d in H.
  destruct H as (-> & Ht0 & Ha0 & _ & _ & _ & _ & _ & _ & _ & H).
  rewrite Hz in H. cbn [Z.eqb negb] in H.
  destruct H as (rt & st & tt & t2 & Et & -> & H).
  assert (Hraise : (py_int (dict_get_or d "seed" (VInt 99999)) s1).1.1 = Raise TypeError).
  { unfold dict_get_or. rewrite Hseed. by destruct v. }
  apply texture_stage_detail in Et as [(Hr & _) | [(_ & e & He & -> & -> & ->) |
                                       (_ & seed & q2 & Hs & _)]].
  - unfold dict_get in Hr. rewrite Hrtp in Hr. done.
  - rewrite Hraise in He. injection He as <-.
    destruct H as (-> & -> & ->).
    rewrite runs_app, archives_app, Ht0, Ha0. done.
  - rewrite Hraise in Hs. done.
Qed.

End HandlerStages.

(** ** Packaging *)
Section Packaging.
Context {W : World}.

Lemma candidates_have_no_slash :
  Forall (fun n => has_slash n = false) Handler.candidates.
Proof. repeat constructor. Qed.

Lemma filter_keeps_Forall {A} (P : A -> Prop) (f : A -> bool) l :
  Forall P l -> Forall P (List.filter f l).
Proof.
  induction 1 as [|a l Ha _ IH]; [constructor |]. cbn.
  destruct (f a); [by constructor | done].
Qed.

(** X7. With [return_files] set to [True], a successful response carries
    one inline payload per listed output, under the same names and in the
    same order as ["outputs"]; each payload gives that name as its
    file name, the number of bytes read from the file in the output
    directory, and their base64 text. *)
Theorem inline_files_match_outputs (job : gmap string (gmap string pyval))
    (s : St) resp s' t :
  let d := default ∅ (job !! "input") in
  is_True (dict_get d "dry_run") = false ->
  d !! "return_files" = Some (VBool true) ->
  Handler.handler job s = (Ok resp, s', t) ->
  resp !! "status" = Some (VStr "ok") ->
  exists prefix work_dir c p sc names files,
    head t = Some (EvMkdtemp prefix work_dir) /\
    last (runs t) = Some (c, p, sc) /\
    resp !! "outputs" = Some (VList (VStr <$> names)) /\
    resp !! "files" = Some (VDict files) /\
    files.*1 = names /\
    Forall2 (fun name entry =>
               exists data,
                 read_bytes sc (os_path_join (os_path_join work_dir "output") name)
                 = Some data /\
                 entry = VDict [("filename", VStr name);
                                ("size_bytes", VInt (Z.of_nat (length data)));
                                ("base64", VStr (b64encode data))])
            names files.*2.
Proof.
  intros d Hdry Hrf H Hok.
  apply handler_ok_run in H as (wd & t0 & c1 & p1 & s1 & tl & sc & tr & t2 & H); [| done..].
  cbn zeta in H. fold d in H. destruct H as (-> & Ht0 & _ & Hh & _ & Htex & Hp).
  pose proof (quiet_package _ _ _ _ _ _ _ _ _ _ Hp) as Hq.
  pose proof (package_ok _ _ _ _ _ _ _ _ _ _ Hp) as (_ & _ & Fo & _).
  apply package_detail in Hp as (Hf & _). cbn zeta in Hf.
  destruct Hf as (fs & Ff & Fn & Fe); [unfold dict_get; by rewrite Hrf |].
  set (names := List.filter _ Handler.candidates) in *.
  assert (Hlast : exists c p, last (runs (t0 ++ EvRun c1 Handler.REPO_DIR p1 s1 :: tr ++ t2))
                              = Some (c, p, sc)).
  { rewrite runs_app, Ht0. cbn [app]. rewrite runs_cons_run, runs_app, Hq, app_nil_r.
    destruct Htex as [(_ & _ & -> & ->) | (_ & c2 & p2 & _ & _ & ->)]; by eexists _, _. }
  destruct Hlast as (c & p & Hlast).
  exists ("vecset_" +:+ py_str (run_id_of d s) +:+ "_"), wd, c, p, sc, names, fs.
  split_and!; [by destruct t0 | done.. |].
  assert (Hns : Forall (fun n => has_slash n = false) names)
    by apply filter_keeps_Forall, candidates_have_no_slash.
  clear - Fe Hns. revert Hns. induction Fe as [|n e ns es (data & Hd & ->) _ IH];
    intros Hns; [constructor |].
  apply Forall_cons in Hns as [Hn Hns]. constructor; [| by apply IH].
  exists data. by rewrite basename_join.
Qed.

(** The layout of every run that is not a dry run. *)
Lemma handler_trace_shape job s r s' t :
  let d := default ∅ (job !! "input") in
  is_True (dict_get d "dry_run") = false ->
  Handler.handler job s = (r, s', t) ->
  t = [] \/
  exists prefix wd tq t1,
    t = EvMkdtemp prefix wd :: EvMakedirs (os_path_join wd "input")
          :: EvMakedirs (os_path_join wd "output") :: tq ++ t1 /\
    fetch_or_write tq /\
    (t1 = [] \/
     exists cmd s0,
       Handler.pipeline d (run_id_of d s) wd (os_path_join wd "output") cmd s0
       = (r, s', t1)).
Proof.
  intros d Hdry. unfold Handler.handler. fold d. rewrite Hdry. intros H.
  apply bind_inv in H as [(run_id & s1 & t1 & t2 & E1 & H & ->) | (e & E1 & _)].
  2:{ by apply new_run_id_inv in E1 as ([=] & _). }
  apply new_run_id_inv in E1 as ([= ->] & -> & ->).
  apply bind_inv in H as [(wd & s2 & t3 & t4 & E2 & H & ->) | (e & E2 & _)].
  2:{ apply do_mkdtemp_inv in E2 as [(? & _ & [=] & _) | (_ & _ & _ & ->)]. by left. }
  apply do_mkdtemp_inv in E2 as [(wd' & Em & [= <-] & ->) | (_ & [=] & _)].
  apply bind_inv in H as [(u1 & s3 & t5 & t6 & E3 & H & ->) | (e & [=] & _)].
  injection E3 as _ <- <-.
  apply bind_inv in H as [(u2 & s4 & t7 & t8 & E4 & H & ->) | (e & [=] & _)].
  injection E4 as _ <- <-.
  right. eexists _, wd. cbn [app].
  apply bind_inv in H as [(m & s5 & t9 & t10 & E5 & H & ->) | (e & E5 & ->)].
  2:{ exists t8, []. rewrite app_nil_r. split_and!; [done | | by left].
      by eapply get_input_events. }
  apply get_input_events in E5.
  apply bind_inv in H as [(ei & s6 & t11 & t12 & E6 & H & ->) | (e & E6 & ->)].
  2:{ exists (t9 ++ t10), []. rewrite app_nil_r. split_and!; [done | | by left].
      apply Forall_app. split; [done | by eapply get_input_events]. }
  apply get_input_events in E6.
  apply bind_inv in H as [(k & s7 & t13 & t14 & E7 & H & ->) | (e & E7 & ->)].
  2:{ exists (t9 ++ t11 ++ t12), []. rewrite app_nil_r. split_and!; [done | | by left].
      repeat (apply Forall_app; split); [done.. | by eapply get_input_events]. }
  apply get_input_events in E7.
  apply bind_inv in H as [(rp & s8 & t15 & t16 & E8 & H & ->) | (e & E8 & ->)].
  2:{ exists (t9 ++ t11 ++ t13 ++ t14), []. rewrite app_nil_r.
      split_and!; [done | | by left].
      repeat (apply Forall_app; split); [done.. | by eapply get_input_events]. }
  apply get_input_events in E8.
  exists (t9 ++ t11 ++ t13 ++ t15), t16.
  split_and!; [by rewrite <- !app_assoc | by repeat (apply Forall_app; split) |].
  destruct (Handler.missing_of _).
  - apply bind_inv in H as [(cmd & s9 & t17 & t18 & E9 & H & ->) | (e & E9 & ->)].
    + apply readonly_edit_cmd in E9 as [-> ->]. right. by exists cmd, s8.
    + apply readonly_edit_cmd in E9 as [_ ->]. by left.
  - injection H as _ _ <-. by left.
Qed.

(** Without the flag, packaging performs no action. *)
Lemma readonly_encode_pair (a : string * string) :
  readonly (bind (Handler._encode_file a.2) (fun enc => ret (a.1, enc))).
Proof. apply readonly_bind; [apply readonly__encode_file | intros; apply readonly_ret]. Qed.

Lemma package_without_zip d run_id wd od log tl s r s' t :
  is_True (dict_get d "return_zip_base64") = false ->
  Handler.package d run_id wd od log tl s = (r, s', t) -> t = [].
Proof.
  intros Hz. unfold Handler.package. rewrite Hz. intros H.
  apply bind_inv in H as [(outs & s1 & t1 & t2 & E0 & H & ->) | (e & E0 & _)].
  2:{ by apply readonly_gets in E0 as [_ ->]. }
  apply readonly_gets in E0 as [-> ->]. cbn [app].
  assert (Hin : forall r1 s1 t1,
             (if is_True (dict_get d "return_files")
              then bind (Handler.mapM
                           (fun np => bind (Handler._encode_file np.2)
                                           (fun enc => ret (np.1, enc))) outs)
                        (fun files => ret (<["files" := VDict files]>
                           ({[ "status" := VStr "ok"; "run_id" := run_id;
                               "outputs" := VList (VStr <$> outs.*1);
                               "log" := VStr (match tl with
                                              | Some tl0 => if String.eqb tl0 "" then log
                                                            else log +:+ nl +:+ nl +:+ tl0
                                              | None => log
                                              end) ]} : gmap string pyval)))
              else ret ({[ "status" := VStr "ok"; "run_id" := run_id;
                           "outputs" := VList (VStr <$> outs.*1);
                           "log" := VStr (match tl with
                                          | Some tl0 => if String.eqb tl0 "" then log
                                                        else log +:+ nl +:+ nl +:+ tl0
                                          | None => log
                                          end) ]} : gmap string pyval)) s = (r1, s1, t1) ->
             t1 = []).
  { intros r1 s1 t1. destruct (is_True (dict_get d "return_files"));
      [| intros E; by apply readonly_ret in E as [_ ->]].
    intros E.
    by destruct (readonly_bind _ _ (readonly_mapM _ outs readonly_encode_pair)
                   (fun _ => readonly_ret _) _ _ _ _ E) as [_ ->]. }
  apply bind_inv in H as [(res & s1 & t1 & t3 & E1 & H & ->) | (e & E1 & _)].
  - apply Hin in E1 as ->. by injection H as _ _ <-.
  - by apply Hin in E1.
Qed.

(** X8. Among the runs that return a response, an archive is made
    exactly by the successful ones with [return_zip_base64] set to [True]:
    such a run archives once, as its last action, the whole output
    directory into [<work_dir>/results], and returns under ["zip"] the
    name, size and base64 text of the archive file.  A run that gives an
    error response, and any run without the flag, archives nothing. *)
Theorem archive_exactly_when_requested (job : gmap string (gmap string pyval))
    (s : St) r s' t :
  let d := default ∅ (job !! "input") in
  Handler.handler job s = (r, s', t) ->
  (is_True (dict_get d "return_zip_base64") = false -> archives t = []) /\
  (forall resp, r = Ok resp -> resp !! "status" = Some (VStr "error") -> archives t = []) /\
  (forall resp, r = Ok resp -> resp !! "status" = Some (VStr "ok") ->
     is_True (dict_get d "dry_run") = false ->
     is_True (dict_get d "return_zip_base64") = true ->
     exists prefix work_dir ap data,
       head t = Some (EvMkdtemp prefix work_dir) /\
       archives t = [(os_path_join work_dir "results", os_path_join work_dir "output", ap)] /\
       last t = Some (EvArchive (os_path_join work_dir "results")
                                (os_path_join work_dir "output") ap) /\
       read_bytes s' ap = Some data /\
       resp !! "zip" = Some (VDict [("filename", VStr (os_path_basename ap));
                                    ("size_bytes", VInt (Z.of_nat (length data)));
                                    ("base64", VStr (b64encode data))])).
Proof.
  intros d H.
  destruct (is_True (dict_get d "dry_run")) eqn:Hdry.
  { unfold Handler.handler in H. fold d in H. rewrite Hdry in H.
    injection H as <- _ <-. split_and!; [done | done |]. intros resp _ _ [=]. }
  split_and!.
  - intros Hz.
    apply handler_trace_shape in H as [-> | (pre & wd & tq & t1 & -> & Hq & H)];
      [done | | done].
    change (archives (?a :: ?b :: ?c :: ?l)) with (archives l).
    rewrite archives_app, (no_archive_of_events _ Hq). cbn [app].
    destruct H as [-> | (cmd & s0 & H)]; [done |].
    apply pipeline_detail in H as (p1 & s1 & t2 & _ & -> & H). cbn zeta in H.
    change (archives (EvRun cmd Handler.REPO_DIR p1 s1 :: t2)) with (archives t2).
    destruct (negb (returncode p1 =? 0)); [by destruct H as (_ & _ & ->) |].
    destruct H as (rt & st & tt & t3 & Et & -> & H).
    rewrite archives_app.
    assert (archives tt = []) as ->.
    { apply texture_stage_detail in Et as [(_ & _ & _ & ->) | [(_ & e & _ & _ & _ & ->) |
                                           (_ & seed & q2 & _ & Et)]]; [done.. |].
      cbn zeta in Et. by destruct Et as (_ & -> & _). }
    destruct rt as [[resp | tl] | e]; [by destruct H as (_ & _ & ->) | |
                                       by destruct H as (_ & _ & ->)].
    fold d in H. by rewrite (package_without_zip _ _ _ _ _ _ _ _ _ _ Hz H).
  - intros resp -> Herr.
    apply handler_trace_shape in H as [-> | (pre & wd & tq & t1 & -> & Hq & H)];
      [done | | done].
    change (archives (?a :: ?b :: ?c :: ?l)) with (archives l).
    rewrite archives_app, (no_archive_of_events _ Hq). cbn [app].
    destruct H as [-> | (cmd & s0 & H)]; [done |].
    apply pipeline_detail in H as (p1 & s1 & t2 & _ & -> & H). cbn zeta in H.
    change (archives (EvRun cmd Handler.REPO_DIR p1 s1 :: t2)) with (archives t2).
    destruct (negb (returncode p1 =? 0)); [by destruct H as (_ & _ & ->) |].
    destruct H as (rt & st & tt & t3 & Et & -> & H).
    rewrite archives_app.
    assert (archives tt = []) as ->.
    { apply texture_stage_detail in Et as [(_ & _ & _ & ->) | [(_ & e & _ & _ & _ & ->) |
                                           (_ & seed & q2 & _ & Et)]]; [done.. |].
      cbn zeta in Et. by destruct Et as (_ & -> & _). }
    destruct rt as [[resp' | tl] | e]; [by destruct H as (_ & _ & ->) | |
                                        by destruct H as (_ & _ & ->)].
    apply package_ok in H as (Hs & _). rewrite Hs in Herr. done.
  - intros resp -> Hok _ Hz.
    apply handler_ok_run in H as (wd & t0 & c1 & p1 & s1 & tl & sc & tr & t2 & H); [| done..].
    cbn zeta in H. fold d in H. destruct H as (-> & _ & Ha0 & Hh & _ & Htex & Hp).
    apply package_detail in Hp as (_ & Hzip & _).
    destruct (Hzip Hz) as (ap & data & _ & -> & Hd & Fz).
    exists ("vecset_" +:+ py_str (run_id_of d s) +:+ "_"), wd, ap, data.
    split_and!; [by destruct t0 | | | done | done].
    + rewrite archives_app, Ha0. cbn [app].
      change (archives (EvRun c1 Handler.REPO_DIR p1 s1 :: ?l)) with (archives l).
      rewrite archives_app.
      by destruct Htex as [(_ & _ & _ & ->) | (_ & c2 & p2 & _ & _ & ->)].
    + rewrite last_app. cbn [last]. rewrite app_comm_cons, last_app. reflexivity.
Qed.

End Packaging.

(** ** The log of a response *)
Section ResponseLog.
Context {W : World}.

(** X9. The ["log"] of a response is made of the logs of the stages that
    ran, in the order they ran, separated by a blank line; a response has
    no ["log"] exactly when no stage ran.  In particular the log of the
    texture stage is never dropped from a successful response. *)
Theorem response_log_joins_stage_logs (job : gmap string (gmap string pyval))
    (s : St) resp s' t :
  Handler.handler job s = (Ok resp, s', t) ->
  resp !! "log" =
    match runs t with
    | [] => None
    | stages => Some (VStr (join (nl +:+ nl)
                                 ((fun x => Handler.run_log x.1.1 x.1.2) <$> stages)))
    end.
Proof.
  intros H.
  destruct (is_True (dict_get (default ∅ (job !! "input")) "dry_run")) eqn:Hdry.
  { unfold Handler.handler in H. rewrite Hdry in H. by injection H as <- <- <-. }
  apply handler_not_dry in H as [(Hf & _ & Hft) | (pre & wd & sm & t' & _ & -> & H)];
    [by first [discriminate Hf | rewrite Hft in *] | | done].
  change (runs (EvMkdtemp pre wd :: t')) with (runs t').
  destruct H as [(e & [=] & _) | [(_ & [= ->] & ->) |
                 (cmd & s0 & t0 & t1 & _ & Hq & -> & _ & H)]]; [done |].
  rewrite runs_app, Hq. cbn [app].
  apply pipeline_cases in H as (p1 & s1 & _ & H). cbn zeta in H.
  destruct H as [(_ & [= ->] & _ & ->) | [(_ & _ & t2 & Hp & ->) |
                [(_ & _ & e & [=] & _) | (_ & _ & cmd2 & p2 & s2 & _ & _ & H)]]].
  - done.
  - rewrite runs_cons_run. pose proof (quiet_package _ _ _ _ _ _ _ _ _ _ Hp) as ->.
    by apply package_ok in Hp as (_ & _ & _ & -> & _).
  - cbn zeta in H. destruct H as [(_ & [= ->] & _ & ->) | (_ & t2 & Hp & ->)]; [done |].
    rewrite !runs_cons_run. pose proof (quiet_package _ _ _ _ _ _ _ _ _ _ Hp) as ->.
    apply package_ok in Hp as (_ & _ & _ & -> & _).
    unfold Handler.ok_log. by rewrite run_log_nonempty.
Qed.

End ResponseLog.

(** ** Inline payloads *)
Section Codec.
Context {W : World}.


End Codec.

(** ** Runs of the GUI *)
Section GuiRuns.
Context {W : World}.

Lemma _new_run_dir_inv s r s' t :
  App._new_run_dir s = (r, s', t) ->
  let run_dir := gui_run_dir s in
  r = Ok (run_dir, os_path_join run_dir "input", os_path_join run_dir "output") /\
  s' = makedirs (os_path_join run_dir "output") (makedirs (os_path_join run_dir "input") s) /\
  t = [EvMakedirs (os_path_join run_dir "input"); EvMakedirs (os_path_join run_dir "output")].
Proof. by intros [= <- <- <-]. Qed.

Lemma _copy_uploaded_inv src dir name s r s' t :
  App._copy_uploaded src dir name s = (r, s', t) ->
  let dst := os_path_join dir name in
  (r = Ok dst /\ copy2 src dst (makedirs dir s) = Some s' /\
   t = [EvMakedirs dir; EvCopy src dst]) \/
  (r = Raise OSError /\ copy2 src dst (makedirs dir s) = None /\
   s' = makedirs dir s /\ t = [EvMakedirs dir]).
Proof.
  unfold App._copy_uploaded, App._ensure_dir, do_makedirs, do_copy2, bind, ret.
  cbn zeta. destruct (copy2 _ _ _) eqn:E; intros [= <- <- <-]; [by left | by right].
Qed.

Lemma app_texture_stage_detail f od log s r s' t :
  App.texture_stage f od (os_path_join od "edited_mesh.glb") log s = (r, s', t) ->
  (truthy (App.run_texture_repaint f) = false /\ r = Ok (None, log) /\ s' = s /\ t = []) \/
  (truthy (App.run_texture_repaint f) = true /\
   exists p2,
     let log2 := App.run_log (gui_texture_cmd f od) p2 in
     subprocess_run (gui_texture_cmd f od) App.ROOT_DIR s = (p2, s') /\
     t = [EvRun (gui_texture_cmd f od) App.ROOT_DIR p2 s'] /\
     r = Ok (if returncode p2 =? 0
             then (Some (os_path_join od "mv_repaint_model.glb"),
                   log +:+ nl +:+ nl +:+ log2)
             else (None,
                   (log +:+ nl +:+ nl +:+ log2) +:+ nl +:+
                   "Texture repaint failed (exit code " +:+ int_str (returncode p2)
                   +:+ ")."))).
Proof.
  unfold App.texture_stage. destruct (truthy _).
  2:{ intros [= <- <- <-]. by left. }
  intros H. right. split; [done |].
  apply bind_inv in H as [(cl & s2 & t1 & t2 & Er & H & ->) | (e & Er & _)].
  2:{ by apply app_run_cmd_inv in Er as (p & s1 & _ & [=] & _). }
  apply app_run_cmd_inv in Er as (p2 & s1 & E2 & [= ->] & -> & ->).
  cbn beta iota in H. exists p2. cbn zeta.
  destruct (returncode p2 =? 0); injection H as <- <- <-;
    (split_and!; [exact E2 | done..]).
Qed.

Lemma gui_stages_intro f run_dir od cmd s0 r s' t :
  (do '(code, log) <- App._run_cmd cmd App.ROOT_DIR;
   if negb (code =? 0) then ret (App.edit_failed_tuple code log)
   else
     let edited_mesh := os_path_join od "edited_mesh.glb" in
     let edited_views := os_path_join od "edited_mesh_views.png" in
     let selected_views := os_path_join od "selected_fixed_tokens_views.png" in
     let masked_input := os_path_join od "2d_masked_input.png" in
     do '(texture_mesh, log) <- App.texture_stage f od edited_mesh log;
     do archive_path <- App._zip_dir od (os_path_join run_dir "results");
     gets (fun s =>
       [App.if_exists s edited_mesh;
        match texture_mesh with
        | Some tm => if String.eqb tm "" then None else App.if_exists s tm
        | None => None
        end;
        App.if_exists s masked_input;
        App.if_exists s selected_views;
        App.if_exists s edited_views;
        App.if_exists s archive_path;
        Some log]))%prog s0 = (r, s', t) ->
  gui_stages f run_dir od cmd s0 r s' t.
Proof.
  intros H.
  apply bind_inv in H as [(cl & s2 & t1 & t2 & Eb & H & ->) | (e & Eb & _)].
  2:{ by apply app_run_cmd_inv in Eb as (p & s1 & _ & [=] & _). }
  apply app_run_cmd_inv in Eb as (p1 & s1 & E1 & [= ->] & -> & ->).
  exists p1, s1. split; [done |]. cbn zeta. cbn beta iota in H.
  destruct (negb (returncode p1 =? 0)).
  { by injection H as <- <- <-. }
  cbn zeta in H.
  apply bind_inv in H as [(tl & s3 & t3 & t4 & Et & H & ->) | (e & Et & _)].
  2:{ apply app_texture_stage_detail in Et as [(_ & [=] & _) | (_ & p2 & Et)].
      cbn zeta in Et. destruct Et as (_ & _ & Et). by destruct (returncode p2 =? 0). }
  destruct tl as [tm0 lg]. cbn beta iota in H.
  apply bind_inv in H as [(ap & s6 & t5 & t6 & Ea & H & ->) | (e & Ea & _)].
  2:{ unfold App._zip_dir, do_make_archive in Ea.
      destruct (make_archive _ _ _); discriminate. }
  unfold App._zip_dir, do_make_archive in Ea.
  destruct (make_archive (os_path_join run_dir "results") od s3) as [ap' s7] eqn:Em.
  injection Ea as <- <- <-.
  apply gets_inv' in H as (-> & -> & ->). rewrite app_nil_r.
  apply app_texture_stage_detail in Et as [(Ht & [= -> ->] & -> & ->) | (Ht & p2 & Et)].
  - exists [], s1, None, (App.run_log cmd p1), ap'.
    split_and!; [done | done | done |]. left. done.
  - cbn zeta in Et. destruct Et as (E2 & -> & Er).
    destruct (returncode p2 =? 0) eqn:Ez; injection Er as -> ->.
    + eexists _, s3, _, _, ap'. split_and!; [done | done | |].
      2:{ right. split; [done |]. exists p2. cbn zeta. rewrite Ez. done. }
      unfold outputs_tuple.
      rewrite nonempty_path_nonempty; [reflexivity | discriminate].
    + eexists _, s3, _, _, ap'. split_and!; [done | done | |].
      2:{ right. split; [done |]. exists p2. cbn zeta. rewrite Ez. done. }
      reflexivity.
Qed.

(** The argument vector of the edit stage of the GUI. *)
Lemma gui_stage_entry f mesh edit mask s r s' t :
  App.mesh_file f = Some mesh -> App.edit_image f = Some edit ->
  App.mask_image f = Some mask ->
  App.run_vecset_edit f s = (r, s', t) ->
  let run_dir := gui_run_dir s in
  let input_dir := os_path_join run_dir "input" in
  let od := os_path_join run_dir "output" in
  exists tc t1,
    t = EvMakedirs input_dir :: EvMakedirs od :: tc ++ t1 /\
    runs tc = [] /\ archives tc = [] /\
    ((exists n, (n < length (gui_uploads f))%nat /\
                copies tc = take n (staged input_dir <$> gui_uploads f) /\
                r = Raise OSError /\ t1 = []) \/
     (copies tc = staged input_dir <$> gui_uploads f /\
      exists cmd s0,
        cmd = [sys_executable; "vecset_edit.py";
               "--input_dir"; input_dir;
               "--output_dir"; od;
               "--mesh_file"; os_path_basename mesh;
               "--edit_image"; os_path_basename edit;
               "--mask_image"; os_path_basename mask;
               "--azimuth"; py_str (App.azimuth f);
               "--elevation"; py_str (App.elevation f);
               "--scale"; py_str (App.scale f);
               "--attentive_2d"; py_str (App.attentive_2d f);
               "--cut_off_p"; py_str (App.cut_off_p f);
               "--topk_percent_2d"; py_str (App.topk_percent_2d f);
               "--threshold_percent_2d"; py_str (App.threshold_percent_2d f);
               "--step_pruning"; py_str (App.step_pruning f);
               "--edit_strength"; py_str (App.edit_strength f);
               "--guidance_scale"; py_str (App.guidance_scale f)]
              ++ match App.render_image f with
                 | Some render =>
                     if String.eqb render "" || String.eqb (os_path_basename render) ""
                     then []
                     else ["--render_image"; os_path_basename render]
                 | None => []
                 end /\
        gui_stages f run_dir od cmd s0 r s' t1)).
Proof.
  intros Hm He Hk H run_dir input_dir od.
  unfold App.run_vecset_edit in H. unfold gui_uploads. rewrite Hm, He, Hk in H |- *.
  apply bind_inv in H as [(dirs & s1 & t1 & t2 & E0 & H & ->) | (e & E0 & _)].
  2:{ by apply _new_run_dir_inv in E0 as ([=] & _). }
  apply _new_run_dir_inv in E0 as ([= ->] & -> & ->). cbn beta iota zeta in H.
  fold run_dir input_dir od in H |- *. cbn [app].
  apply bind_inv in H as [(x1 & s2 & t3 & t4 & E1 & H & ->) | (e & E1 & ->)].
  2:{ apply _copy_uploaded_inv in E1 as [([=] & _) | ([= ->] & _ & _ & ->)].
      exists [EvMakedirs input_dir], []. split_and!; [done.. |].
      left. exists 0%nat. split_and!; [cbn; lia | done..]. }
  apply _copy_uploaded_inv in E1 as [(_ & _ & ->) | ([=] & _)].
  apply bind_inv in H as [(x2 & s3 & t5 & t6 & E2 & H & ->) | (e & E2 & ->)].
  2:{ apply _copy_uploaded_inv in E2 as [([=] & _) | ([= ->] & _ & _ & ->)].
      eexists _, []. rewrite app_nil_r. split_and!; [done.. |].
      left. exists 1%nat. split_and!; [cbn; lia | done..]. }
  apply _copy_uploaded_inv in E2 as [(_ & _ & ->) | ([=] & _)].
  apply bind_inv in H as [(x3 & s4 & t7 & t8 & E3 & H & ->) | (e & E3 & ->)].
  2:{ apply _copy_uploaded_inv in E3 as [([=] & _) | ([= ->] & _ & _ & ->)].
      eexists _, []. rewrite app_nil_r. split_and!; [done.. |].
      left. exists 2%nat. split_and!; [cbn; lia | done..]. }
  apply _copy_uploaded_inv in E3 as [(_ & _ & ->) | ([=] & _)].
  destruct (App.render_image f) as [rd|].
  2:{ rewrite bind_ret_l in H. apply gui_stages_intro in H.
      eexists [_; _; _; _; _; _], t8. split_and!; [done.. |].
      right. split; [done |]. eexists _, s4. split; [| exact H].
      first [done | by rewrite app_nil_r]. }
  destruct (String.eqb rd "") eqn:Erd.
  { rewrite bind_ret_l in H. apply gui_stages_intro in H.
    eexists [_; _; _; _; _; _], t8. split_and!; [done.. |].
    right. split; [done |]. eexists _, s4. split; [| exact H].
    first [done | by rewrite app_nil_r]. }
  apply bind_inv in H as [(rn & s5 & t9 & t10 & E4 & H & ->) | (e & E4 & ->)].
  2:{ apply bind_inv in E4 as [(x4 & s6 & t11 & t12 & E4 & [=] & _) | (e' & E4 & [= ->])].
      apply _copy_uploaded_inv in E4 as [([=] & _) | ([= ->] & _ & _ & ->)].
      eexists [_; _; _; _; _; _; _], []. split_and!; [done.. |].
      left. exists 3%nat. split_and!; [cbn; lia | done..]. }
  apply bind_inv in E4 as [(x4 & s6 & t11 & t12 & E4 & [= <- <- <-] & ->) | (e' & _ & [=])].
  apply _copy_uploaded_inv in E4 as [(_ & _ & ->) | ([=] & _)].
  apply gui_stages_intro in H.
  eexists [_; _; _; _; _; _; _; _], t10. split_and!; [done.. |].
  right. split; [done |]. eexists _, s6. split; [| exact H].
  cbn [orb]. destruct (String.eqb (os_path_basename rd) ""); first [done | by rewrite app_nil_r].
Qed.

End GuiRuns.

(** ** The numeric arguments of the edit stage *)
Section NumericArguments.
Context {W : World}.

Lemma float_default d k f s :
  d !! k = None -> (py_float (dict_get_or d k (VFloat f)) s).1.1 = Ok f.
Proof. unfold dict_get_or. by intros ->. Qed.

Lemma int_default d k z s :
  d !! k = None -> (py_int (dict_get_or d k (VInt z)) s).1.1 = Ok z.
Proof. unfold dict_get_or. by intros ->. Qed.

(** X11. The ten numeric arguments of the edit stage follow the three
    file arguments in a fixed order; each value is the request's value
    passed through [float()] or [int()] and then [str()], with the
    default used only when the key is absent.  A request that gives none
    of the ten keys runs the stage with
    [0.0 0.0 2.0 8 0.5 0.2 0.1 5 0.7 7.5]. *)
Theorem numeric_arguments_are_coerced (job : gmap string (gmap string pyval))
    (s : St) r s' t c1 p1 s1 :
  let d := default ∅ (job !! "input") in
  Handler.handler job s = (r, s', t) ->
  runs t !! 0%nat = Some (c1, p1, s1) ->
  (exists az el sc a2 cp tk th sp es gs,
     (py_float (dict_get_or d "azimuth" (VFloat (mk_float 0 1))) s).1.1 = Ok az /\
     (py_float (dict_get_or d "elevation" (VFloat (mk_float 0 1))) s).1.1 = Ok el /\
     (py_float (dict_get_or d "scale" (VFloat (mk_float 20 1))) s).1.1 = Ok sc /\
     (py_int (dict_get_or d "attentive_2d" (VInt 8)) s).1.1 = Ok a2 /\
     (py_float (dict_get_or d "cut_off_p" (VFloat (mk_float 5 1))) s).1.1 = Ok cp /\
     (py_float (dict_get_or d "topk_percent_2d" (VFloat (mk_float 2 1))) s).1.1 = Ok tk /\
     (py_float (dict_get_or d "threshold_percent_2d" (VFloat (mk_float 1 1))) s).1.1 = Ok th /\
     (py_int (dict_get_or d "step_pruning" (VInt 5)) s).1.1 = Ok sp /\
     (py_float (dict_get_or d "edit_strength" (VFloat (mk_float 7 1))) s).1.1 = Ok es /\
     (py_float (dict_get_or d "guidance_scale" (VFloat (mk_float 75 1))) s).1.1 = Ok gs /\
     take 20 (drop 12 c1) =
       ["--azimuth"; float_str az; "--elevation"; float_str el; "--scale"; float_str sc;
        "--attentive_2d"; int_str a2; "--cut_off_p"; float_str cp;
        "--topk_percent_2d"; float_str tk; "--threshold_percent_2d"; float_str th;
        "--step_pruning"; int_str sp; "--edit_strength"; float_str es;
        "--guidance_scale"; float_str gs]) /\
  (Forall (fun k => d !! k = None) numeric_keys ->
   take 20 (drop 12 c1) =
     ["--azimuth"; "0.0"; "--elevation"; "0.0"; "--scale"; "2.0";
      "--attentive_2d"; "8"; "--cut_off_p"; "0.5";
      "--topk_percent_2d"; "0.2"; "--threshold_percent_2d"; "0.1";
      "--step_pruning"; "5"; "--edit_strength"; "0.7";
      "--guidance_scale"; "7.5"]).
Proof.
  intros d H Hrun.
  apply handler_first_run with (c1 := c1) (p1 := p1) (s1 := s1) in H
      as (_ & wd & s0 & t0 & t1 & n1 & n2 & n3 & rp & H); [| done].
  cbn zeta in H. fold d in H.
  destruct H as (_ & _ & _ & _ & _ & _ & _ & _ & Hc & _).
  apply edit_cmd_ok in Hc as (az & el & sc & a2 & cp & tk & th & sp & es & gs & Hc).
  destruct Hc as (E1 & E2 & E3 & E4 & E5 & E6 & E7 & E8 & E9 & E10 & ->).
  rewrite (py_float_state _ s0 s) in E1. rewrite (py_float_state _ s0 s) in E2.
  rewrite (py_float_state _ s0 s) in E3. rewrite (py_int_state _ s0 s) in E4.
  rewrite (py_float_state _ s0 s) in E5. rewrite (py_float_state _ s0 s) in E6.
  rewrite (py_float_state _ s0 s) in E7. rewrite (py_int_state _ s0 s) in E8.
  rewrite (py_float_state _ s0 s) in E9. rewrite (py_float_state _ s0 s) in E10.
  split.
  - exists az, el, sc, a2, cp, tk, th, sp, es, gs. split_and!; [done.. |]. by destruct rp.
  - intros Hn. unfold numeric_keys in Hn.
    repeat match type of Hn with
           | Forall _ (_ :: _) => apply Forall_cons in Hn as [? Hn]
           end.
    rewrite float_default in E1, E2, E3, E5, E6, E7, E9, E10 by done.
    rewrite int_default in E4, E8 by done.
    injection E1 as <-. injection E2 as <-. injection E3 as <-. injection E4 as <-.
    injection E5 as <-. injection E6 as <-. injection E7 as <-. injection E8 as <-.
    injection E9 as <-. injection E10 as <-.
    by destruct rp.
Qed.

End NumericArguments.

(** ** What the GUI does with a form *)
Section GuiProperties.
Context {W : World}.

Lemma runs_cons_makedirs p (l : list event) : runs (EvMakedirs p :: l) = runs l.
Proof. reflexivity. Qed.

Lemma archives_cons_makedirs p (l : list event) : archives (EvMakedirs p :: l) = archives l.
Proof. reflexivity. Qed.

Lemma copies_cons_makedirs p (l : list event) : copies (EvMakedirs p :: l) = copies l.
Proof. reflexivity. Qed.

Lemma archives_cons_run c w p x (l : list event) :
  archives (EvRun c w p x :: l) = archives l.
Proof. reflexivity. Qed.

Lemma copies_cons_run c w p x (l : list event) : copies (EvRun c w p x :: l) = copies l.
Proof. reflexivity. Qed.

Lemma gui_stages_trace f run_dir od cmd s0 r s' t :
  gui_stages f run_dir od cmd s0 r s' t ->
  exists p1 s1 rest,
    t = EvRun cmd App.ROOT_DIR p1 s1 :: rest /\ copies rest = [] /\
    (if negb (returncode p1 =? 0)
     then rest = [] /\
          r = Ok (App.edit_failed_tuple (returncode p1) (App.run_log cmd p1))
     else exists tr ap tm lg,
         rest = tr ++ [EvArchive (os_path_join run_dir "results") od ap] /\
         r = Ok (outputs_tuple s' od tm ap lg) /\
         (if truthy (App.run_texture_repaint f)
          then exists p2 s2, tr = [EvRun (gui_texture_cmd f od) App.ROOT_DIR p2 s2]
          else tr = [])).
Proof.
  intros (p1 & s1 & _ & H). cbn zeta in H. exists p1, s1.
  destruct (negb (returncode p1 =? 0)).
  { destruct H as (-> & _ & ->). by exists []. }
  destruct H as (tr & sc & tm & lg & ap & _ & -> & -> & H).
  exists (tr ++ [EvArchive (os_path_join run_dir "results") od ap]).
  destruct H as [(-> & -> & _) | (-> & p2 & H)].
  - split_and!; [done.. |]. by exists [], ap, tm, lg.
  - cbn zeta in H. destruct H as (_ & -> & _).
    split_and!; [done.. |]. eexists _, ap, tm, lg. split_and!; [done.. |].
    by exists p2, sc.
Qed.

(** X12. The GUI checks the three mandatory uploads before it touches
    anything: with one of them missing it returns the fixed message and
    performs no action; with all three present its first two actions are
    to create [runs/<stamp>_<hex8>/input] and [.../output] under the
    installation directory. *)
Theorem gui_checks_uploads_before_allocating (f : App.form) (s : St) r s' t :
  App.run_vecset_edit f s = (r, s', t) ->
  match App.mesh_file f, App.edit_image f, App.mask_image f with
  | Some _, Some _, Some _ =>
      exists rest,
        t = EvMakedirs (os_path_join (gui_run_dir s) "input")
              :: EvMakedirs (os_path_join (gui_run_dir s) "output") :: rest
  | _, _, _ => r = Ok App.missing_inputs_tuple /\ s' = s /\ t = []
  end.
Proof.
  intros H.
  destruct (App.mesh_file f) as [mesh|] eqn:Hm;
    [destruct (App.edit_image f) as [edit|] eqn:He;
     [destruct (App.mask_image f) as [mask|] eqn:Hk |] |].
  - eapply gui_stage_entry in H as (tc & t1 & -> & _); [| done..]. by eexists.
  - rewrite run_vecset_edit_missing in H by auto. by injection H as <- <- <-.
  - rewrite run_vecset_edit_missing in H by auto. by injection H as <- <- <-.
  - rewrite run_vecset_edit_missing in H by auto. by injection H as <- <- <-.
Qed.

(** A run of the GUI that reached its first stage, laid out. *)
Lemma gui_first_run f s r s' t c1 p1 s1 :
  App.run_vecset_edit f s = (r, s', t) ->
  runs t !! 0%nat = Some (c1, p1, s1) ->
  let run_dir := gui_run_dir s in
  let input_dir := os_path_join run_dir "input" in
  let od := os_path_join run_dir "output" in
  exists mesh edit mask tc s0 t1,
    App.mesh_file f = Some mesh /\ App.edit_image f = Some edit /\
    App.mask_image f = Some mask /\
    t = EvMakedirs input_dir :: EvMakedirs od :: tc ++ t1 /\
    runs tc = [] /\ archives tc = [] /\
    copies tc = staged input_dir <$> gui_uploads f /\
    c1 = [sys_executable; "vecset_edit.py";
          "--input_dir"; input_dir;
          "--output_dir"; od;
          "--mesh_file"; os_path_basename mesh;
          "--edit_image"; os_path_basename edit;
          "--mask_image"; os_path_basename mask;
          "--azimuth"; py_str (App.azimuth f);
          "--elevation"; py_str (App.elevation f);
          "--scale"; py_str (App.scale f);
          "--attentive_2d"; py_str (App.attentive_2d f);
          "--cut_off_p"; py_str (App.cut_off_p f);
          "--topk_percent_2d"; py_str (App.topk_percent_2d f);
          "--threshold_percent_2d"; py_str (App.threshold_percent_2d f);
          "--step_pruning"; py_str (App.step_pruning f);
          "--edit_strength"; py_str (App.edit_strength f);
          "--guidance_scale"; py_str (App.guidance_scale f)]
         ++ match App.render_image f with
            | Some render =>
                if String.eqb render "" || String.eqb (os_path_basename render) ""
                then []
                else ["--render_image"; os_path_basename render]
            | None => []
            end /\
    gui_stages f run_dir od c1 s0 r s' t1 /\
    exists rest, t1 = EvRun c1 App.ROOT_DIR p1 s1 :: rest.
Proof.
  intros H Hrun run_dir input_dir od.
  destruct (App.mesh_file f) as [mesh|] eqn:Hm;
    [destruct (App.edit_image f) as [edit|] eqn:He;
     [destruct (App.mask_image f) as [mask|] eqn:Hk |] |].
  2-4: rewrite run_vecset_edit_missing in H by auto; by injection H as _ _ <-.
  eapply gui_stage_entry in H as (tc & t1 & -> & Hq & Ha & H); [| done..].
  fold run_dir input_dir od in H |- *.
  rewrite !runs_cons_makedirs, runs_app, Hq in Hrun. cbn [app] in Hrun.
  destruct H as [(n & _ & _ & _ & ->) | (Hc & cmd & s0 & Hcmd & H)]; [done |].
  pose proof (gui_stages_trace _ _ _ _ _ _ _ _ H) as (q1 & sq & rest & -> & _).
  rewrite runs_cons_run in Hrun. injection Hrun as <- <- <-.
  exists mesh, edit, mask, tc, s0, (EvRun cmd App.ROOT_DIR q1 sq :: rest).
  split_and!; [done.. |]. by exists rest.
Qed.

(** X13. The GUI stages every upload in the run's input directory under
    the base name of the uploaded path, in the order mesh, edited image,
    mask, render image, and passes exactly those base names to the edit
    stage.  Only the base name decides the destination: two uploads with
    the same base name are copied to the same place, the later one over
    the earlier one. *)
Theorem uploads_staged_under_base_names (f : App.form) (s : St) r s' t c1 p1 s1 :
  App.run_vecset_edit f s = (r, s', t) ->
  runs t !! 0%nat = Some (c1, p1, s1) ->
  let input_dir := os_path_join (gui_run_dir s) "input" in
  copies t = staged input_dir <$> gui_uploads f /\
  c1 !! 3%nat = Some input_dir /\
  c1 !! 7%nat = os_path_basename <$> App.mesh_file f /\
  c1 !! 9%nat = os_path_basename <$> App.edit_image f /\
  c1 !! 11%nat = os_path_basename <$> App.mask_image f /\
  (forall i j u v dst,
      copies t !! i = Some (u, dst) -> gui_uploads f !! j = Some v ->
      os_path_basename u = os_path_basename v ->
      copies t !! j = Some (v, dst)).
Proof.
  intros H Hrun input_dir.
  destruct (gui_first_run _ _ _ _ _ _ _ _ H Hrun)
    as (mesh & edit & mask & tc & s0 & t1 & Hm & He & Hk & -> & _ & _ & Hc & -> & Hs & _).
  fold input_dir in Hc |- *.
  apply gui_stages_trace in Hs as (q1 & sq & rest & -> & Hr & _).
  rewrite !copies_cons_makedirs, copies_app, Hc, copies_cons_run, Hr, app_nil_r.
  rewrite Hm, He, Hk. split_and!; [done.. |].
  intros i j u v dst Hi Hj Hb.
  rewrite list_lookup_fmap in Hi |- *. rewrite Hj. cbn [fmap option_fmap option_map].
  destruct (gui_uploads f !! i) as [u'|]; [| done].
  injection Hi as -> <-. unfold staged. by rewrite Hb.
Qed.

(** X14. The GUI starts the texture stage exactly when the edit stage
    exited zero and the form's [run_texture_repaint] is truthy (not only
    the boolean [True]); a run has at most these two child processes.  The
    texture stage reads [edited_mesh.glb], [source_model.glb] and
    [2d_edit.png] from the directory the edit stage was given as
    [--output_dir] and receives [str(seed)] and the render method
    unchanged. *)
Theorem gui_texture_stage_gate_and_arguments (f : App.form) (s : St) r s' t c1 p1 s1 :
  App.run_vecset_edit f s = (r, s', t) ->
  runs t !! 0%nat = Some (c1, p1, s1) ->
  exists od,
    c1 !! 5%nat = Some od /\
    if (returncode p1 =? 0) && truthy (App.run_texture_repaint f)
    then exists p2 s2,
        runs t = [(c1, p1, s1);
                  ([sys_executable; "preserving_texture_baking.py";
                    "--input_mesh"; os_path_join od "edited_mesh.glb";
                    "--ref_mesh"; os_path_join od "source_model.glb";
                    "--texture_image"; os_path_join od "2d_edit.png";
                    "--output_dir"; od;
                    "--seed"; py_str (App.seed f);
                    "--render_method"; App.render_method f], p2, s2)]
    else runs t = [(c1, p1, s1)].
Proof.
  intros H Hrun.
  destruct (gui_first_run _ _ _ _ _ _ _ _ H Hrun)
    as (mesh & edit & mask & tc & s0 & t1 & _ & _ & _ & -> & Hq & _ & _ & Hc & Hs & _).
  exists (os_path_join (gui_run_dir s) "output"). split; [by rewrite Hc |].
  rewrite !runs_cons_makedirs, runs_app, Hq in Hrun |- *. cbn [app] in Hrun |- *.
  apply gui_stages_trace in Hs as (q1 & sq & rest & -> & _ & Hs).
  rewrite runs_cons_run in Hrun |- *. injection Hrun as <- <-.
  destruct (negb (returncode q1 =? 0)) eqn:Ez.
  { destruct Hs as [-> _]. apply negb_true_iff in Ez as ->. done. }
  apply negb_false_iff in Ez as ->. cbn [andb].
  destruct Hs as (tr & ap & tm & lg & -> & _ & Hs).
  rewrite runs_app. change (runs [EvArchive _ _ _]) with (@nil (list string * completed * St)).
  rewrite app_nil_r.
  destruct (truthy (App.run_texture_repaint f)).
  - destruct Hs as (p2 & s2 & ->). by exists p2, s2.
  - by rewrite Hs.
Qed.

(** X15. The GUI archives the output directory exactly when the edit
    stage exited zero, whether or not the texture stage ran or failed:
    the archive [<run_dir>/results] of [<run_dir>/output] is the last
    action of the run and the result then has seven slots, the sixth
    being the archive path if it exists.  When the edit stage fails
    nothing is archived and the result has only six slots, the last one
    carrying the failure text and the log. *)
Theorem gui_archives_whenever_edit_succeeds (f : App.form) (s : St) r s' t c1 p1 s1 :
  App.run_vecset_edit f s = (r, s', t) ->
  runs t !! 0%nat = Some (c1, p1, s1) ->
  let run_dir := gui_run_dir s in
  if returncode p1 =? 0
  then exists ap res,
      archives t = [(os_path_join run_dir "results", os_path_join run_dir "output", ap)] /\
      last t = Some (EvArchive (os_path_join run_dir "results")
                               (os_path_join run_dir "output") ap) /\
      r = Ok res /\ length res = 7%nat /\
      res !! 5%nat = Some (App.if_exists s' ap)
  else archives t = [] /\
       r = Ok [None; None; None; None; None;
               Some ("VecSetEdit failed (exit code " +:+ int_str (returncode p1) +:+ ")."
                     +:+ nl +:+ nl +:+ App.run_log c1 p1)].
Proof.
  intros H Hrun run_dir.
  destruct (gui_first_run _ _ _ _ _ _ _ _ H Hrun)
    as (mesh & edit & mask & tc & s0 & t1 & _ & _ & _ & -> & Hq & Ha & _ & _ & Hs & _).
  fold run_dir in Hs |- *.
  rewrite !runs_cons_makedirs, runs_app, Hq in Hrun. cbn [app] in Hrun.
  rewrite !archives_cons_makedirs, archives_app, Ha. cbn [app].
  apply gui_stages_trace in Hs as (q1 & sq & rest & -> & _ & Hs).
  rewrite runs_cons_run in Hrun. injection Hrun as <- <-.
  rewrite archives_cons_run.
  destruct (returncode q1 =? 0); cbn [negb] in Hs.
  2:{ by destruct Hs as [-> ->]. }
  destruct Hs as (tr & ap & tm & lg & -> & -> & Hs).
  exists ap, (outputs_tuple s' (os_path_join run_dir "output") tm ap lg).
  split_and!; [| | done..].
  - rewrite archives_app.
    destruct (truthy _); [destruct Hs as (p2 & s2 & ->) | rewrite Hs]; done.
  - rewrite !app_comm_cons, app_assoc. apply last_snoc.
Qed.

(** X16. Both front-ends drive the edit script with the same flags in the
    same order, each followed by exactly one value, after the interpreter
    and the script; [--render_image] comes last and is the only optional
    flag. *)
Theorem front_ends_pass_same_flags (job : gmap string (gmap string pyval)) (f : App.form)
    (s sg : St) r s' t rg sg' tg c1 p1 s1 g1 q1 u1 :
  Handler.handler job s = (r, s', t) ->
  runs t !! 0%nat = Some (c1, p1, s1) ->
  App.run_vecset_edit f sg = (rg, sg', tg) ->
  runs tg !! 0%nat = Some (g1, q1, u1) ->
  exists tail tailg,
    evens (drop 2 c1) = edit_flags ++ tail /\
    evens (drop 2 g1) = edit_flags ++ tailg /\
    (tail = [] \/ tail = ["--render_image"]) /\
    (tailg = [] \/ tailg = ["--render_image"]) /\
    length c1 = (32 + 2 * length tail)%nat /\
    length g1 = (32 + 2 * length tailg)%nat.
Proof.
  intros H Hrun Hg Hgrun.
  apply handler_first_run with (c1 := c1) (p1 := p1) (s1 := s1) in H
      as (_ & wd & s0 & t0 & t1 & n1 & n2 & n3 & rp & H); [| done].
  cbn zeta in H. destruct H as (_ & _ & _ & _ & _ & _ & _ & _ & Hc & _).
  apply edit_cmd_ok in Hc as (az & el & sc & a2 & cp & tk & th & sp & es & gs & Hc).
  destruct Hc as (_ & _ & _ & _ & _ & _ & _ & _ & _ & _ & ->).
  destruct (gui_first_run _ _ _ _ _ _ _ _ Hg Hgrun)
    as (mesh & edit & mask & tc & sg0 & tg1 & _ & _ & _ & _ & _ & _ & _ & -> & _).
  exists (match rp with Some _ => ["--render_image"] | None => [] end),
    (match App.render_image f with
     | Some render =>
         if String.eqb render "" || String.eqb (os_path_basename render) ""
         then [] else ["--render_image"]
     | None => []
     end).
  split_and!.
  - by destruct rp.
  - destruct (App.render_image f) as [rd|]; [destruct (_ || _) |]; done.
  - destruct rp; auto.
  - destruct (App.render_image f) as [rd|]; [destruct (_ || _) |]; auto.
  - by destruct rp.
  - destruct (App.render_image f) as [rd|]; [destruct (_ || _) |]; done.
Qed.

End GuiProperties.

(** ** What the handler writes *)
Section HandlerWrites.
Context {W : World}.

Lemma get_input_writes d p dflt dir s r s' t :
  Handler._get_input_file d p dir dflt s = (r, s', t) ->
  slot_write d dir (p, dflt) (writes t).
Proof.
  unfold Handler._get_input_file, slot_write, Handler.py_or_name. cbn [fst snd]. intros H.
  apply bind_inv in H as [(dest & s1 & t1 & t2 & E & H & ->) | (e & E & _)].
  2:{ apply readonly_py_path_join in E as [_ ->]. by left. }
  destruct (Handler.py_or _ _) as [| | | |n| |]; try discriminate E.
  injection E as <- <- <-. cbn [app].
  destruct (present_nonempty d (p +:+ "_url")).
  { unfold Handler._download, Handler.do_fetch, do_write, bind, ret, raise in H.
    repeat case_match; simplify_eq; first [by left | right; by eexists _, _]. }
  destruct (present_nonempty d (p +:+ "_base64")).
  { unfold Handler._write_base64, lift_option, do_write, bind, ret, raise in H.
    repeat case_match; simplify_eq; first [by left | right; by eexists _, _]. }
  injection H as _ _ <-. by left.
Qed.

Lemma pipeline_writes d run_id wd od cmd s0 r s' t :
  Handler.pipeline d run_id wd od cmd s0 = (r, s', t) -> writes t = [].
Proof.
  intros H. apply pipeline_cases in H as (p1 & s1 & _ & H). cbn zeta in H.
  destruct H as [(_ & _ & _ & ->) | [(_ & _ & t2 & Hp & ->) |
                [(_ & _ & e & _ & ->) | (_ & _ & cmd2 & p2 & s2 & _ & _ & H)]]];
    [done | | done |].
  - by apply package_trace in Hp as [-> | (? & ? & ? & ->)].
  - cbn zeta in H. destruct H as [(_ & _ & _ & ->) | (_ & t2 & Hp & ->)]; [done |].
    by apply package_trace in Hp as [-> | (? & ? & ? & ->)].
Qed.

(** X17. The handler itself writes nothing but input files: at most one
    file per slot, in the order mesh, edited image, mask, render image,
    each at [os.path.join(<work_dir>/input, name)] where [name] is the
    slot's file-name hint if truthy and its default otherwise.  In
    particular it never writes into the output directory. *)
Theorem handler_writes_only_slot_files (job : gmap string (gmap string pyval))
    (s : St) r s' t :
  let d := default ∅ (job !! "input") in
  Handler.handler job s = (r, s', t) ->
  writes t = [] \/
  exists prefix work_dir ws,
    head t = Some (EvMkdtemp prefix work_dir) /\
    writes t = concat ws /\
    Forall2 (slot_write d (os_path_join work_dir "input")) input_slots ws.
Proof.
  intros d H.
  destruct (is_True (dict_get d "dry_run")) eqn:Hdry.
  { unfold Handler.handler in H. fold d in H. rewrite Hdry in H.
    injection H as _ _ <-. by left. }
  unfold Handler.handler in H. fold d in H. rewrite Hdry in H.
  apply bind_inv in H as [(run_id & s1 & t1 & t2 & E1 & H & ->) | (e & E1 & _)].
  2:{ by apply new_run_id_inv in E1 as ([=] & _). }
  apply new_run_id_inv in E1 as ([= ->] & -> & ->).
  apply bind_inv in H as [(wd & s2 & t3 & t4 & E2 & H & ->) | (e & E2 & _)].
  2:{ apply do_mkdtemp_inv in E2 as [(? & _ & [=] & _) | (_ & _ & _ & ->)]. by left. }
  apply do_mkdtemp_inv in E2 as [(wd' & Em & [= <-] & ->) | (_ & [=] & _)]. right.
  apply bind_inv in H as [(u1 & s3 & t5 & t6 & E3 & H & ->) | (e & [=] & _)].
  injection E3 as _ <- <-.
  apply bind_inv in H as [(u2 & s4 & t7 & t8 & E4 & H & ->) | (e & [=] & _)].
  injection E4 as _ <- <-.
  eexists _, wd. cbn [app].
  change (writes (EvMkdtemp ?a ?b :: EvMakedirs ?c :: EvMakedirs ?e :: t8))
    with (writes t8).
  assert (Hnone : forall slot, slot_write d (os_path_join wd "input") slot []) by (by left).
  apply bind_inv in H as [(m & s5 & t9 & t10 & E5 & H & ->) | (e & E5 & ->)].
  2:{ apply get_input_writes in E5. exists [writes t8; []; []; []].
      split_and!; [done | cbn [concat app]; by rewrite ?app_nil_r | unfold input_slots;
        repeat (constructor; [first [assumption | apply Hnone] |]);
        constructor]. }
  apply get_input_writes in E5.
  apply bind_inv in H as [(ei & s6 & t11 & t12 & E6 & H & ->) | (e & E6 & ->)].
  2:{ apply get_input_writes in E6. exists [writes t9; writes t10; []; []].
      split_and!; [done | rewrite ?writes_app; cbn [concat app]; by rewrite ?app_nil_r
                  | unfold input_slots;
        repeat (constructor; [first [assumption | apply Hnone] |]);
        constructor]. }
  apply get_input_writes in E6.
  apply bind_inv in H as [(k & s7 & t13 & t14 & E7 & H & ->) | (e & E7 & ->)].
  2:{ apply get_input_writes in E7. exists [writes t9; writes t11; writes t12; []].
      split_and!; [done | rewrite ?writes_app; cbn [concat app]; by rewrite ?app_nil_r
                  | unfold input_slots;
        repeat (constructor; [first [assumption | apply Hnone] |]);
        constructor]. }
  apply get_input_writes in E7.
  apply bind_inv in H as [(rp & s8 & t15 & t16 & E8 & H & ->) | (e & E8 & ->)].
  2:{ apply get_input_writes in E8. exists [writes t9; writes t11; writes t13; writes t14].
      split_and!; [done | rewrite ?writes_app; cbn [concat app]; by rewrite ?app_nil_r
                  | unfold input_slots;
        repeat (constructor; [first [assumption | apply Hnone] |]);
        constructor]. }
  apply get_input_writes in E8.
  assert (Ht16 : writes t16 = []).
  { destruct (Handler.missing_of _).
    - apply bind_inv in H as [(cmd & s9 & t17 & t18 & E9 & H & ->) | (e & E9 & ->)].
      + apply readonly_edit_cmd in E9 as [-> ->]. by apply pipeline_writes in H.
      + by apply readonly_edit_cmd in E9 as [_ ->].
    - by injection H as _ _ <-. }
  exists [writes t9; writes t11; writes t13; writes t15].
  split_and!; [done | rewrite ?writes_app, Ht16; cbn [concat app]; by rewrite ?app_nil_r
              | unfold input_slots;
        repeat (constructor; [first [assumption | apply Hnone] |]);
        constructor].
Qed.

End HandlerWrites.

(** ** More concrete runs *)
Section MoreConcreteRuns.

Lemma run_id_echoed_or_generated_witness :
  let W := Sim.world Sim.all_good in
  let job := Sim.inline_request {[ "run_id" := VStr "job-42" ]} in
  let h := Handler.handler (W := W) job Sim.empty_disk in
  exists resp,
    h.1.1 = Ok resp /\
    resp !! "run_id" = Some (VStr "job-42") /\
    exists work_dir, head h.2 = Some (EvMkdtemp "vecset_job-42_" work_dir).
Proof.
  intros W job h.
  assert (Hs : Sim.status_is h.1.1 "ok" = true) by (vm_compute; reflexivity).
  apply status_is_inv in Hs as (resp & Hr & Hst).
  pose proof (run_eta h) as E. rewrite Hr in E.
  assert (Hdry : is_True (dict_get (default ∅ (job !! "input")) "dry_run") = false)
    by (vm_compute; reflexivity).
  pose proof (run_id_echoed_or_generated (W := W) job Sim.empty_disk resp h.1.2 h.2
                Hdry E Hst) as H.
  cbn zeta in H.
  assert (Hrid : (if truthy (dict_get (default ∅ (job !! "input")) "run_id")
                  then dict_get (default ∅ (job !! "input")) "run_id"
                  else VStr (utcnow_stamp Sim.empty_disk +:+ "_" +:+
                             String.substring 0 8 (uuid4_hex Sim.empty_disk)))
                 = VStr "job-42") by (vm_compute; reflexivity).
  rewrite Hrid in H. exists resp. exact (conj Hr H).
Defined.


Lemma stage_arguments_name_resolved_files_witness :
  let W := Sim.world Sim.all_good in
  let job := Sim.inline_request {[ "mesh_filename" := VStr "scans/chair.glb" ]} in
  let h := Handler.handler (W := W) job Sim.empty_disk in
  exists c1 p1 s1 input_dir,
    runs h.2 !! 0%nat = Some (c1, p1, s1) /\
    c1 !! 3%nat = Some input_dir /\
    c1 !! 7%nat = Some (os_path_basename (os_path_join input_dir "scans/chair.glb")) /\
    c1 !! 9%nat = Some "2d_edit.png" /\
    c1 !! 11%nat = Some "2d_mask.png".
Proof.
  intros W job h.
  assert (E0 : is_Some (runs h.2 !! 0%nat)) by (vm_compute; eauto).
  destruct (runs h.2 !! 0%nat) as [[[c1 p1] s1]|] eqn:Hrun; [| by destruct E0].
  destruct (stage_arguments_name_resolved_files (W := W) job Sim.empty_disk _ _ _
              c1 p1 s1 (run_eta h) Hrun)
    as (input_dir & n1 & n2 & n3 & N1 & N2 & N3 & H3 & H7 & H9 & H11).
  assert (M1 : Handler.py_or_name (default ∅ (job !! "input")) "mesh_filename" "model.glb"
               = VStr "scans/chair.glb") by (vm_compute; reflexivity).
  assert (M2 : Handler.py_or_name (default ∅ (job !! "input")) "edit_image_filename"
                 "2d_edit.png" = VStr "2d_edit.png") by (vm_compute; reflexivity).
  assert (M3 : Handler.py_or_name (default ∅ (job !! "input")) "mask_image_filename"
                 "2d_mask.png" = VStr "2d_mask.png") by (vm_compute; reflexivity).
  rewrite M1 in N1. rewrite M2 in N2. rewrite M3 in N3.
  injection N1 as <-. injection N2 as <-. injection N3 as <-.
  exists c1, p1, s1, input_dir.
  exact (conj eq_refl (conj H3 (conj H7 (conj H9 H11)))).
Defined.

Lemma texture_stage_consumes_edit_outputs_witness :
  let W := Sim.world Sim.all_good in
  let job := Sim.inline_request {[ "run_texture_repaint" := VBool true;
                                   "seed" := VFloat (mk_float 79 1);
                                   "render_method" := VStr "bpy" ]} in
  let h := Handler.handler (W := W) job Sim.empty_disk in
  exists c1 p1 s1 c2 p2 s2 od,
    runs h.2 !! 0%nat = Some (c1, p1, s1) /\
    runs h.2 !! 1%nat = Some (c2, p2, s2) /\
    c1 !! 5%nat = Some od /\
    c2 = ["python"; Handler.TEXTURE_SCRIPT;
          "--input_mesh"; os_path_join od "edited_mesh.glb";
          "--ref_mesh"; os_path_join od "source_model.glb";
          "--texture_image"; os_path_join od "2d_edit.png";
          "--output_dir"; od;
          "--seed"; "7";
          "--render_method"; "bpy"].
Proof.
  intros W job h.
  assert (E0 : is_Some (runs h.2 !! 0%nat)) by (vm_compute; eauto).
  assert (E1 : is_Some (runs h.2 !! 1%nat)) by (vm_compute; eauto).
  destruct (runs h.2 !! 0%nat) as [[[c1 p1] s1]|] eqn:Hrun1; [| by destruct E0].
  destruct (runs h.2 !! 1%nat) as [[[c2 p2] s2]|] eqn:Hrun2; [| by destruct E1].
  destruct (texture_stage_consumes_edit_outputs (W := W) job Sim.empty_disk _ _ _
              c1 p1 s1 c2 p2 s2 (run_eta h) Hrun1 Hrun2)
    as (od & seed & H5 & Hseed & _ & Hc2).
  vm_compute in Hseed. injection Hseed as <-.
  assert (Hm : default ∅ (job !! "input") !! "render_method" = Some (VStr "bpy"))
    by (vm_compute; reflexivity).
  rewrite Hm in Hc2.
  exists c1, p1, s1, c2, p2, s2, od.
  exact (conj eq_refl (conj eq_refl (conj H5 Hc2))).
Defined.

Lemma uncoercible_parameter_starts_no_stage_witness :
  let W := Sim.world Sim.all_good in
  let job := Sim.inline_request {[ "scale" := VNone ]} in
  let h := Handler.handler (W := W) job Sim.empty_disk in
  default ∅ (job !! "input") !! "scale" = Some VNone /\
  runs h.2 = [] /\
  forall resp, h.1.1 = Ok resp ->
    resp = Handler.dry_run_response \/
    (Handler.missing_slots (default ∅ (job !! "input")) <> [] /\
     resp = Handler.missing_response (Handler.missing_slots (default ∅ (job !! "input")))).
Proof.
  intros W job h.
  assert (Hv : default ∅ (job !! "input") !! "scale" = Some VNone)
    by (vm_compute; reflexivity).
  split; [exact Hv |].
  apply (uncoercible_parameter_starts_no_stage (W := W) job "scale" VNone Sim.empty_disk
           h.1.1 h.1.2 h.2); [| exact Hv | reflexivity | exact (run_eta h)].
  apply list_elem_of_In. right; right; left. reflexivity.
Defined.

Lemma uncoercible_seed_found_after_edit_stage_witness :
  let W := Sim.world Sim.all_good in
  let job := Sim.inline_request {[ "run_texture_repaint" := VBool true;
                                   "seed" := VList [] ]} in
  let h := Handler.handler (W := W) job Sim.empty_disk in
  exists c1 p1 s1,
    returncode p1 = 0 /\
    h.1.1 = Raise TypeError /\ runs h.2 = [(c1, p1, s1)] /\ archives h.2 = [] /\
    h.1.2 = s1.
Proof.
  intros W job h.
  assert (E : (fun x : list string * completed * St => returncode x.1.2 =? 0)
                <$> runs h.2 !! 0%nat = Some true) by (vm_compute; reflexivity).
  destruct (runs h.2 !! 0%nat) as [[[c1 p1] s1]|] eqn:Hrun; [| discriminate E].
  assert (Hrc : returncode p1 = 0).
  { injection E as E. cbn in E. by apply Z.eqb_eq. }
  assert (Ht : default ∅ (job !! "input") !! "run_texture_repaint" = Some (VBool true))
    by (vm_compute; reflexivity).
  assert (Hv : default ∅ (job !! "input") !! "seed" = Some (VList []))
    by (vm_compute; reflexivity).
  exists c1, p1, s1. split; [exact Hrc |].
  exact (uncoercible_seed_found_after_edit_stage (W := W) job (VList []) Sim.empty_disk
           h.1.1 h.1.2 h.2 c1 p1 s1 Ht Hv eq_refl (run_eta h) Hrun Hrc).
Defined.

Lemma inline_files_match_outputs_witness :
  let W := Sim.world Sim.all_good in
  let job := Sim.inline_request {[ "return_files" := VBool true ]} in
  let h := Handler.handler (W := W) job Sim.empty_disk in
  exists resp prefix work_dir c p sc names files,
    h.1.1 = Ok resp /\
    head h.2 = Some (EvMkdtemp prefix work_dir) /\
    last (runs h.2) = Some (c, p, sc) /\
    resp !! "outputs" = Some (VList (VStr <$> names)) /\
    resp !! "files" = Some (VDict files) /\
    files.*1 = names /\
    Forall2 (fun name entry =>
               exists data,
                 read_bytes sc (os_path_join (os_path_join work_dir "output") name)
                 = Some data /\
                 entry = VDict [("filename", VStr name);
                                ("size_bytes", VInt (Z.of_nat (length data)));
                                ("base64", VStr (b64encode data))])
            names files.*2.
Proof.
  intros W job h.
  assert (Hs : Sim.status_is h.1.1 "ok" = true) by (vm_compute; reflexivity).
  apply status_is_inv in Hs as (resp & Hr & Hst).
  pose proof (run_eta h) as E. rewrite Hr in E.
  assert (Hdry : is_True (dict_get (default ∅ (job !! "input")) "dry_run") = false)
    by (vm_compute; reflexivity).
  assert (Hf : default ∅ (job !! "input") !! "return_files" = Some (VBool true))
    by (vm_compute; reflexivity).
  destruct (inline_files_match_outputs (W := W) job Sim.empty_disk resp h.1.2 h.2
              Hdry Hf E Hst)
    as (prefix & wd & c & p & sc & names & files & H).
  exists resp, prefix, wd, c, p, sc, names, files. exact (conj Hr H).
Defined.

Lemma archive_exactly_when_requested_witness :
  let W := Sim.world Sim.all_good in
  let job := Sim.inline_request {[ "return_zip_base64" := VBool true ]} in
  let h := Handler.handler (W := W) job Sim.empty_disk in
  exists resp prefix work_dir ap data,
    h.1.1 = Ok resp /\
    head h.2 = Some (EvMkdtemp prefix work_dir) /\
    archives h.2 = [(os_path_join work_dir "results", os_path_join work_dir "output", ap)] /\
    last h.2 = Some (EvArchive (os_path_join work_dir "results")
                               (os_path_join work_dir "output") ap) /\
    read_bytes h.1.2 ap = Some data /\
    resp !! "zip" = Some (VDict [("filename", VStr (os_path_basename ap));
                                 ("size_bytes", VInt (Z.of_nat (length data)));
                                 ("base64", VStr (b64encode data))]).
Proof.
  intros W job h.
  assert (Hs : Sim.status_is h.1.1 "ok" = true) by (vm_compute; reflexivity).
  apply status_is_inv in Hs as (resp & Hr & Hst).
  assert (Hdry : is_True (dict_get (default ∅ (job !! "input")) "dry_run") = false)
    by (vm_compute; reflexivity).
  assert (Hz : is_True (dict_get (default ∅ (job !! "input")) "return_zip_base64") = true)
    by (vm_compute; reflexivity).
  destruct (archive_exactly_when_requested (W := W) job Sim.empty_disk h.1.1 h.1.2 h.2
              (run_eta h)) as (_ & _ & H).
  destruct (H resp Hr Hst Hdry Hz) as (prefix & wd & ap & data & H').
  exists resp, prefix, wd, ap, data. exact (conj Hr H').
Defined.

Lemma response_log_joins_stage_logs_witness :
  let W := Sim.world Sim.all_good in
  let job := Sim.inline_request {[ "run_texture_repaint" := VBool true ]} in
  let h := Handler.handler (W := W) job Sim.empty_disk in
  exists resp c1 p1 s1 c2 p2 s2,
    h.1.1 = Ok resp /\
    runs h.2 = [(c1, p1, s1); (c2, p2, s2)] /\
    resp !! "log" = Some (VStr (Handler.run_log c1 p1 +:+ nl +:+ nl +:+
                                Handler.run_log c2 p2)).
Proof.
  intros W job h.
  assert (Hs : Sim.status_is h.1.1 "ok" = true) by (vm_compute; reflexivity).
  apply status_is_inv in Hs as (resp & Hr & _).
  pose proof (run_eta h) as E. rewrite Hr in E.
  pose proof (response_log_joins_stage_logs (W := W) job Sim.empty_disk resp h.1.2 h.2 E)
    as H.
  assert (El : length (runs h.2) = 2%nat) by (vm_compute; reflexivity).
  destruct (runs h.2) as [|[[c1 p1] s1] [|[[c2 p2] s2] [|? ?]]]; try discriminate El.
  exists resp, c1, p1, s1, c2, p2, s2. exact (conj Hr (conj eq_refl H)).
Defined.


Lemma numeric_arguments_are_coerced_witness :
  let W := Sim.world Sim.all_good in
  let h := Handler.handler (W := W) (Sim.inline_request ∅) Sim.empty_disk in
  let h' := Handler.handler (W := W)
              (Sim.inline_request {[ "scale" := VInt 3;
                                     "attentive_2d" := VFloat (mk_float 89 1);
                                     "cut_off_p" := VFloat (mk_float 250 3);
                                     "step_pruning" := VBool true ]})
              Sim.empty_disk in
  (exists c1 p1 s1,
      runs h.2 !! 0%nat = Some (c1, p1, s1) /\
      take 20 (drop 12 c1) =
        ["--azimuth"; "0.0"; "--elevation"; "0.0"; "--scale"; "2.0";
         "--attentive_2d"; "8"; "--cut_off_p"; "0.5";
         "--topk_percent_2d"; "0.2"; "--threshold_percent_2d"; "0.1";
         "--step_pruning"; "5"; "--edit_strength"; "0.7";
         "--guidance_scale"; "7.5"]) /\
  (exists c1 p1 s1,
      runs h'.2 !! 0%nat = Some (c1, p1, s1) /\
      take 20 (drop 12 c1) =
        ["--azimuth"; "0.0"; "--elevation"; "0.0"; "--scale"; "3.0";
         "--attentive_2d"; "8"; "--cut_off_p"; "0.25";
         "--topk_percent_2d"; "0.2"; "--threshold_percent_2d"; "0.1";
         "--step_pruning"; "1"; "--edit_strength"; "0.7";
         "--guidance_scale"; "7.5"]).
Proof.
  intros W h h'. split.
  - assert (E0 : is_Some (runs h.2 !! 0%nat)) by (vm_compute; eauto).
    destruct (runs h.2 !! 0%nat) as [[[c1 p1] s1]|] eqn:Hrun; [| by destruct E0].
    destruct (numeric_arguments_are_coerced (W := W) (Sim.inline_request ∅) Sim.empty_disk
                _ _ _ c1 p1 s1 (run_eta h) Hrun) as [_ H].
    exists c1, p1, s1. split; [reflexivity |]. apply H.
    unfold numeric_keys. repeat (constructor; [vm_compute; reflexivity |]). constructor.
  - assert (E0 : is_Some (runs h'.2 !! 0%nat)) by (vm_compute; eauto).
    destruct (runs h'.2 !! 0%nat) as [[[c1 p1] s1]|] eqn:Hrun; [| by destruct E0].
    destruct (numeric_arguments_are_coerced (W := W) _ Sim.empty_disk
                _ _ _ c1 p1 s1 (run_eta h') Hrun) as [H _].
    destruct H as (az & el & sc & a2 & cp & tk & th & sp & es & gs & H).
    destruct H as (E1 & E2 & E3 & E4 & E5 & E6 & E7 & E8 & E9 & E10 & H).
    vm_compute in E1, E2, E3, E4, E5, E6, E7, E8, E9, E10.
    injection E1 as <-. injection E2 as <-. injection E3 as <-. injection E4 as <-.
    injection E5 as <-. injection E6 as <-. injection E7 as <-. injection E8 as <-.
    injection E9 as <-. injection E10 as <-.
    exists c1, p1, s1. exact (conj eq_refl H).
Defined.

Lemma gui_checks_uploads_before_allocating_witness :
  let W := Sim.world Sim.all_good in
  let f := App.mk_form (Some "/uploads/chair.glb") (Some "/uploads/2d_edit.png") None None
             (VFloat (mk_float 0 1)) (VFloat (mk_float 0 1)) (VFloat (mk_float 20 1))
             (VInt 8) (VFloat (mk_float 5 1)) (VFloat (mk_float 2 1))
             (VFloat (mk_float 1 1)) (VInt 5) (VFloat (mk_float 7 1))
             (VFloat (mk_float 75 1)) (VBool false) (VInt 99999) "nvdiffrast" in
  let g := App.run_vecset_edit (W := W) f Sim.uploads in
  let g' := App.run_vecset_edit (W := W) (Sim.upload_form false) Sim.uploads in
  (g.1.1 = Ok App.missing_inputs_tuple /\ g.1.2 = Sim.uploads /\ g.2 = []) /\
  exists rest,
    g'.2 = EvMakedirs "/srv/vecset/runs/20240101_120000_01234567/input"
             :: EvMakedirs "/srv/vecset/runs/20240101_120000_01234567/output" :: rest.
Proof.
  intros W f g g'. split.
  - exact (gui_checks_uploads_before_allocating (W := W) f Sim.uploads g.1.1 g.1.2 g.2
             (run_eta g)).
  - exact (gui_checks_uploads_before_allocating (W := W) (Sim.upload_form false) Sim.uploads
             g'.1.1 g'.1.2 g'.2 (run_eta g')).
Defined.

Lemma uploads_staged_under_base_names_witness :
  let W := Sim.world Sim.all_good in
  let f := App.mk_form (Some "/uploads/chair.glb") (Some "/uploads/a/view.png")
             (Some "/uploads/b/view.png") None
             (VFloat (mk_float 0 1)) (VFloat (mk_float 0 1)) (VFloat (mk_float 20 1))
             (VInt 8) (VFloat (mk_float 5 1)) (VFloat (mk_float 2 1))
             (VFloat (mk_float 1 1)) (VInt 5) (VFloat (mk_float 7 1))
             (VFloat (mk_float 75 1)) (VBool false) (VInt 99999) "nvdiffrast" in
  let disk : St := [("/uploads/chair.glb", []); ("/uploads/a/view.png", [Byte.x01]);
                    ("/uploads/b/view.png", [Byte.x02])] in
  let g := App.run_vecset_edit (W := W) f disk in
  exists c1 p1 s1 dst,
    runs g.2 !! 0%nat = Some (c1, p1, s1) /\
    copies g.2 !! 1%nat = Some ("/uploads/a/view.png", dst) /\
    copies g.2 !! 2%nat = Some ("/uploads/b/view.png", dst) /\
    c1 !! 9%nat = Some "view.png" /\
    c1 !! 11%nat = Some "view.png".
Proof.
  intros W f disk g.
  assert (E0 : is_Some (runs g.2 !! 0%nat)) by (vm_compute; eauto).
  destruct (runs g.2 !! 0%nat) as [[[c1 p1] s1]|] eqn:Hrun; [| by destruct E0].
  destruct (uploads_staged_under_base_names (W := W) f disk _ _ _ c1 p1 s1
              (run_eta g) Hrun) as (Hc & _ & _ & H9 & H11 & Hcol).
  assert (H1 : copies g.2 !! 1%nat
               = Some ("/uploads/a/view.png",
                       os_path_join (os_path_join (gui_run_dir (W := W) disk) "input")
                                    "view.png")).
  { rewrite Hc. reflexivity. }
  exists c1, p1, s1, (os_path_join (os_path_join (gui_run_dir (W := W) disk) "input")
                                   "view.png").
  exact (conj eq_refl (conj H1 (conj (Hcol 1%nat 2%nat _ "/uploads/b/view.png" _ H1
                                        eq_refl eq_refl) (conj H9 H11)))).
Defined.

Lemma gui_texture_stage_gate_and_arguments_witness :
  let W := Sim.world Sim.all_good in
  let f := App.mk_form (Some "/uploads/chair.glb") (Some "/uploads/2d_edit.png")
             (Some "/uploads/2d_mask.png") None
             (VFloat (mk_float 0 1)) (VFloat (mk_float 0 1)) (VFloat (mk_float 20 1))
             (VInt 8) (VFloat (mk_float 5 1)) (VFloat (mk_float 2 1))
             (VFloat (mk_float 1 1)) (VInt 5) (VFloat (mk_float 7 1))
             (VFloat (mk_float 75 1)) (VInt 1) (VInt 7) "bpy" in
  let g := App.run_vecset_edit (W := W) f Sim.uploads in
  exists c1 p1 s1 od p2 s2,
    c1 !! 5%nat = Some od /\
    runs g.2 = [(c1, p1, s1);
                (["/usr/bin/python3"; "preserving_texture_baking.py";
                  "--input_mesh"; os_path_join od "edited_mesh.glb";
                  "--ref_mesh"; os_path_join od "source_model.glb";
                  "--texture_image"; os_path_join od "2d_edit.png";
                  "--output_dir"; od;
                  "--seed"; "7";
                  "--render_method"; "bpy"], p2, s2)].
Proof.
  intros W f g.
  assert (E : (fun x : list string * completed * St => returncode x.1.2 =? 0)
                <$> runs g.2 !! 0%nat = Some true) by (vm_compute; reflexivity).
  destruct (runs g.2 !! 0%nat) as [[[c1 p1] s1]|] eqn:Hrun; [| discriminate E].
  injection E as E. cbn in E.
  destruct (gui_texture_stage_gate_and_arguments (W := W) f Sim.uploads _ _ _ c1 p1 s1
              (run_eta g) Hrun) as (od & H5 & H).
  rewrite E in H. destruct H as (p2 & s2 & H).
  exists c1, p1, s1, od, p2, s2. exact (conj H5 H).
Defined.

Lemma gui_archives_whenever_edit_succeeds_witness :
  let W := Sim.world Sim.texture_fails in
  let g := App.run_vecset_edit (W := W) (Sim.upload_form true) Sim.uploads in
  exists ap res,
    archives g.2 = [(os_path_join (gui_run_dir (W := W) Sim.uploads) "results",
                     os_path_join (gui_run_dir (W := W) Sim.uploads) "output", ap)] /\
    last g.2 = Some (EvArchive (os_path_join (gui_run_dir (W := W) Sim.uploads) "results")
                       (os_path_join (gui_run_dir (W := W) Sim.uploads) "output") ap) /\
    g.1.1 = Ok res /\ length res = 7%nat /\
    res !! 5%nat = Some (App.if_exists g.1.2 ap).
Proof.
  intros W g.
  assert (E : (fun x : list string * completed * St => returncode x.1.2 =? 0)
                <$> runs g.2 !! 0%nat = Some true) by (vm_compute; reflexivity).
  destruct (runs g.2 !! 0%nat) as [[[c1 p1] s1]|] eqn:Hrun; [| discriminate E].
  injection E as E. cbn in E.
  pose proof (gui_archives_whenever_edit_succeeds (W := W) (Sim.upload_form true)
                Sim.uploads _ _ _ c1 p1 s1 (run_eta g) Hrun) as H.
  cbn zeta in H. rewrite E in H. exact H.
Defined.

Lemma front_ends_pass_same_flags_witness :
  let W := Sim.world Sim.all_good in
  let h := Handler.handler (W := W) (Sim.inline_request ∅) Sim.empty_disk in
  let g := App.run_vecset_edit (W := W) (Sim.upload_form false) Sim.uploads in
  exists c1 p1 s1 g1 q1 u1 tail tailg,
    runs h.2 !! 0%nat = Some (c1, p1, s1) /\
    runs g.2 !! 0%nat = Some (g1, q1, u1) /\
    evens (drop 2 c1) = edit_flags ++ tail /\
    evens (drop 2 g1) = edit_flags ++ tailg /\
    (tail = [] \/ tail = ["--render_image"]) /\
    (tailg = [] \/ tailg = ["--render_image"]) /\
    length c1 = (32 + 2 * length tail)%nat /\
    length g1 = (32 + 2 * length tailg)%nat.
Proof.
  intros W h g.
  assert (E0 : is_Some (runs h.2 !! 0%nat)) by (vm_compute; eauto).
  assert (E1 : is_Some (runs g.2 !! 0%nat)) by (vm_compute; eauto).
  destruct (runs h.2 !! 0%nat) as [[[c1 p1] s1]|] eqn:Hrun; [| by destruct E0].
  destruct (runs g.2 !! 0%nat) as [[[g1 q1] u1]|] eqn:Hgrun; [| by destruct E1].
  destruct (front_ends_pass_same_flags (W := W) (Sim.inline_request ∅)
              (Sim.upload_form false) Sim.empty_disk Sim.uploads _ _ _ _ _ _
              c1 p1 s1 g1 q1 u1 (run_eta h) Hrun (run_eta g) Hgrun)
    as (tail & tailg & H).
  exists c1, p1, s1, g1, q1, u1, tail, tailg. exact (conj eq_refl (conj eq_refl H)).
Defined.

Lemma handler_writes_only_slot_files_witness :
  let W := Sim.world Sim.all_good in
  let job := Sim.inline_request ∅ in
  let h := Handler.handler (W := W) job Sim.empty_disk in
  length (writes h.2) = 3%nat /\
  exists prefix work_dir ws,
    head h.2 = Some (EvMkdtemp prefix work_dir) /\
    writes h.2 = concat ws /\
    Forall2 (slot_write (default ∅ (job !! "input")) (os_path_join work_dir "input"))
            input_slots ws.
Proof.
  intros W job h.
  assert (El : length (writes h.2) = 3%nat) by (vm_compute; reflexivity).
  split; [exact El |].
  destruct (handler_writes_only_slot_files (W := W) job Sim.empty_disk h.1.1 h.1.2 h.2
              (run_eta h)) as [Hw | H].
  - rewrite Hw in El. discriminate El.
  - exact H.
Defined.

End MoreConcreteRuns.
